(** * Router construction of cmd/gost/route.go

    A shallow embedding of [parseChain], [parseChainNode] and [GenRouters]
    (package main, file cmd/gost/route.go).  Everything route.go calls but
    does not define (the gost package, the Go standard library, the helper
    functions of the sibling files of package main, the file system and the
    network interfaces of the host) is gathered in one record of oracles,
    [Env]; the functions of route.go are executable once an [Env] is given. *)

From Stdlib Require Import ZArith Lia Ascii String.
From stdpp Require Import base option list gmap strings pretty.

Local Open Scope Z_scope.

(** ** Results of Go calls *)

Definition error : Type := string.

(** What an external call hands back: a value or a non-nil [error]. *)
Inductive result (A : Type) : Type :=
| Success (a : A)
| Failure (e : error).
Arguments Success {A} a.
Arguments Failure {A} e.

(** Run-time panics that the statements of route.go can raise. *)
Inductive panic : Type :=
| IndexOutOfRange
| NilDereference.

(** What a function of route.go does: it returns its value with a nil error,
    returns a non-nil error (every such [return] of route.go carries a nil
    value), or panics. *)
Inductive outcome (A : Type) : Type :=
| Ok (a : A)
| Err (e : error)
| Panic (p : panic).
Arguments Ok {A} a.
Arguments Err {A} e.
Arguments Panic {A} p.

Definition call {A} (r : result A) : outcome A :=
  match r with
  | Success a => Ok a
  | Failure e => Err e
  end.

#[global] Instance outcome_ret : MRet outcome := fun _ a => Ok a.
#[global] Instance outcome_bind : MBind outcome := fun _ _ f m =>
  match m with
  | Ok a => f a
  | Err e => Err e
  | Panic p => Panic p
  end.

(** ** Go's [int] (64 bits, two's complement) *)

Definition wrap64 (z : Z) : Z := (z + 2 ^ 63) `mod` 2 ^ 64 - 2 ^ 63.

(** [n++] on an [int]. *)
Definition incr (n : Z) : Z := wrap64 (n + 1).

(** ** Byte strings *)

(** [strings.IndexByte]: index of the first [c] in [s], or -1. *)
Fixpoint IndexByte (s : string) (c : ascii) : Z :=
  match s with
  | EmptyString => -1
  | String a rest =>
      if Ascii.eqb a c then 0
      else let i := IndexByte rest c in
           if i <? 0 then -1 else i + 1
  end.

(** The slice expressions [s[:i]] and [s[i:]] for [0 <= i <= len(s)]. *)
Definition slice_to (s : string) (i : Z) : string :=
  String.substring 0 (Z.to_nat i) s.
Definition slice_from (s : string) (i : Z) : string :=
  String.substring (Z.to_nat i) (String.length s - Z.to_nat i) s.

(** ** net/url *)

Module url.

(** [url.Userinfo]: a user name and an optional password. *)
Record Userinfo : Type := mkUserinfo {
  username : string;
  password : string;
  passwordSet : bool
}.

Definition User (u : string) : Userinfo := mkUserinfo u "" false.
Definition UserPassword (u p : string) : Userinfo := mkUserinfo u p true.

(** [url.Values] is [map[string][]string]; [Get] gives the first value of
    the key, or the empty string. *)
Definition Values : Type := gmap string (list string).

Definition Get (v : Values) (key : string) : string :=
  match v !! key with
  | Some (x :: _) => x
  | _ => ""
  end.

End url.

(** ** crypto/x509 and crypto/tls *)

Module x509.

Definition Certificate : Type := string.
Definition CertPool : Type := list Certificate.

Record VerifyOptions : Type := mkVerifyOptions {
  Roots : CertPool;
  CurrentTime : Z;
  DNSName : string;
  Intermediates : CertPool
}.

End x509.

Module tls.

Definition Certificate : Type := string.

Record ConnectionState : Type := mkConnectionState {
  PeerCertificates : list x509.Certificate
}.

(** The fields of [tls.Config] that route.go sets.  [VerifyConnection]
    takes the instant at which it runs (its body reads [time.Now()]). *)
Record Config : Type := mkConfig {
  ServerName : string;
  InsecureSkipVerify : bool;
  RootCAs : option x509.CertPool;
  VerifyConnection : option (Z -> ConnectionState -> outcome unit);
  Certificates : list Certificate
}.

End tls.

(** ** The gost package, as route.go sees it *)

Module gost.

Record WSOptions : Type := mkWSOptions {
  EnableCompression : bool;
  ReadBufferSize : Z;
  WriteBufferSize : Z;
  UserAgent : string;
  Path : string
}.

Record KCPConfig : Type := mkKCPConfig {
  TCP : bool;
  kcpSettings : string
}.

Definition SSHKey : Type := string.
Definition SSHAuthorizedKeys : Type := string.
Definition Bypass : Type := string.
Definition Hosts : Type := string.
Definition Permissions : Type := string.
Definition Resolver : Type := string.
Definition IP : Type := list Z.

Inductive Authenticator : Type :=
| SecretsAuthenticator (source : string)
| LocalAuthenticator (kvs : list (string * string)).

Record SSHConfig : Type := mkSSHConfig {
  sshAuthenticator : option Authenticator;
  sshTLSConfig : option tls.Config;
  Key : option SSHKey;
  AuthorizedKeys : option SSHAuthorizedKeys
}.

Inductive Transporter : Type :=
| TCPTransporter
| TLSTransporter
| MTLSTransporter
| WSTransporter (opts : WSOptions)
| MWSTransporter (opts : WSOptions)
| WSSTransporter (opts : WSOptions)
| MWSSTransporter (opts : WSOptions)
| KCPTransporter (config : KCPConfig)
| SSHForwardTransporter
| SSHTunnelTransporter
| HTTP2Transporter (cfg : tls.Config)
| H2Transporter (cfg : tls.Config) (path : string)
| H2CTransporter (path : string)
| Obfs4Transporter
| ObfsHTTPTransporter
| ObfsTLSTransporter
| FakeTCPTransporter
| UDPTransporter
| VSOCKTransporter.

Inductive Connector : Type :=
| HTTP2Connector (user : option url.Userinfo)
| SOCKS5Connector (user : option url.Userinfo)
| SOCKS4Connector
| SOCKS4AConnector
| ShadowConnector (user : option url.Userinfo)
| ShadowUDPConnector (user : option url.Userinfo)
| SSHDirectForwardConnector
| SSHRemoteForwardConnector
| ForwardConnector
| SNIConnector (host : string)
| HTTPConnector (user : option url.Userinfo)
| RelayConnector (user : option url.Userinfo)
| AutoConnector (user : option url.Userinfo).

Record Client : Type := mkClient {
  Connector_ : Connector;
  Transporter_ : Transporter
}.

Inductive DialOption : Type :=
| TimeoutDialOption (timeout : Z)
| HostDialOption (host : string).

Inductive ConnectOption : Type :=
| UserAgentConnectOption (ua : string)
| NoTLSConnectOption (b : bool)
| NoDelayConnectOption (b : bool).

Inductive HandshakeOption : Type :=
| AddrHandshakeOption (addr : string)
| HostHandshakeOption (host : string)
| UserHandshakeOption (user : option url.Userinfo)
| TLSConfigHandshakeOption (cfg : tls.Config)
| IntervalHandshakeOption (interval : Z)
| TimeoutHandshakeOption (timeout : Z)
| RetryHandshakeOption (retry : Z)
| SSHConfigHandshakeOption (config : SSHConfig).

(** The fields of [gost.Node] that route.go reads or writes.  [Client_] is
    a pointer ([*gost.Client]): an address in the store of clients, or
    nil. *)
Record Node : Type := mkNode {
  ID : Z;
  Addr : string;
  Host : string;
  Protocol : string;
  Transport : string;
  Remote : string;
  User : option url.Userinfo;
  Values : url.Values;
  DialOptions : list DialOption;
  ConnectOptions : list ConnectOption;
  HandshakeOptions : list HandshakeOption;
  Client_ : option nat;
  Bypass_ : option Bypass
}.

(** The zero value [Node{}]. *)
Definition zeroNode : Node :=
  mkNode 0 "" "" "" "" "" None ∅ [] [] [] None None.

Definition set_ID (v : Z) (n : Node) : Node :=
  mkNode v (Addr n) (Host n) (Protocol n) (Transport n) (Remote n) (User n)
    (Values n) (DialOptions n) (ConnectOptions n) (HandshakeOptions n)
    (Client_ n) (Bypass_ n).
Definition set_Addr (v : string) (n : Node) : Node :=
  mkNode (ID n) v (Host n) (Protocol n) (Transport n) (Remote n) (User n)
    (Values n) (DialOptions n) (ConnectOptions n) (HandshakeOptions n)
    (Client_ n) (Bypass_ n).
Definition set_User (v : option url.Userinfo) (n : Node) : Node :=
  mkNode (ID n) (Addr n) (Host n) (Protocol n) (Transport n) (Remote n) v
    (Values n) (DialOptions n) (ConnectOptions n) (HandshakeOptions n)
    (Client_ n) (Bypass_ n).
Definition set_DialOptions (v : list DialOption) (n : Node) : Node :=
  mkNode (ID n) (Addr n) (Host n) (Protocol n) (Transport n) (Remote n)
    (User n) (Values n) v (ConnectOptions n) (HandshakeOptions n)
    (Client_ n) (Bypass_ n).
Definition set_ConnectOptions (v : list ConnectOption) (n : Node) : Node :=
  mkNode (ID n) (Addr n) (Host n) (Protocol n) (Transport n) (Remote n)
    (User n) (Values n) (DialOptions n) v (HandshakeOptions n)
    (Client_ n) (Bypass_ n).
Definition set_HandshakeOptions (v : list HandshakeOption) (n : Node) : Node :=
  mkNode (ID n) (Addr n) (Host n) (Protocol n) (Transport n) (Remote n)
    (User n) (Values n) (DialOptions n) (ConnectOptions n) v
    (Client_ n) (Bypass_ n).
Definition set_Client (v : option nat) (n : Node) : Node :=
  mkNode (ID n) (Addr n) (Host n) (Protocol n) (Transport n) (Remote n)
    (User n) (Values n) (DialOptions n) (ConnectOptions n)
    (HandshakeOptions n) v (Bypass_ n).
Definition set_Bypass (v : option Bypass) (n : Node) : Node :=
  mkNode (ID n) (Addr n) (Host n) (Protocol n) (Transport n) (Remote n)
    (User n) (Values n) (DialOptions n) (ConnectOptions n)
    (HandshakeOptions n) (Client_ n) v.

(** [node.Get(key)] reads the option bag. *)
Definition Get (n : Node) (key : string) : string := url.Get (Values n) key.

(** Modelled from the spec: [Node.Clone] (node.go is not part of the
    sources at hand).  Each expanded node "inherits the base
    configuration": the clone is a copy of the struct, so it carries the
    same [Client_] pointer as the node it was cloned from. *)
Definition Clone (n : Node) : Node := n.

Inductive Filter : Type :=
| FailFilter (MaxFails : Z) (FailTimeout : Z)
| InvalidFilter.

Inductive Strategy : Type :=
| NewStrategy (name : string).

Record NodeGroup : Type := mkNodeGroup {
  gID : Z;
  nodes : list Node;
  filters : list Filter;
  strategy : option Strategy
}.

Definition NewNodeGroup : NodeGroup := mkNodeGroup 0 [] [] None.

Record Chain : Type := mkChain {
  Retries : Z;
  Mark : Z;
  Interface : string;
  nodeGroups : list NodeGroup
}.

Definition NewChain : Chain := mkChain 0 0 "" [].

(** Modelled from the spec: [NodeGroup.AddNode], [NodeGroup.SetSelector]
    and [Chain.AddNodeGroup] (the gost package is not part of the sources
    at hand): nodes join a group, and groups join the chain, "appended in
    spec order". *)
Definition AddNode (g : NodeGroup) (ns : list Node) : NodeGroup :=
  mkNodeGroup (gID g) (nodes g ++ ns) (filters g) (strategy g).
Definition SetSelector (g : NodeGroup) (fs : list Filter) (s : Strategy)
  : NodeGroup :=
  mkNodeGroup (gID g) (nodes g) fs (Some s).
Definition AddNodeGroup (c : Chain) (g : NodeGroup) : Chain :=
  mkChain (Retries c) (Mark c) (Interface c) (nodeGroups c ++ [g]).

(** Modelled from the spec: [Chain.LastNode] "exposes the last group's
    representative node", the first node of the last group; an empty chain
    or an empty last group gives the zero node. *)
Definition LastNode (c : Chain) : Node :=
  match last (nodeGroups c) with
  | Some g => match nodes g with
              | n :: _ => n
              | [] => zeroNode
              end
  | None => zeroNode
  end.

(** Modelled from the spec: [Chain.Nodes], the representative (first)
    node of every group that has one, in hop order. *)
Definition Nodes (c : Chain) : list Node :=
  omap (fun g => head (nodes g)) (nodeGroups c).

(** *** The serving side *)

Record UDPListenConfig : Type := mkUDPListenConfig {
  TTL : Z;
  Backlog : Z;
  QueueSize : Z
}.

Record FakeTCPListenConfig : Type := mkFakeTCPListenConfig {
  ftcpTTL : Z;
  ftcpBacklog : Z;
  ftcpQueueSize : Z
}.

Record IPRoute : Type := mkIPRoute {
  Dest : string;
  Gateway : option IP
}.

Record TunConfig : Type := mkTunConfig {
  tunName : string;
  tunAddr : string;
  tunPeer : string;
  tunMTU : Z;
  tunRoutes : list IPRoute;
  tunGateway : string
}.

Record TapConfig : Type := mkTapConfig {
  tapName : string;
  tapAddr : string;
  tapMTU : Z;
  tapRoutes : list string;
  tapGateway : string
}.

Record DNSOptions : Type := mkDNSOptions {
  Mode : string;
  dnsTLSConfig : option tls.Config
}.

(** A call of one of the listener constructors of the gost package, with
    its arguments.  The two remote-forward listeners also take the chain,
    which is the one chain of the route. *)
Inductive ListenerCall : Type :=
| TLSListener (addr : string) (cfg : option tls.Config)
| MTLSListener (addr : string) (cfg : option tls.Config)
| WSListener (addr : string) (opts : WSOptions)
| MWSListener (addr : string) (opts : WSOptions)
| WSSListener (addr : string) (cfg : option tls.Config) (opts : WSOptions)
| MWSSListener (addr : string) (cfg : option tls.Config) (opts : WSOptions)
| KCPListener (addr : string) (config : KCPConfig)
| TCPListener (addr : string)
| SSHTunnelListener (addr : string) (config : SSHConfig)
| HTTP2Listener (addr : string) (cfg : option tls.Config)
| H2Listener (addr : string) (cfg : option tls.Config) (path : string)
| H2CListener (addr : string) (path : string)
| VSOCKListener (addr : string)
| UDPListener (addr : string) (cfg : UDPListenConfig)
| TCPRemoteForwardListener (addr : string)
| UDPRemoteForwardListener (addr : string) (cfg : UDPListenConfig)
| Obfs4Listener (addr : string)
| ObfsHTTPListener (addr : string)
| ObfsTLSListener (addr : string)
| TunListener (cfg : TunConfig)
| TapListener (cfg : TapConfig)
| FakeTCPListener (addr : string) (cfg : FakeTCPListenConfig)
| DNSListener (addr : string) (opts : DNSOptions)
| UDPRedirectListener (addr : string) (cfg : UDPListenConfig).

(** A bound listener: the call that built it and what [ln.Addr().String()]
    answers. *)
Record Listener : Type := mkListener {
  built : ListenerCall;
  lnAddr : string
}.

Inductive HandlerKind : Type :=
| HTTP2Handler
| SOCKS5Handler
| SOCKS4Handler
| ShadowHandler
| HTTPHandler
| TCPDirectForwardHandler (remote : string)
| TCPRemoteForwardHandler (remote : string)
| UDPDirectForwardHandler (remote : string)
| UDPRemoteForwardHandler (remote : string)
| SSHForwardHandler
| TCPRedirectHandler
| UDPRedirectHandler
| ShadowUDPHandler
| SNIHandler
| TunHandler
| TapHandler
| DNSHandler (remote : string)
| RelayHandler (remote : string)
| AutoHandler.

Inductive ResolverOption : Type :=
| ChainResolverOption
| TimeoutResolverOption (timeout : Z)
| TTLResolverOption (ttl : Z)
| PreferResolverOption (prefer : string)
| SrcIPResolverOption (ip : option IP).

(** A resolver as [parseResolver] gives it, and the options of its
    [Init]. *)
Record ResolverState : Type := mkResolverState {
  resolverOf : Resolver;
  resolverOptions : list ResolverOption
}.

Inductive HandlerOption : Type :=
| AddrHandlerOption (addr : string)
| ChainHandlerOption
| UsersHandlerOption (user : option url.Userinfo)
| AuthenticatorHandlerOption (au : option Authenticator)
| TLSConfigHandlerOption (cfg : option tls.Config)
| WhitelistHandlerOption (p : option Permissions)
| BlacklistHandlerOption (p : option Permissions)
| StrategyHandlerOption (s : Strategy)
| MaxFailsHandlerOption (n : Z)
| FailTimeoutHandlerOption (d : Z)
| BypassHandlerOption (b : option Bypass)
| ResolverHandlerOption (r : option ResolverState)
| HostsHandlerOption (h : option Hosts)
| RetryHandlerOption (n : Z)
| TimeoutHandlerOption (d : Z)
| ProbeResistHandlerOption (pr : string)
| KnockingHandlerOption (host : string)
| NodeHandlerOption (node : Node)
| IPsHandlerOption (ips : list string)
| TCPModeHandlerOption (b : bool)
| IPRoutesHandlerOption (routes : list IPRoute)
| ProxyAgentHandlerOption (agent : string)
| HTTPTunnelHandlerOption (b : bool)
| PreserveSrcHandlerOption (b : bool)
| ProxyNetnsHandlerOption (netns : string).

(** A handler: which constructor made it, and the options its [Init]
    calls were given, in order. *)
Record Handler : Type := mkHandler {
  kind : HandlerKind;
  inits : list HandlerOption
}.

Definition Init (h : Handler) (opts : list HandlerOption) : Handler :=
  mkHandler (kind h) (inits h ++ opts).

Record Server : Type := mkServer {
  Listener_ : Listener
}.

End gost.

(** ** package net *)

Module net.

Definition IP : Type := gost.IP.

(** [IP.To4]: the 4-byte form of an IPv4 address (given in 4 bytes or as
    an IPv4-mapped 16-byte address), or nil. *)
Definition To4 (ip : IP) : option IP :=
  match ip with
  | [_; _; _; _] => Some ip
  | [0; 0; 0; 0; 0; 0; 0; 0; 0; 0; 255; 255; a; b; c; d] => Some [a; b; c; d]
  | _ => None
  end.

Record Interface : Type := mkInterface {
  Index : Z;
  Name : string
}.

Record TCPAddr : Type := mkTCPAddr {
  tcpIP : IP;
  Port : Z;
  Zone : string
}.

End net.

(** ** The environment of route.go *)

Import gost.

(** The store of [gost.Client] structs; a [*gost.Client] is an index. *)
Definition Store : Type := list Client.

Definition File : Type := string.

(** [peerConfig], as [parseChain] fills it in. *)
Record peerConfig : Type := mkPeerConfig {
  group : NodeGroup;
  baseNodes : list Node
}.

(** Everything route.go calls and does not define.  A call that can fail
    gives a [result]; [parseUsers] and [tlsConfig] give both of their
    results, because [GenRouters] goes on with the first one after an
    error. *)
Record Env : Type := mkEnv {
  (* gost *)
  ParseNode : string -> result Node;
  GetBool : Node -> string -> bool;
  GetInt : Node -> string -> Z;
  GetDuration : Node -> string -> Z;
  DefaultKCPConfig : KCPConfig;
  ParseSSHKeyFile : string -> result SSHKey;
  ParseSSHAuthorizedKeysFile : string -> result SSHAuthorizedKeys;
  ParsePermissions : string -> result Permissions;
  Obfs4Init : Node -> bool -> option error;
  listen : list Listener -> ListenerCall -> result string;
  (* package main, other files *)
  parseUsers : string -> list url.Userinfo * option error;
  parseAuthenticator : string -> result (option Authenticator);
  loadCA : string -> result (option x509.CertPool);
  tlsConfig : string -> string -> string -> option tls.Config * option error;
  parseKCPConfig : string -> result (option KCPConfig);
  parseBypass : string -> option Bypass;
  parseHosts : string -> option Hosts;
  parseIP : string -> string -> list string;
  parseIPRoutes : string -> list IPRoute;
  parseResolver : string -> option Resolver;
  Reload : Store -> peerConfig -> File ->
           Store * list Node * list Filter * option Strategy;
  (* the Go standard library and the host *)
  DecodeString : string -> result string;
  SplitHostPort : string -> string * string * option error;
  LoadX509KeyPair : string -> string -> result tls.Certificate;
  Verify : x509.Certificate -> x509.VerifyOptions -> option error;
  Split : string -> string -> list string;
  ParseIP : string -> option net.IP;
  Open : string -> result File;
  InterfaceByName : string -> result net.Interface;
  Addrs : net.Interface -> result (list net.IP);
  ResolveTCPAddr : string -> string -> result net.TCPAddr;
  TCPAddrString : net.TCPAddr -> string
}.

(** ** route.go *)

#[global] Instance Userinfo_eq_dec : EqDecision url.Userinfo.
Proof. solve_decision. Defined.

Record router : Type := mkRouter {
  node : Node;
  server : Server;
  handler : Handler;
  chain : Chain;
  resolver : option ResolverState;
  hosts : option Hosts
}.

Record route : Type := mkRoute {
  ServeNodes : list string;
  ChainNodes : list string;
  route_Retries : Z;
  route_Mark : Z;
  route_Interface : string
}.

Definition nonempty (s : string) : bool := negb (String.eqb s "").

(** [node.User] from the decoded [auth] option (lines 106-112). *)
Definition userOfAuth (cs : string) : url.Userinfo :=
  let s := IndexByte cs ":" in
  if s <? 0 then url.User cs
  else url.UserPassword (slice_to cs s) (slice_from cs (s + 1)).

(** The loop of the [VerifyConnection] closure: every certificate but the
    one at index 0 joins the pool. *)
Fixpoint addIntermediates (i : Z) (certs : list x509.Certificate)
  (pool : x509.CertPool) : x509.CertPool :=
  match certs with
  | [] => pool
  | cert :: rest =>
      if i =? 0 then addIntermediates (i + 1) rest pool
      else addIntermediates (i + 1) rest (pool ++ [cert])
  end.

(** [nodes[0]]. *)
Definition first {A} (l : list A) : outcome A :=
  match l with
  | x :: _ => Ok x
  | [] => Panic IndexOutOfRange
  end.

Section Route.

Context (E : Env).

(** The closure that [parseChainNode] installs as [VerifyConnection]
    (lines 142-160). *)
Definition manualVerify (rootCAs : x509.CertPool) (now : Z)
  (state : tls.ConnectionState) : outcome unit :=
  let opts0 := x509.mkVerifyOptions rootCAs now "" [] in
  let certs := tls.PeerCertificates state in
  let opts := x509.mkVerifyOptions (x509.Roots opts0) (x509.CurrentTime opts0)
                (x509.DNSName opts0)
                (addIntermediates 0 certs (x509.Intermediates opts0)) in
  leaf ← first certs;
  match Verify E leaf opts with
  | None => Ok ()
  | Some err => Err err
  end.

(** Lines 101-113, and again 342-354: the credential of the [auth]
    option, read only when the spec embeds none. *)
Definition authUser (node : Node) : outcome Node :=
  let auth := Get node "auth" in
  if nonempty auth && bool_decide (User node = None) then
    cs ← call (DecodeString E auth);
    Ok (set_User (Some (userOfAuth cs)) node)
  else Ok node.

(** Lines 101-122: the credential of a chain node. *)
Definition resolveUser (node : Node) : outcome Node :=
  node ← authUser node;
  match User node with
  | None =>
      let '(users, err) := parseUsers E (Get node "secrets") in
      match err with
      | Some err => Err err
      | None =>
          match users with
          | u :: _ => Ok (set_User (Some u) node)
          | [] => Ok node
          end
      end
  | Some _ => Ok node
  end.

(** Lines 124-165: the TLS configuration of a chain node. *)
Definition chainTLSConfig (node : Node) : outcome (tls.Config * string) :=
  let '(serverName, sport, _) := SplitHostPort E (Addr node) in
  let serverName := if nonempty serverName then serverName else "localhost" in
  rootCAs ← call (loadCA E (Get node "ca"));
  let tlsCfg :=
    tls.mkConfig serverName (negb (GetBool E node "secure")) rootCAs None [] in
  let tlsCfg :=
    match rootCAs with
    | Some pool =>
        if negb (GetBool E node "secure") then
          tls.mkConfig (tls.ServerName tlsCfg) (tls.InsecureSkipVerify tlsCfg)
            (tls.RootCAs tlsCfg) (Some (manualVerify pool))
            (tls.Certificates tlsCfg)
        else tlsCfg
    | None => tlsCfg
    end in
  let tlsCfg :=
    match LoadX509KeyPair E (Get node "cert") (Get node "key") with
    | Success cert =>
        tls.mkConfig (tls.ServerName tlsCfg) (tls.InsecureSkipVerify tlsCfg)
          (tls.RootCAs tlsCfg) (tls.VerifyConnection tlsCfg) [cert]
    | Failure _ => tlsCfg
    end in
  Ok (tlsCfg, sport).

(** [config == nil] after [parseKCPConfig]: the default configuration,
    with [TCP] set on request (lines 195-201 and 411-417). *)
Definition kcpConfig (node : Node) : outcome KCPConfig :=
  config ← call (parseKCPConfig E (Get node "c"));
  match config with
  | Some config => Ok config
  | None =>
      let conf := DefaultKCPConfig E in
      let conf := if GetBool E node "tcp"
                  then mkKCPConfig true (kcpSettings conf) else conf in
      Ok conf
  end.

(** Lines 176-229: the transporter, by transport key. *)
Definition selectTransporter (node : Node) (tlsCfg : tls.Config)
  (wsOpts : WSOptions) : outcome Transporter :=
  let tr := Transport node in
  if String.eqb tr "tls" then Ok TLSTransporter
  else if String.eqb tr "mtls" then Ok MTLSTransporter
  else if String.eqb tr "ws" then Ok (WSTransporter wsOpts)
  else if String.eqb tr "mws" then Ok (MWSTransporter wsOpts)
  else if String.eqb tr "wss" then Ok (WSSTransporter wsOpts)
  else if String.eqb tr "mwss" then Ok (MWSSTransporter wsOpts)
  else if String.eqb tr "kcp" then
    config ← kcpConfig node; Ok (KCPTransporter config)
  else if String.eqb tr "ssh" then
    if String.eqb (Protocol node) "direct" || String.eqb (Protocol node) "remote"
    then Ok SSHForwardTransporter
    else Ok SSHTunnelTransporter
  else if String.eqb tr "http2" then Ok (HTTP2Transporter tlsCfg)
  else if String.eqb tr "h2" then Ok (H2Transporter tlsCfg (Get node "path"))
  else if String.eqb tr "h2c" then Ok (H2CTransporter (Get node "path"))
  else if String.eqb tr "obfs4" then Ok Obfs4Transporter
  else if String.eqb tr "ohttp" then Ok ObfsHTTPTransporter
  else if String.eqb tr "otls" then Ok ObfsTLSTransporter
  else if String.eqb tr "ftcp" then Ok FakeTCPTransporter
  else if String.eqb tr "udp" then Ok UDPTransporter
  else if String.eqb tr "vsock" then Ok VSOCKTransporter
  else Ok TCPTransporter.

(** Lines 231-259: the connector, by protocol key. *)
Definition selectConnector (node : Node) : Connector :=
  let pr := Protocol node in
  if String.eqb pr "http2" then HTTP2Connector (User node)
  else if String.eqb pr "socks" || String.eqb pr "socks5"
  then SOCKS5Connector (User node)
  else if String.eqb pr "socks4" then SOCKS4Connector
  else if String.eqb pr "socks4a" then SOCKS4AConnector
  else if String.eqb pr "ss" then ShadowConnector (User node)
  else if String.eqb pr "ssu" then ShadowUDPConnector (User node)
  else if String.eqb pr "direct" then SSHDirectForwardConnector
  else if String.eqb pr "remote" then SSHRemoteForwardConnector
  else if String.eqb pr "forward" then ForwardConnector
  else if String.eqb pr "sni" then SNIConnector (Get node "host")
  else if String.eqb pr "http" then HTTPConnector (User node)
  else if String.eqb pr "relay" then RelayConnector (User node)
  else AutoConnector (User node).

(** Lines 317-323: the obfs4 negotiation of every node, in order; the
    first error ends it. *)
Fixpoint obfs4InitAll (nodes : list Node) : outcome unit :=
  match nodes with
  | [] => Ok ()
  | nd :: rest =>
      match Obfs4Init E nd false with
      | Some err => Err err
      | None => obfs4InitAll rest
      end
  end.

(** Lines 303-315: one node per IP, or the base node alone. *)
Definition expandIPs (node : Node) (handshakeOptions : list HandshakeOption)
  (ips : list string) : list Node :=
  let nodes :=
    fold_left (fun nodes ip =>
                 let nd := Clone node in
                 let nd := set_Addr ip nd in
                 let nd := set_HandshakeOptions
                             (handshakeOptions ++ [AddrHandshakeOption ip]) nd in
                 nodes ++ [nd])
              ips [] in
  if (Z.of_nat (length ips) =? 0)
  then [set_HandshakeOptions handshakeOptions node]
  else nodes.

(** Lines 167-172. *)
Definition chainWSOptions (node : Node) : WSOptions :=
  mkWSOptions (GetBool E node "compression") (GetInt E node "rbuf")
    (GetInt E node "wbuf") (Get node "agent") (Get node "path").

(** Lines 261-264. *)
Definition chainHost (node : Node) : string :=
  let host := Get node "host" in
  if nonempty host then host else Host node.

(** Lines 266-275. *)
Definition withDialConnectOptions (node : Node) (timeout : Z) (host : string)
  : Node :=
  let node := set_DialOptions
                (DialOptions node ++
                 [TimeoutDialOption timeout; HostDialOption host]) node in
  set_ConnectOptions
    [UserAgentConnectOption (Get node "agent");
     NoTLSConnectOption (GetBool E node "notls");
     NoDelayConnectOption (GetBool E node "nodelay")] node.

(** Lines 277-284. *)
Definition chainSSHConfig (node : Node) : outcome SSHConfig :=
  let sshConfig := mkSSHConfig None None None None in
  let s := Get node "ssh_key" in
  if nonempty s then
    key ← call (ParseSSHKeyFile E s);
    Ok (mkSSHConfig (sshAuthenticator sshConfig) (sshTLSConfig sshConfig)
          (Some key) (AuthorizedKeys sshConfig))
  else Ok sshConfig.

(** Lines 285-294. *)
Definition chainHandshakeOptions (node : Node) (host : string)
  (tlsCfg : tls.Config) (timeout : Z) (sshConfig : SSHConfig)
  : list HandshakeOption :=
  [AddrHandshakeOption (Addr node);
   HostHandshakeOption host;
   UserHandshakeOption (User node);
   TLSConfigHandshakeOption tlsCfg;
   IntervalHandshakeOption (GetDuration E node "ping");
   TimeoutHandshakeOption timeout;
   RetryHandshakeOption (GetInt E node "retry");
   SSHConfigHandshakeOption sshConfig].

(** Lines 296-301: the client struct is allocated at [ptr]. *)
Definition withClient (node : Node) (ptr : nat) : Node :=
  let node := set_Client (Some ptr) node in
  set_Bypass (parseBypass E (Get node "bypass")) node.

Definition parseChainNode (st : Store) (ns : string)
  : outcome (list Node * Store) :=
  node ← call (ParseNode E ns);
  node ← resolveUser node;
  '(tlsCfg, sport) ← chainTLSConfig node;
  let wsOpts := chainWSOptions node in
  let timeout := GetDuration E node "timeout" in
  tr ← selectTransporter node tlsCfg wsOpts;
  let connector := selectConnector node in
  let host := chainHost node in
  let node := withDialConnectOptions node timeout host in
  sshConfig ← chainSSHConfig node;
  let handshakeOptions :=
    chainHandshakeOptions node host tlsCfg timeout sshConfig in
  let ptr := length st in
  let st := st ++ [mkClient connector tr] in
  let node := withClient node ptr in
  let ips := parseIP E (Get node "ip") sport in
  let nodes := expandIPs node handshakeOptions ips in
  _ ← (if String.eqb (Transport node) "obfs4"
       then obfs4InitAll nodes else Ok ());
  Ok (nodes, st).

(** Lines 56-60: node IDs, counted from [nid]. *)
Fixpoint assignIDs (nodes : list Node) (nid : Z) : list Node :=
  match nodes with
  | [] => []
  | nd :: rest => set_ID nid nd :: assignIDs rest (incr nid)
  end.

(** Lines 74-87: the peer file of a group.  The periodic reload that is
    started in the background is recorded with its file. *)
Definition loadPeers (ngroup : NodeGroup) (nodes : list Node) (cfg : string)
  (st : Store) (bg : list (peerConfig * string))
  : outcome (NodeGroup * Store * list (peerConfig * string)) :=
  if nonempty cfg then
    f ← call (Open E cfg);
    let peerCfg := mkPeerConfig ngroup nodes in
    let '(st, members, fs, strat) := Reload E st peerCfg f in
    let ngroup := mkNodeGroup (gID ngroup) members fs strat in
    Ok (ngroup, st, bg ++ [(mkPeerConfig ngroup nodes, cfg)])
  else Ok (ngroup, st, bg).

(** The loop of [parseChain] (lines 45-90). *)
Fixpoint parseChainLoop (specs : list string) (gid : Z) (chain : Chain)
  (st : Store) (bg : list (peerConfig * string))
  : outcome (Chain * Store * list (peerConfig * string)) :=
  match specs with
  | [] => Ok (chain, st, bg)
  | ns :: rest =>
      let ngroup := mkNodeGroup gid (nodes NewNodeGroup)
                      (filters NewNodeGroup) (strategy NewNodeGroup) in
      let gid := incr gid in
      '(nodes, st) ← parseChainNode st ns;
      let nodes := assignIDs nodes 1 in
      let ngroup := AddNode ngroup nodes in
      n0 ← first nodes;
      let ngroup :=
        SetSelector ngroup
          [FailFilter (GetInt E n0 "max_fails") (GetDuration E n0 "fail_timeout");
           InvalidFilter]
          (NewStrategy (Get n0 "strategy")) in
      '(ngroup, st, bg) ← loadPeers ngroup nodes (Get n0 "peer") st bg;
      parseChainLoop rest gid (AddNodeGroup chain ngroup) st bg
  end.

Definition parseChain (r : route)
  : outcome (Chain * Store * list (peerConfig * string)) :=
  let chain := NewChain in
  let chain := mkChain (route_Retries r) (route_Mark r) (route_Interface r)
                 (nodeGroups chain) in
  parseChainLoop (ChainNodes r) 1 chain [] [].

(** *** GenRouters *)

(** Lines 451-454 and 504-507: when the last chain node is forward+ssh its
    client, a struct shared through its pointer, gets the SSH port-forward
    connector and transporter. *)
Definition sshForwardLastNode (chain : Chain) (conn : Connector) (st : Store)
  : outcome Store :=
  if String.eqb (Protocol (LastNode chain)) "forward"
     && String.eqb (Transport (LastNode chain)) "ssh"
  then
    match last (Nodes chain) with
    | None => Panic IndexOutOfRange
    | Some nd =>
        match Client_ nd with
        | None => Panic NilDereference
        | Some ptr =>
            let st := alter (fun c => mkClient conn (Transporter_ c)) ptr st in
            let st := alter (fun c => mkClient (Connector_ c)
                                        SSHForwardTransporter) ptr st in
            Ok st
        end
    end
  else Ok st.

(** Lines 471-475: the first address of the interface that has a 4-byte
    form. *)
Fixpoint firstIPv4 (addrs : list net.IP) : option net.IP :=
  match addrs with
  | [] => None
  | addr :: rest =>
      match net.To4 addr with
      | Some ipv4Addr => Some ipv4Addr
      | None => firstIPv4 rest
      end
  end.

(** Lines 457-492: the listen address of the "tcp" listener. *)
Definition tcpListenAddr (node : Node) : outcome string :=
  let addr := Addr node in
  let ifName := Get node "sourceInterface" in
  if nonempty ifName then
    match InterfaceByName E ifName with
    | Failure _ => Err ("your interface " +:+ ifName +:+ " is error")
    | Success ief =>
        match Addrs E ief with
        | Failure _ =>
            Err ("your interface " +:+ ifName +:+ " is does not have address")
        | Success addrs =>
            match firstIPv4 addrs with
            | None =>
                Err ("your interface " +:+ ifName
                     +:+ " don't have an ipv4 address" +:+ String "010" "")
            | Some ipv4Addr =>
                laddr ← call (ResolveTCPAddr E "tcp" addr);
                let tAddr := net.mkTCPAddr ipv4Addr (net.Port laddr)
                               (net.Zone laddr) in
                Ok (TCPAddrString E tAddr)
            end
        end
    end
  else Ok addr.

(** Lines 419-442: the configuration of the "ssh" listener. *)
Definition sshListenConfig (node : Node) (authenticator : option Authenticator)
  (tlsCfg : option tls.Config) : outcome SSHConfig :=
  let config := mkSSHConfig authenticator tlsCfg None None in
  config ← (let s := Get node "ssh_key" in
            if nonempty s then
              key ← call (ParseSSHKeyFile E s);
              Ok (mkSSHConfig (sshAuthenticator config) (sshTLSConfig config)
                    (Some key) (AuthorizedKeys config))
            else Ok config);
  let s := Get node "ssh_authorized_keys" in
  if nonempty s then
    keys ← call (ParseSSHAuthorizedKeysFile E s);
    Ok (mkSSHConfig (sshAuthenticator config) (sshTLSConfig config)
          (Key config) (Some keys))
  else Ok config.

(** Lines 392-570: which listener constructor is called, by transport
    key, and with what; the store changes in the "tcp" and "rtcp"
    branches. *)
Definition selectListener (chain : Chain) (node : Node)
  (authenticator : option Authenticator) (tlsCfg : option tls.Config)
  (wsOpts : WSOptions) (ttl : Z) (tunRoutes : list IPRoute) (st : Store)
  : outcome (ListenerCall * Store) :=
  let tr := Transport node in
  let udpCfg := mkUDPListenConfig ttl (GetInt E node "backlog")
                  (GetInt E node "queue") in
  if String.eqb tr "tls" then Ok (TLSListener (Addr node) tlsCfg, st)
  else if String.eqb tr "mtls" then Ok (MTLSListener (Addr node) tlsCfg, st)
  else if String.eqb tr "ws" then Ok (WSListener (Addr node) wsOpts, st)
  else if String.eqb tr "mws" then Ok (MWSListener (Addr node) wsOpts, st)
  else if String.eqb tr "wss" then Ok (WSSListener (Addr node) tlsCfg wsOpts, st)
  else if String.eqb tr "mwss"
  then Ok (MWSSListener (Addr node) tlsCfg wsOpts, st)
  else if String.eqb tr "kcp" then
    config ← kcpConfig node; Ok (KCPListener (Addr node) config, st)
  else if String.eqb tr "ssh" then
    config ← sshListenConfig node authenticator tlsCfg;
    if String.eqb (Protocol node) "forward"
    then Ok (TCPListener (Addr node), st)
    else Ok (SSHTunnelListener (Addr node) config, st)
  else if String.eqb tr "http2" then Ok (HTTP2Listener (Addr node) tlsCfg, st)
  else if String.eqb tr "h2"
  then Ok (H2Listener (Addr node) tlsCfg (Get node "path"), st)
  else if String.eqb tr "h2c"
  then Ok (H2CListener (Addr node) (Get node "path"), st)
  else if String.eqb tr "tcp" then
    st ← sshForwardLastNode chain SSHDirectForwardConnector st;
    addr ← tcpListenAddr node;
    Ok (TCPListener addr, st)
  else if String.eqb tr "vsock" then Ok (VSOCKListener (Addr node), st)
  else if String.eqb tr "udp" then Ok (UDPListener (Addr node) udpCfg, st)
  else if String.eqb tr "rtcp" then
    st ← sshForwardLastNode chain SSHRemoteForwardConnector st;
    Ok (TCPRemoteForwardListener (Addr node), st)
  else if String.eqb tr "rudp"
  then Ok (UDPRemoteForwardListener (Addr node) udpCfg, st)
  else if String.eqb tr "obfs4" then
    match Obfs4Init E node true with
    | Some err => Err err
    | None => Ok (Obfs4Listener (Addr node), st)
    end
  else if String.eqb tr "ohttp" then Ok (ObfsHTTPListener (Addr node), st)
  else if String.eqb tr "otls" then Ok (ObfsTLSListener (Addr node), st)
  else if String.eqb tr "tun" then
    Ok (TunListener (mkTunConfig (Get node "name") (Get node "net")
                       (Get node "peer") (GetInt E node "mtu") tunRoutes
                       (Get node "gw")), st)
  else if String.eqb tr "tap" then
    Ok (TapListener (mkTapConfig (Get node "name") (Get node "net")
                       (GetInt E node "mtu") (Split E (Get node "route") ",")
                       (Get node "gw")), st)
  else if String.eqb tr "ftcp" then
    Ok (FakeTCPListener (Addr node)
          (mkFakeTCPListenConfig ttl (GetInt E node "backlog")
             (GetInt E node "queue")), st)
  else if String.eqb tr "dns" then
    Ok (DNSListener (Addr node) (mkDNSOptions (Get node "mode") tlsCfg), st)
  else if String.eqb tr "redu" || String.eqb tr "redirectu"
  then Ok (UDPRedirectListener (Addr node) udpCfg, st)
  else Ok (TCPListener (Addr node), st).

(** Lines 575-620: the handler, by protocol key. *)
Definition selectHandler (node : Node) : HandlerKind :=
  let pr := Protocol node in
  if String.eqb pr "http2" then HTTP2Handler
  else if String.eqb pr "socks" || String.eqb pr "socks5" then SOCKS5Handler
  else if String.eqb pr "socks4" || String.eqb pr "socks4a" then SOCKS4Handler
  else if String.eqb pr "ss" then ShadowHandler
  else if String.eqb pr "http" then HTTPHandler
  else if String.eqb pr "tcp" then TCPDirectForwardHandler (Remote node)
  else if String.eqb pr "rtcp" then TCPRemoteForwardHandler (Remote node)
  else if String.eqb pr "udp" then UDPDirectForwardHandler (Remote node)
  else if String.eqb pr "rudp" then UDPRemoteForwardHandler (Remote node)
  else if String.eqb pr "forward" then SSHForwardHandler
  else if String.eqb pr "red" || String.eqb pr "redirect"
  then TCPRedirectHandler
  else if String.eqb pr "redu" || String.eqb pr "redirectu"
  then UDPRedirectHandler
  else if String.eqb pr "ssu" then ShadowUDPHandler
  else if String.eqb pr "sni" then SNIHandler
  else if String.eqb pr "tun" then TunHandler
  else if String.eqb pr "tap" then TapHandler
  else if String.eqb pr "dns" then DNSHandler (Remote node)
  else if String.eqb pr "relay" then RelayHandler (Remote node)
  else if nonempty (Remote node) then TCPDirectForwardHandler (Remote node)
  else AutoHandler.

(** Lines 337-693: the router of one serve-node spec.  [rts] are the
    routers built so far, whose listeners are bound already. *)
Definition genRouter (chain : Chain) (rts : list router) (st : Store)
  (ns : string) : outcome (router * Store) :=
  node ← call (ParseNode E ns);
  node ← authUser node;
  authenticator ← call (parseAuthenticator E (Get node "secrets"));
  let authenticator :=
    match authenticator, User node with
    | None, Some u =>
        Some (LocalAuthenticator [(url.username u, url.password u)])
    | _, _ => authenticator
    end in
  let node :=
    match User node with
    | None =>
        match fst (parseUsers E (Get node "secrets")) with
        | u :: _ => set_User (Some u) node
        | [] => node
        end
    | Some _ => node
    end in
  let certFile := Get node "cert" in
  let keyFile := Get node "key" in
  let '(tlsCfg, err) := tlsConfig E certFile keyFile (Get node "ca") in
  _ ← match err with
      | Some err =>
          if nonempty certFile && nonempty keyFile then Err err else Ok ()
      | None => Ok ()
      end;
  let wsOpts := mkWSOptions (GetBool E node "compression")
                  (GetInt E node "rbuf") (GetInt E node "wbuf") ""
                  (Get node "path") in
  let ttl := GetDuration E node "ttl" in
  let timeout := GetDuration E node "timeout" in
  let tunRoutes := parseIPRoutes E (Get node "route") in
  let gw := ParseIP E (Get node "gw") in
  let tunRoutes :=
    map (fun rt => match Gateway rt with
                   | None => mkIPRoute (Dest rt) gw
                   | Some _ => rt
                   end) tunRoutes in
  '(lnCall, st) ← selectListener chain node authenticator tlsCfg wsOpts ttl
                    tunRoutes st;
  bound ← call (listen E (map (fun rt => Listener_ (server rt)) rts) lnCall);
  let ln := mkListener lnCall bound in
  let handler := mkHandler (selectHandler node) [] in
  whitelist ← (if nonempty (url.Get (Values node) "whitelist") then
                 p ← call (ParsePermissions E (Get node "whitelist"));
                 Ok (Some p)
               else Ok None);
  blacklist ← (if nonempty (url.Get (Values node) "blacklist") then
                 p ← call (ParsePermissions E (Get node "blacklist"));
                 Ok (Some p)
               else Ok None);
  let node := set_Bypass (parseBypass E (Get node "bypass")) node in
  let hosts := parseHosts E (Get node "hosts") in
  let ips := parseIP E (Get node "ip") "" in
  let resolver :=
    match parseResolver E (Get node "dns") with
    | Some rs =>
        Some (mkResolverState rs
                [ChainResolverOption;
                 TimeoutResolverOption timeout;
                 TTLResolverOption ttl;
                 PreferResolverOption (Get node "prefer");
                 SrcIPResolverOption (ParseIP E (Get node "ip"))])
    | None => None
    end in
  let handler :=
    Init handler
      [AddrHandlerOption (lnAddr ln);
       ChainHandlerOption;
       UsersHandlerOption (User node);
       AuthenticatorHandlerOption authenticator;
       TLSConfigHandlerOption tlsCfg;
       WhitelistHandlerOption whitelist;
       BlacklistHandlerOption blacklist;
       StrategyHandlerOption (NewStrategy (Get node "strategy"));
       MaxFailsHandlerOption (GetInt E node "max_fails");
       FailTimeoutHandlerOption (GetDuration E node "fail_timeout");
       BypassHandlerOption (Bypass_ node);
       ResolverHandlerOption resolver;
       HostsHandlerOption hosts;
       RetryHandlerOption (GetInt E node "retry");
       TimeoutHandlerOption timeout;
       ProbeResistHandlerOption (Get node "probe_resist");
       KnockingHandlerOption (Get node "knock");
       NodeHandlerOption node;
       IPsHandlerOption ips;
       TCPModeHandlerOption (GetBool E node "tcp");
       IPRoutesHandlerOption tunRoutes;
       ProxyAgentHandlerOption (Get node "proxyAgent");
       HTTPTunnelHandlerOption (GetBool E node "httpTunnel")] in
  let handler :=
    if String.eqb (Protocol node) "red" || String.eqb (Protocol node) "redirect"
    then Init handler
           [PreserveSrcHandlerOption (GetBool E node "preserveSrc");
            ProxyNetnsHandlerOption (Get node "proxyNetns")]
    else handler in
  Ok (mkRouter node (mkServer ln) handler chain resolver hosts, st).

(** The loop of [GenRouters] (lines 336-694). *)
Fixpoint serveLoop (chain : Chain) (specs : list string) (rts : list router)
  (st : Store) : outcome (list router * Store) :=
  match specs with
  | [] => Ok (rts, st)
  | ns :: rest =>
      '(rt, st) ← genRouter chain rts st ns;
      serveLoop chain rest (rts ++ [rt]) st
  end.

(** [GenRouters] gives the routers; the store of clients that the nodes of
    their chain point into comes with them. *)
Definition GenRouters (r : route) : outcome (list router * Store) :=
  '(chain, st, _) ← parseChain r;
  serveLoop chain (ServeNodes r) [] st.

End Route.

(** ** A small host to run route.go on

    A host is given by tables: the node specs that parse, the files that can
    be read, the base64 strings that decode, the network interfaces with
    their addresses, the listen addresses that resolve, and the node
    addresses whose obfs4 negotiation fails. *)

Module Demo.

Record host : Type := mkHost {
  specs : list (string * Node);
  files : list string;
  base64 : list (string * string);
  interfaces : list (string * list net.IP);
  tcpAddrs : list (string * net.TCPAddr);
  obfs4Down : list string
}.

Definition assoc {A} (k : string) (t : list (string * A)) : option A :=
  snd <$> List.find (fun p => String.eqb (fst p) k) t.

Definition readable (h : host) (f : string) : bool :=
  existsb (String.eqb f) (files h).

(** The fields of [s] between the separators [c]. *)
Fixpoint splitOn (c : ascii) (s : string) : list string :=
  match s with
  | EmptyString => [EmptyString]
  | String a rest =>
      if Ascii.eqb a c then EmptyString :: splitOn c rest
      else match splitOn c rest with
           | f :: fs => String a f :: fs
           | [] => [String a EmptyString]
           end
  end.

(** Host and port around the last colon; no colon is an error. *)
Definition splitHostPort (addr : string) : string * string * option error :=
  match reverse (splitOn ":" addr) with
  | port :: (_ :: _) as hostRev =>
      (String.concat ":" (reverse hostRev), port, None)
  | _ => ("", "", Some "missing port in address")
  end.

Definition dotted (ip : net.IP) : string :=
  String.concat "." (map (fun b : Z => pretty b) ip).

Definition noFile (f : string) : error := "open " +:+ f +:+ ": no such file".

Definition env (h : host) : Env := {|
  ParseNode ns :=
    match assoc ns (specs h) with
    | Some n => Success n
    | None => Failure "invalid node"
    end;
  GetBool n k := String.eqb (Get n k) "true" || String.eqb (Get n k) "1";
  GetInt n k := 0;
  GetDuration n k := 0;
  DefaultKCPConfig := mkKCPConfig false "default";
  ParseSSHKeyFile f := if readable h f then Success f else Failure (noFile f);
  ParseSSHAuthorizedKeysFile f :=
    if readable h f then Success f else Failure (noFile f);
  ParsePermissions p := Success p;
  Obfs4Init n _ :=
    if existsb (String.eqb (Addr n)) (obfs4Down h)
    then Some "obfs4: negotiation failed" else None;
  listen _ c :=
    match c with
    | TLSListener a _ | MTLSListener a _ | WSListener a _ | MWSListener a _
    | WSSListener a _ _ | MWSSListener a _ _ | KCPListener a _
    | TCPListener a | SSHTunnelListener a _ | HTTP2Listener a _
    | H2Listener a _ _ | H2CListener a _ | VSOCKListener a | UDPListener a _
    | TCPRemoteForwardListener a | UDPRemoteForwardListener a _
    | Obfs4Listener a | ObfsHTTPListener a | ObfsTLSListener a
    | FakeTCPListener a _ | DNSListener a _ | UDPRedirectListener a _ =>
        Success a
    | TunListener cfg => Success (tunAddr cfg)
    | TapListener cfg => Success (tapAddr cfg)
    end;
  parseUsers f :=
    if String.eqb f "" then ([], None)
    else if readable h f then ([url.UserPassword "admin" "secret"], None)
    else ([], Some (noFile f));
  parseAuthenticator f :=
    if String.eqb f "" then Success None
    else if readable h f then Success (Some (SecretsAuthenticator f))
    else Failure (noFile f);
  loadCA f :=
    if String.eqb f "" then Success None
    else if readable h f then Success (Some [f])
    else Failure (noFile f);
  tlsConfig certFile keyFile ca :=
    if readable h certFile && readable h keyFile
    then (Some (tls.mkConfig "" false None None [certFile +:+ keyFile]), None)
    else (None, Some (noFile certFile));
  parseKCPConfig f :=
    if String.eqb f "" then Success None
    else if readable h f then Success (Some (mkKCPConfig false f))
    else Failure (noFile f);
  parseBypass b := if String.eqb b "" then None else Some b;
  parseHosts f := if String.eqb f "" then None else Some f;
  parseIP s port :=
    if String.eqb s "" then []
    else map (fun ip => ip +:+ ":" +:+ (if String.eqb port "" then "8080" else port))
           (splitOn "," s);
  parseIPRoutes _ := [];
  parseResolver d := if String.eqb d "" then None else Some d;
  Reload st cfg _ :=
    (st, baseNodes cfg, filters (group cfg), strategy (group cfg));
  DecodeString s :=
    match assoc s (base64 h) with
    | Some cs => Success cs
    | None => Failure "illegal base64 data"
    end;
  SplitHostPort := splitHostPort;
  LoadX509KeyPair certFile keyFile :=
    if readable h certFile && readable h keyFile
    then Success (certFile +:+ keyFile) else Failure (noFile certFile);
  Verify leaf opts :=
    if existsb (String.eqb leaf) (x509.Roots opts) then None
    else Some "x509: certificate signed by unknown authority";
  Split s sep :=
    match sep with
    | String c EmptyString => splitOn c s
    | _ => [s]
    end;
  ParseIP _ := None;
  Open f := if readable h f then Success f else Failure (noFile f);
  InterfaceByName name :=
    match assoc name (interfaces h) with
    | Some _ => Success (net.mkInterface 1 name)
    | None => Failure "route ip+net: no such network interface"
    end;
  Addrs ief := Success (default [] (assoc (net.Name ief) (interfaces h)));
  ResolveTCPAddr _ addr :=
    match assoc addr (tcpAddrs h) with
    | Some a => Success a
    | None => Failure ("address " +:+ addr +:+ ": cannot resolve")
    end;
  TCPAddrString a :=
    dotted (net.tcpIP a)
    +:+ (if String.eqb (net.Zone a) "" then "" else "%" +:+ net.Zone a)
    +:+ ":" +:+ pretty (net.Port a)
|}.

(** A parsed spec: protocol, transport, address, credential and options. *)
Definition spec (protocol transport addr : string)
  (user : option url.Userinfo) (opts : list (string * string)) : Node :=
  mkNode 0 addr addr protocol transport "" user
    (list_to_map ((fun kv => (fst kv, [snd kv])) <$> opts)) [] [] [] None None.

End Demo.

(** ** Views used to state the properties *)

(** The node of a chain spec once its dial and connect options are set. *)
Definition dialed (E : Env) (n : Node) : Node :=
  withDialConnectOptions E n (GetDuration E n "timeout") (chainHost n).

(** The base node of a chain spec, with its client allocated after [st]. *)
Definition chainBase (E : Env) (st : Store) (n : Node) : Node :=
  withClient E (dialed E n) (length st).

(** The handshake options shared by the nodes of a chain spec. *)
Definition chainHandshake (E : Env) (n : Node) (tlsCfg : tls.Config)
  (ssh : SSHConfig) : list HandshakeOption :=
  chainHandshakeOptions E (dialed E n) (chainHost n) tlsCfg
    (GetDuration E n "timeout") ssh.

(** The node that IP expansion makes for [ip]. *)
Definition expanded (node : Node) (hs : list HandshakeOption) (ip : string)
  : Node :=
  set_HandshakeOptions (hs ++ [AddrHandshakeOption ip])
    (set_Addr ip (Clone node)).

(** The TLS configuration among the handshake options of a node. *)
Definition tlsConfigOf (nd : Node) : list tls.Config :=
  omap (fun o => match o with
                 | TLSConfigHandshakeOption cfg => Some cfg
                 | _ => None
                 end) (HandshakeOptions nd).

(** The transport keys with a [case] of their own in [parseChainNode]. *)
Definition chainTransports : list string :=
  ["tls"; "mtls"; "ws"; "mws"; "wss"; "mwss"; "kcp"; "ssh"; "http2"; "h2";
   "h2c"; "obfs4"; "ohttp"; "otls"; "ftcp"; "udp"; "vsock"].

(** The protocol keys with a [case] of their own in [parseChainNode]. *)
Definition chainProtocols : list string :=
  ["http2"; "socks"; "socks5"; "socks4"; "socks4a"; "ss"; "ssu"; "direct";
   "remote"; "forward"; "sni"; "http"; "relay"].

(** The protocol keys with a [case] of their own in [GenRouters]. *)
Definition serveProtocols : list string :=
  ["http2"; "socks"; "socks5"; "socks4"; "socks4a"; "ss"; "http"; "tcp";
   "rtcp"; "udp"; "rudp"; "forward"; "red"; "redirect"; "redu"; "redirectu";
   "ssu"; "sni"; "tun"; "tap"; "dns"; "relay"].

(** The group that [parseChain] builds for the spec [ns] under the ID [gid]:
    its base nodes are the nodes of the spec, numbered from 1; they are its
    members, unless the first of them names a peer file, in which case the
    members are what reloading from that file gives. *)
Definition groupOf (E : Env) (gid : Z) (ns : string) (g : NodeGroup) : Prop :=
  gID g = gid /\
  exists st0 parsed st1 n0,
    parseChainNode E st0 ns = Ok (parsed, st1) /\
    head (assignIDs parsed 1) = Some n0 /\
    let selected :=
      mkNodeGroup gid (assignIDs parsed 1)
        [FailFilter (GetInt E n0 "max_fails") (GetDuration E n0 "fail_timeout");
         InvalidFilter]
        (Some (NewStrategy (Get n0 "strategy"))) in
    (Get n0 "peer" = "" -> g = selected) /\
    (Get n0 "peer" <> "" ->
     exists f st2,
       Open E (Get n0 "peer") = Success f /\
       nodes g = (Reload E st2 (mkPeerConfig selected (assignIDs parsed 1)) f).1.1.2).

(** A chain-node spec is valid on a host when it parses, whatever clients
    were allocated before it, and the peer file it names, if any, opens. *)
Definition validSpec (E : Env) (ns : string) : Prop :=
  forall st : Store,
    exists parsed st',
      parseChainNode E st ns = Ok (parsed, st') /\
      forall n0, head (assignIDs parsed 1) = Some n0 ->
                 Get n0 "peer" <> "" ->
                 exists f, Open E (Get n0 "peer") = Success f.

(** Two nodes with the same configuration: they agree on every field but the
    address and the handshake options. *)
Definition sameConfig (a b : Node) : Prop :=
  ID a = ID b /\ Host a = Host b /\ Protocol a = Protocol b /\
  Transport a = Transport b /\ Remote a = Remote b /\ User a = User b /\
  Values a = Values b /\ DialOptions a = DialOptions b /\
  ConnectOptions a = ConnectOptions b /\ Client_ a = Client_ b /\
  Bypass_ a = Bypass_ b.

(** The port that [parseChainNode] hands to [parseIP]. *)
Definition sportOf (E : Env) (n : Node) : string :=
  (SplitHostPort E (Addr n)).1.2.

(** The server name of the TLS configuration of a chain node. *)
Definition serverNameOf (E : Env) (n : Node) : string :=
  let host := (SplitHostPort E (Addr n)).1.1 in
  if nonempty host then host else "localhost".

(** The key pair of the [cert] and [key] options, when it loads. *)
Definition loadedPair (E : Env) (n : Node) : list tls.Certificate :=
  match LoadX509KeyPair E (Get n "cert") (Get n "key") with
  | Success cert => [cert]
  | Failure _ => []
  end.

(** The node of a serve spec once its credential is settled (lines 364-368):
    without one, the first user of the secrets file, if any. *)
Definition served (E : Env) (n : Node) : Node :=
  match User n with
  | None =>
      match (parseUsers E (Get n "secrets")).1 with
      | u :: _ => set_User (Some u) n
      | [] => n
      end
  | Some _ => n
  end.

(** The first IPv4 address of the interface called [ifName], if the
    interface exists, gives its addresses and has one. *)
Definition interfaceIPv4 (E : Env) (ifName : string) : option net.IP :=
  match InterfaceByName E ifName with
  | Success ief =>
      match Addrs E ief with
      | Success addrs => firstIPv4 addrs
      | Failure _ => None
      end
  | Failure _ => None
  end.

(** The listen address that a listener constructor is given; the tun and
    tap listeners are given none. *)
Definition listenAddrOf (c : ListenerCall) : option string :=
  match c with
  | TLSListener a _ | MTLSListener a _ | WSListener a _ | MWSListener a _
  | WSSListener a _ _ | MWSSListener a _ _ | KCPListener a _
  | TCPListener a | SSHTunnelListener a _ | HTTP2Listener a _
  | H2Listener a _ _ | H2CListener a _ | VSOCKListener a | UDPListener a _
  | TCPRemoteForwardListener a | UDPRemoteForwardListener a _
  | Obfs4Listener a | ObfsHTTPListener a | ObfsTLSListener a
  | FakeTCPListener a _ | DNSListener a _ | UDPRedirectListener a _ => Some a
  | TunListener _ | TapListener _ => None
  end.

(** The same host with other network interfaces. *)
Definition withInterfaces (byName : string -> result net.Interface)
  (addrs : net.Interface -> result (list net.IP)) (E : Env) : Env :=
  mkEnv (ParseNode E) (GetBool E) (GetInt E) (GetDuration E)
    (DefaultKCPConfig E) (ParseSSHKeyFile E) (ParseSSHAuthorizedKeysFile E)
    (ParsePermissions E) (Obfs4Init E) (listen E) (parseUsers E)
    (parseAuthenticator E) (loadCA E) (tlsConfig E) (parseKCPConfig E)
    (parseBypass E) (parseHosts E) (parseIP E) (parseIPRoutes E)
    (parseResolver E) (Reload E) (DecodeString E) (SplitHostPort E)
    (LoadX509KeyPair E) (Verify E) (Split E) (ParseIP E) (Open E)
    byName addrs (ResolveTCPAddr E) (TCPAddrString E).

(** The reading of the interface override that covers every serve node:
    whenever a spec names a source interface without an IPv4 address to
    take, [GenRouters] returns an error. *)
Definition failsFastOnInterface (E : Env) (r : route) : Prop :=
  forall (ns : string) (n0 : Node),
    ns ∈ ServeNodes r ->
    ParseNode E ns = Success n0 ->
    Get n0 "sourceInterface" <> "" ->
    interfaceIPv4 E (Get n0 "sourceInterface") = None ->
    exists e, GenRouters E r = Err e.

(** The reading of the frame property that covers every transport but
    "tcp": the listener is built on the address of the spec. *)
Definition boundToSpecAddr (E : Env) (ch : Chain) (rts : list router)
  (st : Store) (ns : string) : Prop :=
  forall (n0 : Node) (rt : router) (st' : Store),
    ParseNode E ns = Success n0 ->
    Transport n0 <> "tcp" ->
    genRouter E ch rts st ns = Ok (rt, st') ->
    listenAddrOf (built (Listener_ (server rt))) = Some (Addr n0).

(** The reading of the abort conditions that covers the client key pair:
    whenever the pair does not load, [parseChainNode] returns an error. *)
Definition abortsOnKeyPair (E : Env) (st : Store) (ns : string) : Prop :=
  forall (n0 : Node) (e : error),
    ParseNode E ns = Success n0 ->
    LoadX509KeyPair E (Get n0 "cert") (Get n0 "key") = Failure e ->
    exists e', parseChainNode E st ns = Err e'.

Module Hosts.

Import Demo.

(** A host with one interface, [tailscale0], that has an IPv6 and an IPv4
    address; one readable file, [ca.pem]; no [eth7]. *)
Definition office : host := {|
  specs :=
    [("socks5://u:p@10.0.0.1:1080",
      spec "socks5" "tcp" "10.0.0.1:1080" (Some (url.UserPassword "u" "p")) []);
     ("http://10.0.0.2:8080?ip=1.2.3.4,1.2.3.5",
      spec "http" "tcp" "10.0.0.2:8080" None [("ip", "1.2.3.4,1.2.3.5")]);
     ("socks5://10.0.0.3:1080?auth=dTpw",
      spec "socks5" "tcp" "10.0.0.3:1080" None [("auth", "dTpw")]);
     ("http2://10.0.0.4:443?cert=client.pem&key=client.key&ca=ca.pem",
      spec "http2" "http2" "10.0.0.4:443" None
        [("cert", "client.pem"); ("key", "client.key"); ("ca", "ca.pem")]);
     ("gopher+carrier://10.0.0.5:70",
      spec "gopher" "carrier" "10.0.0.5:70" None []);
     ("red://:12345?sourceInterface=tailscale0",
      spec "red" "tcp" ":12345" None [("sourceInterface", "tailscale0")]);
     ("red://:12345?sourceInterface=eth7",
      spec "red" "tcp" ":12345" None [("sourceInterface", "eth7")]);
     ("socks5+ws://:8080?sourceInterface=eth7",
      spec "socks5" "ws" ":8080" None [("sourceInterface", "eth7")]);
     ("tun://:0?net=10.1.0.1/24&sourceInterface=eth7",
      spec "tun" "tun" ":0" None
        [("net", "10.1.0.1/24"); ("sourceInterface", "eth7")]);
     ("gopher://:7070", spec "gopher" "tcp" ":7070" None [])];
  files := ["ca.pem"];
  base64 := [("dTpw", "u:p")];
  interfaces :=
    [("tailscale0",
      [[253; 122; 17; 92; 161; 224; 0; 0; 0; 0; 0; 0; 0; 0; 0; 1];
       [100; 64; 0; 1]])];
  tcpAddrs := [(":12345", net.mkTCPAddr [] 12345 "")];
  obfs4Down := []
|}.

Definition serving (ns : string) : route := mkRoute [ns] [] 0 0 "".

Definition chaining (nss : list string) : route := mkRoute [] nss 0 0 "".

End Hosts.

(** Why [parseChainNode] gives up on a spec, with the error it returns: the
    spec does not parse; the [auth] option, read because the spec embeds no
    credential, is not base64; the secrets file, read because there is still
    no credential, cannot be read; the CA file cannot be read; the KCP
    configuration of a "kcp" node cannot be read; the SSH key file cannot be
    read; or the obfs4 negotiation of one of the expanded nodes fails (the
    first that does).  Each cause presumes that the steps before it went
    through. *)
Inductive abortCause (E : Env) (st : Store) (ns : string) : error -> Prop :=
| MalformedSpec e :
    ParseNode E ns = Failure e ->
    abortCause E st ns e
| MalformedAuth n0 e :
    ParseNode E ns = Success n0 ->
    User n0 = None -> Get n0 "auth" <> "" ->
    DecodeString E (Get n0 "auth") = Failure e ->
    abortCause E st ns e
| UnreadableSecrets n0 n1 users e :
    ParseNode E ns = Success n0 ->
    authUser E n0 = Ok n1 -> User n1 = None ->
    parseUsers E (Get n1 "secrets") = (users, Some e) ->
    abortCause E st ns e
| UnreadableCA n0 n1 e :
    ParseNode E ns = Success n0 ->
    resolveUser E n0 = Ok n1 ->
    loadCA E (Get n1 "ca") = Failure e ->
    abortCause E st ns e
| UnreadableKCPConfig n0 n1 pool e :
    ParseNode E ns = Success n0 ->
    resolveUser E n0 = Ok n1 ->
    loadCA E (Get n1 "ca") = Success pool ->
    Transport n1 = "kcp" ->
    parseKCPConfig E (Get n1 "c") = Failure e ->
    abortCause E st ns e
| UnreadableSSHKey n0 n1 cfg tr e :
    ParseNode E ns = Success n0 ->
    resolveUser E n0 = Ok n1 ->
    chainTLSConfig E n1 = Ok (cfg, sportOf E n1) ->
    selectTransporter E n1 cfg (chainWSOptions E n1) = Ok tr ->
    Get n1 "ssh_key" <> "" ->
    ParseSSHKeyFile E (Get n1 "ssh_key") = Failure e ->
    abortCause E st ns e
| FailedNegotiation n0 n1 cfg tr ssh pre nd post e :
    ParseNode E ns = Success n0 ->
    resolveUser E n0 = Ok n1 ->
    chainTLSConfig E n1 = Ok (cfg, sportOf E n1) ->
    selectTransporter E n1 cfg (chainWSOptions E n1) = Ok tr ->
    chainSSHConfig E (dialed E n1) = Ok ssh ->
    Transport n1 = "obfs4" ->
    expandIPs (chainBase E st n1) (chainHandshake E n1 cfg ssh)
      (parseIP E (Get n1 "ip") (sportOf E n1)) = pre ++ nd :: post ->
    Forall (fun x => Obfs4Init E x false = None) pre ->
    Obfs4Init E nd false = Some e ->
    abortCause E st ns e.

(** ** Proof steps that recur *)

(** Case analysis on everything a goal branches on. *)
Ltac split_cases :=
  repeat first
    [ discriminate
    | progress simpl
    | match goal with
      | |- context [match ?x with _ => _ end] => destruct x eqn:?
      end ].

(** Rewriting the tests on keys that are outside a list of cases. *)
Ltac default_branch not_in H :=
  repeat match goal with
         | |- context [String.eqb ?s ?k] =>
             rewrite (not_in s _ k H) by repeat constructor
         end.

Ltac evaluated := vm_compute; reflexivity.

Ltac not_listed :=
  let H := fresh in
  intros H;
  repeat (apply elem_of_cons in H as [H | H]; [discriminate H |]);
  by apply elem_of_nil in H.

(** ** Views for further properties of route.go *)

(** The authenticator of a serve node (lines 355-363): the one that
    [parseAuthenticator] gives, or, when it gives none and the node has a
    credential by then, a local one holding that single credential. *)
Definition serveAuthenticator (au0 : option Authenticator) (n1 : Node)
  : option Authenticator :=
  match au0, User n1 with
  | None, Some u => Some (LocalAuthenticator [(url.username u, url.password u)])
  | _, _ => au0
  end.

(** Whether the protocol key is one of the two TCP redirect keys. *)
Definition isRedirect (n : Node) : bool :=
  String.eqb (Protocol n) "red" || String.eqb (Protocol n) "redirect".

(** Whether the last node of the chain is forward+ssh. *)
Definition lastIsSSHForward (ch : Chain) : bool :=
  String.eqb (Protocol (LastNode ch)) "forward"
  && String.eqb (Transport (LastNode ch)) "ssh".

(** The two options of the second [Init] of a redirect handler. *)
Definition isSecondPass (o : HandlerOption) : bool :=
  match o with
  | PreserveSrcHandlerOption _ | ProxyNetnsHandlerOption _ => true
  | _ => false
  end.

Module Sites.

Import Demo.

(** A host with two interfaces: [wg0] with an IPv6 address only, [lo] with
    an IPv4 address; one readable file, [kcp.json]; no listen address
    resolves. *)
Definition branch : host := {|
  specs :=
    [("forward+ssh://10.9.0.1:22", spec "forward" "ssh" "10.9.0.1:22" None []);
     ("socks5://10.9.0.2:1080?peer=peers.txt",
      spec "socks5" "tcp" "10.9.0.2:1080" None [("peer", "peers.txt")]);
     ("http://admin:pw@:8080",
      spec "http" "tcp" ":8080" (Some (url.UserPassword "admin" "pw")) []);
     ("red://:12345", spec "red" "tcp" ":12345" None []);
     ("tcp://:2222", spec "tcp" "tcp" ":2222" None []);
     ("http+tls://:443?cert=server.pem&key=server.key",
      spec "http" "tls" ":443" None
        [("cert", "server.pem"); ("key", "server.key")]);
     ("forward+ssh://:2222?ssh_key=id_rsa",
      spec "forward" "ssh" ":2222" None [("ssh_key", "id_rsa")]);
     ("socks5+kcp://:4000?c=kcp.json&tcp=true",
      spec "socks5" "kcp" ":4000" None [("c", "kcp.json"); ("tcp", "true")]);
     ("http://:8081?whitelist=tcp:*",
      spec "http" "tcp" ":8081" None [("whitelist", "tcp:*")]);
     ("red://:12345?sourceInterface=wg0",
      spec "red" "tcp" ":12345" None [("sourceInterface", "wg0")])];
  files := ["kcp.json"];
  base64 := [];
  interfaces :=
    [("wg0", [[253; 0; 0; 0; 0; 0; 0; 0; 0; 0; 0; 0; 0; 0; 0; 1]]);
     ("lo", [[127; 0; 0; 1]])];
  tcpAddrs := [];
  obfs4Down := []
|}.

End Sites.

(** ** Basic facts *)

Lemma bind_Ok_inv {A B} (m : outcome A) (f : A -> outcome B) (b : B) :
  m ≫= f = Ok b -> exists a, m = Ok a /\ f a = Ok b.
Proof. destruct m; simpl; [eauto | discriminate..]. Qed.

Lemma call_Ok_inv {A} (r : result A) (a : A) : call r = Ok a -> r = Success a.
Proof. destruct r; simpl; congruence. Qed.

Lemma call_no_panic {A} (r : result A) (p : panic) : call r <> Panic p.
Proof. destruct r; discriminate. Qed.

Lemma nonempty_true (s : string) : nonempty s = true <-> s <> "".
Proof.
  unfold nonempty. rewrite negb_true_iff. split.
  - intros H ->. discriminate.
  - intros H. apply String.eqb_neq. exact H.
Qed.

Lemma nonempty_false (s : string) : nonempty s = false <-> s = "".
Proof.
  unfold nonempty. rewrite negb_false_iff. apply String.eqb_eq.
Qed.

Lemma eqb_not_in (s : string) (l : list string) (k : string) :
  s ∉ l -> k ∈ l -> String.eqb s k = false.
Proof.
  intros Hs Hk. apply String.eqb_neq. intros ->. contradiction.
Qed.

(** *** IP expansion *)

Lemma expand_fold (node : Node) (hs : list HandshakeOption)
  (ips : list string) (acc : list Node) :
  fold_left (fun nodes ip =>
               let nd := Clone node in
               let nd := set_Addr ip nd in
               let nd := set_HandshakeOptions
                           (hs ++ [AddrHandshakeOption ip]) nd in
               nodes ++ [nd]) ips acc
  = acc ++ map (expanded node hs) ips.
Proof.
  revert acc. induction ips as [|ip ips IH]; intros acc; simpl.
  - by rewrite app_nil_r.
  - rewrite IH. by rewrite <- app_assoc.
Qed.

Lemma expandIPs_nil (node : Node) (hs : list HandshakeOption) :
  expandIPs node hs [] = [set_HandshakeOptions hs node].
Proof. reflexivity. Qed.

Lemma expandIPs_cons (node : Node) (hs : list HandshakeOption)
  (ip : string) (ips : list string) :
  expandIPs node hs (ip :: ips) = map (expanded node hs) (ip :: ips).
Proof.
  unfold expandIPs. rewrite expand_fold.
  replace (Z.of_nat (length (ip :: ips)) =? 0) with false; [done |].
  symmetry. apply Z.eqb_neq. simpl. lia.
Qed.

Lemma expandIPs_not_nil (node : Node) (hs : list HandshakeOption)
  (ips : list string) : expandIPs node hs ips <> [].
Proof.
  destruct ips; [rewrite expandIPs_nil | rewrite expandIPs_cons]; discriminate.
Qed.

(** *** The steps of [parseChainNode] *)

Lemma authUser_frame (E : Env) (n n' : Node) :
  authUser E n = Ok n' ->
  Addr n' = Addr n /\ Host n' = Host n /\ Protocol n' = Protocol n /\
  Transport n' = Transport n /\ Remote n' = Remote n /\ Values n' = Values n.
Proof.
  unfold authUser. destruct (_ && _).
  - intros H. apply bind_Ok_inv in H as (cs & _ & H). by inversion H.
  - intros H. by inversion H.
Qed.

Lemma resolveUser_frame (E : Env) (n n' : Node) :
  resolveUser E n = Ok n' ->
  Addr n' = Addr n /\ Host n' = Host n /\ Protocol n' = Protocol n /\
  Transport n' = Transport n /\ Remote n' = Remote n /\ Values n' = Values n.
Proof.
  unfold resolveUser. intros H. apply bind_Ok_inv in H as (n1 & H1 & H).
  apply authUser_frame in H1 as (<- & <- & <- & <- & <- & <-).
  destruct (User n1); [by inversion H |].
  destruct (parseUsers E _) as [users [err|]]; [discriminate |].
  destruct users; by inversion H.
Qed.

Lemma obfs4InitAll_no_panic (E : Env) (nodes : list Node) (p : panic) :
  obfs4InitAll E nodes <> Panic p.
Proof.
  induction nodes as [|nd rest IH]; simpl; [discriminate |].
  destruct (Obfs4Init E nd false); [discriminate | exact IH].
Qed.

(** What a successful [parseChainNode] went through. *)
Lemma parseChainNode_Ok (E : Env) (st : Store) (ns : string)
  (nodes : list Node) (st' : Store) :
  parseChainNode E st ns = Ok (nodes, st') ->
  exists n0 n1 tlsCfg sport tr ssh,
    ParseNode E ns = Success n0 /\
    resolveUser E n0 = Ok n1 /\
    chainTLSConfig E n1 = Ok (tlsCfg, sport) /\
    selectTransporter E n1 tlsCfg (chainWSOptions E n1) = Ok tr /\
    chainSSHConfig E (dialed E n1) = Ok ssh /\
    st' = st ++ [mkClient (selectConnector n1) tr] /\
    nodes = expandIPs (chainBase E st n1) (chainHandshake E n1 tlsCfg ssh)
              (parseIP E (Get n1 "ip") sport) /\
    (Transport n1 = "obfs4" -> obfs4InitAll E nodes = Ok ()).
Proof.
  unfold parseChainNode. intros H.
  apply bind_Ok_inv in H as (n0 & H0 & H). apply call_Ok_inv in H0.
  apply bind_Ok_inv in H as (n1 & H1 & H).
  apply bind_Ok_inv in H as ([tlsCfg sport] & H2 & H).
  apply bind_Ok_inv in H as (tr & H3 & H).
  apply bind_Ok_inv in H as (ssh & H4 & H).
  apply bind_Ok_inv in H as (u & H5 & H).
  inversion H; subst; clear H.
  exists n0, n1, tlsCfg, sport, tr, ssh.
  repeat split; try assumption.
  intros Htr. simpl in H5. rewrite Htr in H5. simpl in H5. by destruct u.
Qed.

Lemma bind_Panic_inv {A B} (m : outcome A) (f : A -> outcome B) (p : panic) :
  m ≫= f = Panic p -> m = Panic p \/ exists a, m = Ok a /\ f a = Panic p.
Proof. destruct m; simpl; [eauto | discriminate | intros [= ->]; by left]. Qed.

Lemma authUser_no_panic (E : Env) (n : Node) (p : panic) :
  authUser E n <> Panic p.
Proof. unfold authUser, call. split_cases. Qed.

Lemma resolveUser_no_panic (E : Env) (n : Node) (p : panic) :
  resolveUser E n <> Panic p.
Proof.
  unfold resolveUser. intros H.
  apply bind_Panic_inv in H as [H | (n1 & _ & H)].
  - by apply authUser_no_panic in H.
  - revert H. split_cases.
Qed.

Lemma chainTLSConfig_no_panic (E : Env) (n : Node) (p : panic) :
  chainTLSConfig E n <> Panic p.
Proof. unfold chainTLSConfig, call. split_cases. Qed.

Lemma kcpConfig_no_panic (E : Env) (n : Node) (p : panic) :
  kcpConfig E n <> Panic p.
Proof. unfold kcpConfig, call. split_cases. Qed.

Lemma selectTransporter_no_panic (E : Env) (n : Node) (cfg : tls.Config)
  (ws : WSOptions) (p : panic) :
  selectTransporter E n cfg ws <> Panic p.
Proof.
  unfold selectTransporter. intros H.
  repeat match type of H with
         | context [if String.eqb ?a ?b then _ else _] =>
             destruct (String.eqb a b)
         end; try discriminate.
  - apply bind_Panic_inv in H as [H | (c & _ & H)]; [| discriminate].
    by apply kcpConfig_no_panic in H.
  - revert H. split_cases.
Qed.

Lemma chainSSHConfig_no_panic (E : Env) (n : Node) (p : panic) :
  chainSSHConfig E n <> Panic p.
Proof. unfold chainSSHConfig, call. split_cases. Qed.

Lemma parseChainNode_no_panic (E : Env) (st : Store) (ns : string) (p : panic) :
  parseChainNode E st ns <> Panic p.
Proof.
  unfold parseChainNode. intros H.
  apply bind_Panic_inv in H as [H | (n0 & _ & H)];
    [by apply call_no_panic in H |].
  apply bind_Panic_inv in H as [H | (n1 & _ & H)];
    [by apply resolveUser_no_panic in H |].
  apply bind_Panic_inv in H as [H | ([cfg sport] & _ & H)];
    [by apply chainTLSConfig_no_panic in H |].
  apply bind_Panic_inv in H as [H | (tr & _ & H)];
    [by apply selectTransporter_no_panic in H |].
  apply bind_Panic_inv in H as [H | (ssh & _ & H)];
    [by apply chainSSHConfig_no_panic in H |].
  apply bind_Panic_inv in H as [H | (u & _ & H)]; [| discriminate].
  destruct (String.eqb _ _); [| discriminate].
  by apply obfs4InitAll_no_panic in H.
Qed.

(** *** Node and group IDs *)

Lemma wrap64_small (z : Z) : - 2 ^ 63 <= z < 2 ^ 63 -> wrap64 z = z.
Proof.
  intros H. unfold wrap64. rewrite Z.mod_small; lia.
Qed.

(** Counting up from [n] with [++] does not wrap below 2^63. *)
Lemma iter_incr (n : Z) (k : nat) :
  - 2 ^ 63 <= n -> n + Z.of_nat k < 2 ^ 63 -> Nat.iter k incr n = n + Z.of_nat k.
Proof.
  intros Hlo. induction k as [|k IH]; intros Hhi; simpl; [lia |].
  rewrite IH by lia. unfold incr. rewrite wrap64_small; lia.
Qed.

Lemma assignIDs_length (nodes : list Node) (nid : Z) :
  length (assignIDs nodes nid) = length nodes.
Proof.
  revert nid. induction nodes as [|nd rest IH]; intros nid; simpl;
    [done | by rewrite IH].
Qed.

(** The [k]-th node is the [k]-th node given, with the [k]-th ID. *)
Lemma assignIDs_lookup (nodes : list Node) (nid : Z) (k : nat) (nd : Node) :
  assignIDs nodes nid !! k = Some nd ->
  exists nd0, nodes !! k = Some nd0 /\ nd = set_ID (Nat.iter k incr nid) nd0.
Proof.
  revert nid k. induction nodes as [|n0 rest IH]; intros nid k; simpl.
  - by rewrite lookup_nil.
  - destruct k as [|k]; simpl.
    + intros [= <-]. by exists n0.
    + intros H. apply IH in H as (nd0 & H1 & H2).
      exists nd0. split; [done |]. subst nd. f_equal.
      symmetry. apply (Nat.iter_succ_r k incr nid).
Qed.

Lemma assignIDs_first (nodes : list Node) (nid : Z) :
  nodes <> [] -> exists n0, first (assignIDs nodes nid) = Ok n0.
Proof. destruct nodes; [done |]. simpl. eauto. Qed.

Lemma loadPeers_no_panic (E : Env) (g : NodeGroup) (nodes : list Node)
  (cfg : string) (st : Store) (bg : list (peerConfig * string)) (p : panic) :
  loadPeers E g nodes cfg st bg <> Panic p.
Proof. unfold loadPeers, call. split_cases. Qed.

Lemma loadPeers_gID (E : Env) (g g' : NodeGroup) (nodes : list Node)
  (cfg : string) (st st' : Store) (bg bg' : list (peerConfig * string)) :
  loadPeers E g nodes cfg st bg = Ok (g', st', bg') -> gID g' = gID g.
Proof.
  unfold loadPeers. destruct (nonempty cfg).
  - intros H. apply bind_Ok_inv in H as (f & _ & H).
    destruct (Reload E st _ f) as [[[st1 members] fs] strat].
    by inversion H.
  - by intros [= <- _ _].
Qed.

Lemma loadPeers_none (E : Env) (g : NodeGroup) (nodes : list Node)
  (st : Store) (bg : list (peerConfig * string)) :
  loadPeers E g nodes "" st bg = Ok (g, st, bg).
Proof. reflexivity. Qed.

Lemma parseChainLoop_Ok (E : Env) (specs : list string) :
  forall (gid : Z) (chain : Chain) (st : Store) (bg : list (peerConfig * string))
         (chain' : Chain) (st' : Store) (bg' : list (peerConfig * string)),
  parseChainLoop E specs gid chain st bg = Ok (chain', st', bg') ->
  exists gs,
    chain' = mkChain (Retries chain) (Mark chain) (Interface chain)
               (nodeGroups chain ++ gs) /\
    length gs = length specs /\
    forall (k : nat) (ns : string) (g : NodeGroup),
      specs !! k = Some ns -> gs !! k = Some g ->
      groupOf E (Nat.iter k incr gid) ns g.
Proof.
  induction specs as [|ns rest IH]; intros gid chain st bg chain' st' bg'; simpl.
  - intros [= <- _ _]. exists []. rewrite app_nil_r.
    split; [by destruct chain |]. split; [done |]. intros k ? ?. by rewrite lookup_nil.
  - intros H.
    apply bind_Ok_inv in H as ([parsed st1] & Hp & H).
    apply bind_Ok_inv in H as (n0 & Hn0 & H).
    apply bind_Ok_inv in H as ([[g st2] bg2] & Hl & H).
    apply IH in H as (gs & -> & Hlen & Hgs).
    exists (g :: gs). simpl. rewrite <- app_assoc. simpl.
    split; [done |]. split; [by rewrite Hlen |].
    intros [|k] ns' g'; simpl.
    + intros [= <-] [= <-]. split; [by apply loadPeers_gID in Hl |].
      exists st, parsed, st1, n0. split; [done |].
      split; [by destruct (assignIDs parsed 1); inversion Hn0 |].
      simpl. unfold loadPeers in Hl. split.
      * intros Hpeer. rewrite Hpeer in Hl. simpl in Hl. by inversion Hl.
      * intros Hpeer. apply nonempty_true in Hpeer. rewrite Hpeer in Hl.
        apply bind_Ok_inv in Hl as (f & Hf & Hl). apply call_Ok_inv in Hf.
        exists f, st1. split; [done |].
        destruct (Reload E st1 _ f) as [[[st3 members] fs] strat] eqn:HR.
        inversion Hl; subst. simpl.
        reflexivity.
    + intros Hns Hg. specialize (Hgs k ns' g' Hns Hg).
      by rewrite <- (Nat.iter_succ_r k incr gid) in Hgs.
Qed.

Lemma parseChainNode_not_nil (E : Env) (st : Store) (ns : string)
  (nodes : list Node) (st' : Store) :
  parseChainNode E st ns = Ok (nodes, st') -> nodes <> [].
Proof.
  intros H.
  apply parseChainNode_Ok in H as (? & ? & ? & ? & ? & ? & H); decompose [and] H.
  subst nodes. apply expandIPs_not_nil.
Qed.

Lemma parseChainLoop_no_panic (E : Env) (specs : list string) (p : panic) :
  forall (gid : Z) (chain : Chain) (st : Store) (bg : list (peerConfig * string)),
  parseChainLoop E specs gid chain st bg <> Panic p.
Proof.
  induction specs as [|ns rest IH]; intros gid chain st bg; simpl;
    [discriminate |].
  intros H.
  apply bind_Panic_inv in H as [H | ([parsed st1] & Hp & H)];
    [by apply parseChainNode_no_panic in H |].
  apply parseChainNode_not_nil in Hp.
  destruct (assignIDs_first parsed 1 Hp) as [n0 Hn0].
  apply bind_Panic_inv in H as [H | (n0' & _ & H)]; [congruence |].
  apply bind_Panic_inv in H as [H | ([[g st2] bg2] & _ & H)];
    [by apply loadPeers_no_panic in H |].
  by apply IH in H.
Qed.

Lemma parseChainLoop_total (E : Env) (specs : list string) :
  Forall (validSpec E) specs ->
  forall (gid : Z) (chain : Chain) (st : Store) (bg : list (peerConfig * string)),
  exists res, parseChainLoop E specs gid chain st bg = Ok res.
Proof.
  induction 1 as [|ns rest Hns _ IH]; intros gid chain st bg; simpl; [eauto |].
  destruct (Hns st) as (parsed & st1 & Hp & Hpeer). rewrite Hp. simpl.
  destruct (assignIDs_first parsed 1 (parseChainNode_not_nil _ _ _ _ _ Hp))
    as [n0 Hn0].
  rewrite Hn0. simpl.
  match goal with
  | |- context [loadPeers E ?g ?ns ?cfg ?s ?b] =>
      assert (exists res, loadPeers E g ns cfg s b = Ok res)
        as ([[g' st2] bg2] & Hl)
  end.
  { unfold loadPeers. destruct (nonempty (Get n0 "peer")) eqn:Hc; [| eauto].
    apply nonempty_true in Hc.
    destruct (Hpeer n0) as [f Hf]; [| done |].
    - by destruct (assignIDs parsed 1); inversion Hn0.
    - rewrite Hf. simpl.
      destruct (Reload E st1 _ f) as [[[st3 members] fs] strat]. eauto. }
  rewrite Hl. simpl. apply IH.
Qed.

(** ** The claims *)

(** C10.  When [parseChainNode] succeeds, the list of nodes it returns is
    not empty (it holds the base node or one node per IP), so it still has a
    first element once the IDs are assigned; and [parseChain], which reads
    [nodes[0]] for the max_fails, fail_timeout, strategy and peer options,
    never panics on an index out of range. *)
Theorem chain_nodes_nonempty (E : Env) :
  (forall (st : Store) (ns : string) (parsed : list Node) (st' : Store),
      parseChainNode E st ns = Ok (parsed, st') ->
      parsed <> [] /\ exists n0, first (assignIDs parsed 1) = Ok n0) /\
  (forall r : route, parseChain E r <> Panic IndexOutOfRange).
Proof.
  split.
  - intros st ns parsed st' H. apply parseChainNode_not_nil in H.
    split; [done | by apply assignIDs_first].
  - intros r. apply parseChainLoop_no_panic.
Qed.

(** C6.  For valid chain-node specs [parseChain] returns a chain with one
    group per spec, in spec order; the group at position k (counted from 1)
    has ID k, and it is built from the nodes of the k-th spec, numbered 1, 2,
    ... in the order [parseChainNode] gave them.  (IDs are Go ints: the
    equations hold below 2^63.) *)
Theorem chain_group_and_node_ids (E : Env) (r : route) :
  Forall (validSpec E) (ChainNodes r) ->
  (forall (parsed : list Node) (i : nat) (nd : Node),
      assignIDs parsed 1 !! i = Some nd ->
      Z.of_nat i + 1 < 2 ^ 63 ->
      ID nd = Z.of_nat i + 1 /\
      exists nd0, parsed !! i = Some nd0 /\ nd = set_ID (Z.of_nat i + 1) nd0) /\
  exists chain st bg,
    parseChain E r = Ok (chain, st, bg) /\
    length (nodeGroups chain) = length (ChainNodes r) /\
    forall (k : nat) (ns : string) (g : NodeGroup),
      ChainNodes r !! k = Some ns ->
      nodeGroups chain !! k = Some g ->
      Z.of_nat k + 1 < 2 ^ 63 ->
      gID g = Z.of_nat k + 1 /\ groupOf E (Z.of_nat k + 1) ns g.
Proof.
  intros Hvalid. split.
  - intros parsed i nd Hnd Hi.
    apply assignIDs_lookup in Hnd as (nd0 & Hnd0 & ->).
    rewrite iter_incr by lia.
    replace (1 + Z.of_nat i) with (Z.of_nat i + 1) by lia.
    split; [done |]. by exists nd0.
  - destruct (parseChainLoop_total E (ChainNodes r) Hvalid 1
                (mkChain (route_Retries r) (route_Mark r) (route_Interface r) [])
                [] []) as ([[chain st] bg] & Hloop).
    exists chain, st, bg. split; [exact Hloop |].
    apply parseChainLoop_Ok in Hloop as (gs & -> & Hlen & Hgs). simpl.
    split; [done |].
    intros k ns g Hns Hg Hk. specialize (Hgs k ns g Hns Hg).
    rewrite iter_incr in Hgs by lia.
    replace (1 + Z.of_nat k) with (Z.of_nat k + 1) in Hgs by lia.
    split; [apply Hgs | exact Hgs].
Qed.

(** *** Splitting a credential at its first colon *)

Lemma IndexByte_range (s : string) (c : ascii) :
  IndexByte s c = -1 \/ 0 <= IndexByte s c.
Proof.
  induction s as [|a s IH]; simpl; [by left |].
  destruct (Ascii.eqb a c); [right; lia |].
  destruct (IndexByte s c <? 0) eqn:Hlt; [by left |].
  apply Z.ltb_ge in Hlt. right. lia.
Qed.

Lemma append_nil_l (v : string) : "" +:+ v = v.
Proof. reflexivity. Qed.

Lemma append_cons (a : ascii) (u v : string) :
  String a u +:+ v = String a (u +:+ v).
Proof. reflexivity. Qed.

Lemma append_assoc (u v w : string) : (u +:+ v) +:+ w = u +:+ (v +:+ w).
Proof.
  induction u as [|a u IH]; [done |]. by rewrite !append_cons, IH.
Qed.

Lemma IndexByte_app (u p : string) (c : ascii) :
  IndexByte u c = -1 ->
  IndexByte (u +:+ String c p) c = Z.of_nat (String.length u).
Proof.
  induction u as [|a u IH].
  - intros _. rewrite append_nil_l. simpl. by rewrite Ascii.eqb_refl.
  - rewrite append_cons. simpl.
    destruct (Ascii.eqb a c); [discriminate |].
    destruct (IndexByte_range u c) as [Hu | Hu].
    + rewrite IH by done. intros _.
      replace (Z.of_nat (String.length u) <? 0) with false; [lia |].
      symmetry. apply Z.ltb_ge. lia.
    + replace (IndexByte u c <? 0) with false; [intros; lia |].
      symmetry. by apply Z.ltb_ge.
Qed.

Lemma substring_all (v : string) : String.substring 0 (String.length v) v = v.
Proof. induction v as [|b v IHv]; simpl; [done | by rewrite IHv]. Qed.

Lemma substring_prefix (u v : string) :
  String.substring 0 (String.length u) (u +:+ v) = u.
Proof.
  induction u as [|a u IH].
  - rewrite append_nil_l. by destruct v.
  - rewrite append_cons. simpl. by rewrite IH.
Qed.

Lemma substring_suffix (u v : string) :
  String.substring (String.length u) (String.length v) (u +:+ v) = v.
Proof.
  induction u as [|a u IH].
  - rewrite append_nil_l. apply substring_all.
  - rewrite append_cons. simpl. exact IH.
Qed.

Lemma length_app_string (u v : string) :
  String.length (u +:+ v) = (String.length u + String.length v)%nat.
Proof.
  induction u as [|a u IH]; [done |]. rewrite append_cons. simpl. by rewrite IH.
Qed.

(** A decoded [user:pass] is cut at its first colon; without a colon the
    whole of it is the user name. *)
Lemma userOfAuth_pair (u p : string) :
  IndexByte u ":" = -1 -> userOfAuth (u +:+ String ":" p) = url.UserPassword u p.
Proof.
  intros Hu. unfold userOfAuth. rewrite IndexByte_app by done.
  replace (Z.of_nat (String.length u) <? 0) with false
    by (symmetry; apply Z.ltb_ge; lia).
  unfold slice_to, slice_from. rewrite Nat2Z.id.
  rewrite substring_prefix. f_equal.
  replace (Z.to_nat (Z.of_nat (String.length u) + 1))
    with (String.length (u +:+ String ":" "")).
  2: { rewrite length_app_string. simpl. lia. }
  replace (u +:+ String ":" p) with ((u +:+ String ":" "") +:+ p).
  2: { by rewrite append_assoc, append_cons, append_nil_l. }
  rewrite (length_app_string (u +:+ String ":" "") p).
  replace (String.length (u +:+ String ":" "") + String.length p
           - String.length (u +:+ String ":" ""))%nat
    with (String.length p) by lia.
  apply substring_suffix.
Qed.

Lemma userOfAuth_user (cs : string) :
  IndexByte cs ":" = -1 -> userOfAuth cs = url.User cs.
Proof. intros H. unfold userOfAuth. by rewrite H. Qed.

(** *** Credentials *)

Lemma resolveUser_embedded (E : Env) (n : Node) (u : url.Userinfo) :
  User n = Some u -> resolveUser E n = Ok n.
Proof.
  intros Hu. unfold resolveUser, authUser. rewrite Hu.
  rewrite andb_false_r. simpl. by rewrite Hu.
Qed.

Lemma resolveUser_auth (E : Env) (n : Node) (cs : string) :
  User n = None -> Get n "auth" <> "" ->
  DecodeString E (Get n "auth") = Success cs ->
  resolveUser E n = Ok (set_User (Some (userOfAuth cs)) n).
Proof.
  intros Hu Ha Hd. unfold resolveUser, authUser. rewrite Hu.
  apply nonempty_true in Ha. rewrite Ha. simpl. by rewrite Hd.
Qed.

Lemma resolveUser_secrets (E : Env) (n : Node) (users : list url.Userinfo) :
  User n = None -> Get n "auth" = "" ->
  parseUsers E (Get n "secrets") = (users, None) ->
  resolveUser E n = Ok match users with
                       | u :: _ => set_User (Some u) n
                       | [] => n
                       end.
Proof.
  intros Hu Ha Hs. unfold resolveUser, authUser. rewrite Hu.
  apply nonempty_false in Ha. rewrite Ha. simpl. rewrite Hu, Hs.
  by destruct users.
Qed.

(** *** What the expanded nodes share *)

Lemma expanded_sameConfig (node : Node) (hs : list HandshakeOption)
  (ip : string) : sameConfig (expanded node hs ip) node.
Proof. by repeat split. Qed.

Lemma expandIPs_sameConfig (node : Node) (hs : list HandshakeOption)
  (ips : list string) (nd : Node) :
  nd ∈ expandIPs node hs ips -> sameConfig nd node.
Proof.
  destruct ips as [|ip ips].
  - rewrite expandIPs_nil. intros ->%list_elem_of_singleton. by repeat split.
  - rewrite expandIPs_cons. intros (ip' & -> & _)%list_elem_of_fmap.
    apply expanded_sameConfig.
Qed.

Lemma expandIPs_tls (node : Node) (hs : list HandshakeOption)
  (ips : list string) (nd : Node) :
  nd ∈ expandIPs node hs ips ->
  tlsConfigOf nd = tlsConfigOf (set_HandshakeOptions hs node).
Proof.
  destruct ips as [|ip ips].
  - rewrite expandIPs_nil. by intros ->%list_elem_of_singleton.
  - rewrite expandIPs_cons. intros (ip' & -> & _)%list_elem_of_fmap.
    unfold tlsConfigOf, expanded. simpl.
    rewrite omap_app. simpl. by rewrite app_nil_r.
Qed.

(** *** The TLS configuration of a chain node *)

Lemma chainTLSConfig_Ok (E : Env) (n : Node) (cfg : tls.Config)
  (sport : string) :
  chainTLSConfig E n = Ok (cfg, sport) ->
  sport = sportOf E n /\
  loadCA E (Get n "ca") = Success (tls.RootCAs cfg) /\
  tls.ServerName cfg = serverNameOf E n /\
  tls.InsecureSkipVerify cfg = negb (GetBool E n "secure") /\
  tls.VerifyConnection cfg =
    match tls.RootCAs cfg with
    | Some pool =>
        if GetBool E n "secure" then None else Some (manualVerify E pool)
    | None => None
    end /\
  tls.Certificates cfg = loadedPair E n.
Proof.
  unfold chainTLSConfig, sportOf, serverNameOf, loadedPair.
  destruct (SplitHostPort E (Addr n)) as [[host port] err]. simpl.
  intros H. apply bind_Ok_inv in H as (pool & Hca & H).
  apply call_Ok_inv in Hca.
  destruct (LoadX509KeyPair E _ _), pool as [pool|], (GetBool E n "secure");
    simpl in H; inversion H; subst; simpl; by rewrite ?Hca.
Qed.

Lemma chainTLSConfig_total (E : Env) (n : Node) (pool : option x509.CertPool) :
  loadCA E (Get n "ca") = Success pool ->
  exists cfg, chainTLSConfig E n = Ok (cfg, sportOf E n).
Proof.
  intros Hca. unfold chainTLSConfig, sportOf.
  destruct (SplitHostPort E (Addr n)) as [[host port] err].
  rewrite Hca. simpl. eauto.
Qed.

Lemma chainTLSConfig_Err (E : Env) (n : Node) (e : error) :
  chainTLSConfig E n = Err e <-> loadCA E (Get n "ca") = Failure e.
Proof.
  unfold chainTLSConfig.
  destruct (SplitHostPort E (Addr n)) as [[host port] err].
  destruct (loadCA E (Get n "ca")); simpl; split; congruence.
Qed.

Lemma manualVerify_leaf (E : Env) (pool : x509.CertPool) (now : Z)
  (leaf : x509.Certificate) (rest : list x509.Certificate) :
  manualVerify E pool now (tls.mkConnectionState (leaf :: rest)) =
  match Verify E leaf (x509.mkVerifyOptions pool now "" rest) with
  | None => Ok ()
  | Some err => Err err
  end.
Proof.
  unfold manualVerify. simpl.
  assert (forall (l acc : list x509.Certificate) (i : Z),
             0 < i -> addIntermediates i l acc = acc ++ l) as Hadd.
  { induction l as [|c l IH]; intros acc i Hi; simpl; [by rewrite app_nil_r |].
    replace (i =? 0) with false by (symmetry; apply Z.eqb_neq; lia).
    rewrite IH by lia. by rewrite <- app_assoc. }
  by rewrite Hadd.
Qed.

(** Every node that [parseChainNode] returns carries the one TLS
    configuration, credential and client of its spec. *)
Lemma parseChainNode_nodes (E : Env) (st : Store) (ns : string)
  (parsed : list Node) (st' : Store) :
  parseChainNode E st ns = Ok (parsed, st') ->
  exists n0 n1 cfg tr,
    ParseNode E ns = Success n0 /\
    resolveUser E n0 = Ok n1 /\
    chainTLSConfig E n1 = Ok (cfg, sportOf E n1) /\
    selectTransporter E n1 cfg (chainWSOptions E n1) = Ok tr /\
    st' = st ++ [mkClient (selectConnector n1) tr] /\
    forall nd, nd ∈ parsed ->
               tlsConfigOf nd = [cfg] /\ sameConfig nd (chainBase E st n1).
Proof.
  intros H.
  apply parseChainNode_Ok in H
    as (n0 & n1 & cfg & sport & tr & ssh & H0 & H1 & H2 & H3 & _ & H5 & H6 & _).
  exists n0, n1, cfg, tr.
  pose proof (chainTLSConfig_Ok _ _ _ _ H2) as (-> & _).
  do 5 (split; [done |]).
  intros nd Hnd. subst parsed. split.
  - by rewrite (expandIPs_tls _ _ _ _ Hnd).
  - by apply expandIPs_sameConfig in Hnd.
Qed.

(** C7.  The credential of a chain node, in order of priority: a credential
    embedded in the spec is kept as it is, whatever the host and the [auth]
    and [secrets] options are; otherwise a present [auth] option is
    base64-decoded and cut at its first colon into user and password (the
    whole of it is the user when there is no colon); otherwise the first
    entry of the secrets file, if there is one, is the credential.  Every
    node returned for the spec carries the credential so resolved. *)
Theorem credential_priority (E : Env) :
  (forall (n : Node) (u : url.Userinfo),
      User n = Some u -> resolveUser E n = Ok n) /\
  (forall (n : Node) (cs : string),
      User n = None -> Get n "auth" <> "" ->
      DecodeString E (Get n "auth") = Success cs ->
      resolveUser E n = Ok (set_User (Some (userOfAuth cs)) n)) /\
  (forall u p : string,
      IndexByte u ":" = -1 ->
      userOfAuth (u +:+ String ":" p) = url.UserPassword u p) /\
  (forall cs : string, IndexByte cs ":" = -1 -> userOfAuth cs = url.User cs) /\
  (forall (n : Node) (users : list url.Userinfo),
      User n = None -> Get n "auth" = "" ->
      parseUsers E (Get n "secrets") = (users, None) ->
      resolveUser E n = Ok match users with
                           | u :: _ => set_User (Some u) n
                           | [] => n
                           end) /\
  (forall (st : Store) (ns : string) (parsed : list Node) (st' : Store),
      parseChainNode E st ns = Ok (parsed, st') ->
      exists n0 n1,
        ParseNode E ns = Success n0 /\ resolveUser E n0 = Ok n1 /\
        forall nd, nd ∈ parsed -> User nd = User n1).
Proof.
  split; [apply resolveUser_embedded |].
  split; [apply resolveUser_auth |].
  split; [apply userOfAuth_pair |].
  split; [apply userOfAuth_user |].
  split; [apply resolveUser_secrets |].
  intros st ns parsed st' H.
  apply parseChainNode_nodes in H as (n0 & n1 & cfg & tr & H0 & H1 & _ & _ & _ & H).
  exists n0, n1. do 2 (split; [done |]).
  intros nd Hnd. apply H in Hnd as (_ & Hs). apply Hs.
Qed.

(** C5.  When the [ip] option resolves to no address, the nodes of the spec
    are the base node alone.  When it resolves to n > 0 addresses the nodes
    are exactly n, one per address and in their order: each is a clone of the
    base node with the same configuration (and the same client), its [Addr]
    set to that address and the address appended to its handshake options;
    the base node itself is not among them.  [parseChainNode] returns the
    nodes so expanded. *)
Theorem ip_fan_out :
  (forall (base : Node) (hs : list HandshakeOption),
      expandIPs base hs [] = [set_HandshakeOptions hs base]) /\
  (forall (base : Node) (hs : list HandshakeOption) (ips : list string),
      ips <> [] ->
      expandIPs base hs ips = map (expanded base hs) ips /\
      length (expandIPs base hs ips) = length ips /\
      Addr <$> expandIPs base hs ips = ips /\
      forall nd, nd ∈ expandIPs base hs ips ->
                 sameConfig nd base /\
                 HandshakeOptions nd = hs ++ [AddrHandshakeOption (Addr nd)] /\
                 nd <> set_HandshakeOptions hs base) /\
  (forall (E : Env) (st : Store) (ns : string) (parsed : list Node)
          (st' : Store),
      parseChainNode E st ns = Ok (parsed, st') ->
      exists n0 n1 cfg ssh,
        ParseNode E ns = Success n0 /\ resolveUser E n0 = Ok n1 /\
        parsed = expandIPs (chainBase E st n1) (chainHandshake E n1 cfg ssh)
                   (parseIP E (Get n1 "ip") (sportOf E n1))).
Proof.
  split; [apply expandIPs_nil |]. split.
  - intros base hs [|ip ips] Hne; [done |]. rewrite expandIPs_cons.
    split; [done |]. split; [by rewrite length_map |]. split.
    + rewrite <- list_fmap_compose. apply list_fmap_id.
    + intros nd (ip' & -> & _)%list_elem_of_fmap.
      split; [apply expanded_sameConfig |]. split; [done |].
      intros Heq. apply (f_equal HandshakeOptions) in Heq. simpl in Heq.
      apply (f_equal length) in Heq. rewrite length_app in Heq. simpl in Heq. lia.
  - intros E st ns parsed st' H.
    apply parseChainNode_Ok in H
      as (n0 & n1 & cfg & sport & tr & ssh & H0 & H1 & H2 & _ & _ & _ & H6 & _).
    apply chainTLSConfig_Ok in H2 as (-> & _).
    by exists n0, n1, cfg, ssh.
Qed.

(** C3.  Loading the client key pair of the [cert] and [key] options is
    best effort.  Deriving the TLS configuration fails only when the CA file
    does; whenever the CA file loads it succeeds, and the configuration
    holds the pair when [tls.LoadX509KeyPair] gave one and no certificate at
    all when it failed.  That configuration is the one every node returned
    by [parseChainNode] carries. *)
Theorem key_pair_best_effort (E : Env) :
  (forall (n : Node) (e : error),
      chainTLSConfig E n = Err e <-> loadCA E (Get n "ca") = Failure e) /\
  (forall (n : Node) (pool : option x509.CertPool),
      loadCA E (Get n "ca") = Success pool ->
      exists cfg,
        chainTLSConfig E n = Ok (cfg, sportOf E n) /\
        tls.Certificates cfg =
          match LoadX509KeyPair E (Get n "cert") (Get n "key") with
          | Success cert => [cert]
          | Failure _ => []
          end) /\
  (forall (st : Store) (ns : string) (parsed : list Node) (st' : Store),
      parseChainNode E st ns = Ok (parsed, st') ->
      exists n0 n1 cfg,
        ParseNode E ns = Success n0 /\ resolveUser E n0 = Ok n1 /\
        (forall nd, nd ∈ parsed -> tlsConfigOf nd = [cfg]) /\
        tls.Certificates cfg =
          match LoadX509KeyPair E (Get n1 "cert") (Get n1 "key") with
          | Success cert => [cert]
          | Failure _ => []
          end).
Proof.
  split; [apply chainTLSConfig_Err |]. split.
  - intros n pool Hca.
    destruct (chainTLSConfig_total E n pool Hca) as [cfg Hcfg].
    exists cfg. split; [done |].
    by apply chainTLSConfig_Ok in Hcfg as (_ & _ & _ & _ & _ & ->).
  - intros st ns parsed st' H.
    apply parseChainNode_nodes in H
      as (n0 & n1 & cfg & tr & H0 & H1 & H2 & _ & _ & H).
    exists n0, n1, cfg. do 2 (split; [done |]).
    split; [intros nd Hnd; by apply H in Hnd as (-> & _) |].
    by apply chainTLSConfig_Ok in H2 as (_ & _ & _ & _ & _ & ->).
Qed.

(** C4.  The TLS configuration that the nodes of a chain spec carry: its
    server name is the host part of the node address, or "localhost" when
    that part is empty; [InsecureSkipVerify] is the negation of the [secure]
    flag; and when a CA pool was loaded and [secure] is off,
    [VerifyConnection] is the manual step, which verifies the first peer
    certificate against that pool with an empty DNS name and the other peer
    certificates as intermediates (no such step is installed otherwise). *)
Theorem chain_tls_settings (E : Env) (st : Store) (ns : string)
  (parsed : list Node) (st' : Store) :
  parseChainNode E st ns = Ok (parsed, st') ->
  exists n0 n1 cfg,
    ParseNode E ns = Success n0 /\ resolveUser E n0 = Ok n1 /\
    Addr n1 = Addr n0 /\
    (forall nd, nd ∈ parsed -> tlsConfigOf nd = [cfg]) /\
    tls.ServerName cfg =
      (let host := (SplitHostPort E (Addr n1)).1.1 in
       if String.eqb host "" then "localhost" else host) /\
    tls.InsecureSkipVerify cfg = negb (GetBool E n1 "secure") /\
    loadCA E (Get n1 "ca") = Success (tls.RootCAs cfg) /\
    tls.VerifyConnection cfg =
      match tls.RootCAs cfg with
      | Some pool =>
          if GetBool E n1 "secure" then None else Some (manualVerify E pool)
      | None => None
      end /\
    forall (pool : x509.CertPool) (now : Z) (leaf : x509.Certificate)
           (rest : list x509.Certificate),
      manualVerify E pool now (tls.mkConnectionState (leaf :: rest)) =
      match Verify E leaf (x509.mkVerifyOptions pool now "" rest) with
      | None => Ok ()
      | Some err => Err err
      end.
Proof.
  intros H.
  apply parseChainNode_nodes in H
    as (n0 & n1 & cfg & tr & H0 & H1 & H2 & _ & _ & H).
  exists n0, n1, cfg. do 2 (split; [done |]).
  split; [by apply resolveUser_frame in H1 as (-> & _) |].
  split; [intros nd Hnd; by apply H in Hnd as (-> & _) |].
  apply chainTLSConfig_Ok in H2 as (_ & Hca & Hname & Hskip & Hverify & _).
  split.
  { rewrite Hname. unfold serverNameOf, nonempty. simpl.
    by destruct (String.eqb _ ""). }
  do 3 (split; [done |]). apply manualVerify_leaf.
Qed.

(** *** The steps of [genRouter] *)

Lemma served_frame (E : Env) (n : Node) :
  Addr (served E n) = Addr n /\ Protocol (served E n) = Protocol n /\
  Transport (served E n) = Transport n /\ Remote (served E n) = Remote n /\
  Values (served E n) = Values n.
Proof.
  unfold served. destruct (User n); [done |].
  by destruct (parseUsers E _).1.
Qed.

(** What a successful [genRouter] went through. *)
Lemma genRouter_Ok (E : Env) (ch : Chain) (rts : list router) (st : Store)
  (ns : string) (rt : router) (st' : Store) :
  genRouter E ch rts st ns = Ok (rt, st') ->
  exists n0 n1 au cfg ws ttl routes lnCall bound,
    ParseNode E ns = Success n0 /\
    authUser E n0 = Ok n1 /\
    selectListener E ch (served E n1) au cfg ws ttl routes st
      = Ok (lnCall, st') /\
    listen E (map (fun rt => Listener_ (server rt)) rts) lnCall
      = Success bound /\
    server rt = mkServer (mkListener lnCall bound) /\
    kind (handler rt) = selectHandler (served E n1) /\
    chain rt = ch.
Proof.
  unfold genRouter. intros H.
  apply bind_Ok_inv in H as (n0 & H0 & H). apply call_Ok_inv in H0.
  apply bind_Ok_inv in H as (n1 & H1 & H).
  apply bind_Ok_inv in H as (au & _ & H).
  fold (served E n1) in H.
  destruct (tlsConfig E _ _ _) as [cfg err].
  apply bind_Ok_inv in H as (u & _ & H).
  apply bind_Ok_inv in H as ([lnCall st1] & Hln & H).
  apply bind_Ok_inv in H as (bound & Hb & H). apply call_Ok_inv in Hb.
  apply bind_Ok_inv in H as (wl & _ & H).
  apply bind_Ok_inv in H as (bl & _ & H).
  inversion H; subst; clear H. simpl.
  do 9 eexists. repeat split; try eassumption.
  by destruct (_ || _).
Qed.

Lemma serveLoop_Ok (E : Env) (ch : Chain) (specs : list string) :
  forall (rts0 : list router) (st0 : Store) (rts : list router) (st : Store),
  serveLoop E ch specs rts0 st0 = Ok (rts, st) ->
  exists new,
    rts = rts0 ++ new /\ length new = length specs /\
    forall (k : nat) (ns : string),
      specs !! k = Some ns ->
      exists rt sta stb,
        new !! k = Some rt /\
        genRouter E ch (rts0 ++ take k new) sta ns = Ok (rt, stb).
Proof.
  induction specs as [|ns rest IH]; intros rts0 st0 rts st; simpl.
  - intros [= <- _]. exists []. rewrite app_nil_r. repeat split.
    intros k ns. by rewrite lookup_nil.
  - intros H. apply bind_Ok_inv in H as ([rt st1] & Hrt & H).
    apply IH in H as (new & -> & Hlen & Hnew).
    exists (rt :: new). rewrite <- app_assoc. simpl.
    split; [done |]. split; [by rewrite Hlen |].
    intros [|k] ns'; simpl.
    + intros [= <-]. exists rt, st0, st1. by rewrite app_nil_r.
    + intros Hk. destruct (Hnew k ns' Hk) as (rt' & sta & stb & Hl & Hg).
      exists rt', sta, stb. split; [done |].
      by rewrite <- app_assoc in Hg.
Qed.

Lemma serveLoop_fail (E : Env) (ch : Chain) (ns : string)
  (specs : list string) :
  (forall rts st res, genRouter E ch rts st ns <> Ok res) ->
  ns ∈ specs ->
  forall rts0 st0 res, serveLoop E ch specs rts0 st0 <> Ok res.
Proof.
  intros Hns. induction specs as [|ns' rest IH]; intros Hin rts0 st0 res H.
  - by apply elem_of_nil in Hin.
  - simpl in H. apply bind_Ok_inv in H as ([rt st1] & Hrt & H).
    apply elem_of_cons in Hin as [<- | Hin].
    + by apply Hns in Hrt.
    + by apply IH in H.
Qed.

(** *** Dispatch on keys without a case *)

Lemma selectTransporter_default (E : Env) (n : Node) (cfg : tls.Config)
  (ws : WSOptions) :
  Transport n ∉ chainTransports ->
  selectTransporter E n cfg ws = Ok TCPTransporter.
Proof. intros H. unfold selectTransporter. by default_branch eqb_not_in H. Qed.

Lemma selectConnector_default (n : Node) :
  Protocol n ∉ chainProtocols -> selectConnector n = AutoConnector (User n).
Proof. intros H. unfold selectConnector. by default_branch eqb_not_in H. Qed.

Lemma selectHandler_default (n : Node) :
  Protocol n ∉ serveProtocols ->
  selectHandler n = if String.eqb (Remote n) ""
                    then AutoHandler else TCPDirectForwardHandler (Remote n).
Proof.
  intros H. unfold selectHandler. default_branch eqb_not_in H. simpl.
  unfold nonempty. by destruct (String.eqb (Remote n) "").
Qed.

Lemma GenRouters_Ok (E : Env) (r : route) (rts : list router) (st : Store) :
  GenRouters E r = Ok (rts, st) ->
  exists ch st0 bg,
    parseChain E r = Ok (ch, st0, bg) /\
    length rts = length (ServeNodes r) /\
    forall (k : nat) (ns : string),
      ServeNodes r !! k = Some ns ->
      exists rt sta stb,
        rts !! k = Some rt /\
        genRouter E ch (take k rts) sta ns = Ok (rt, stb).
Proof.
  unfold GenRouters. intros H.
  apply bind_Ok_inv in H as ([[ch st0] bg] & Hc & H).
  apply serveLoop_Ok in H as (new & -> & Hlen & Hnew).
  exists ch, st0, bg. split; [done |]. split; [done |]. exact Hnew.
Qed.

(** C8.  Keys without a case of their own never make the dispatch fail and
    fall to the defaults.  For a chain node: a transport key outside the
    recognized ones selects the plain TCP transporter, a protocol key outside
    the recognized ones selects the auto-detecting connector, and the client
    of every node returned by [parseChainNode] holds them.  For a serve node:
    a protocol key outside the recognized ones selects the plain TCP
    direct-forward handler on the remote target when there is one, and the
    auto-detecting handler otherwise, in every router that [GenRouters]
    returns. *)
Theorem unknown_keys_default (E : Env) :
  (forall (n : Node) (cfg : tls.Config) (ws : WSOptions),
      Transport n ∉ chainTransports ->
      selectTransporter E n cfg ws = Ok TCPTransporter) /\
  (forall n : Node,
      Protocol n ∉ chainProtocols ->
      selectConnector n = AutoConnector (User n)) /\
  (forall n : Node,
      Protocol n ∉ serveProtocols ->
      selectHandler n = if String.eqb (Remote n) "" then AutoHandler
                        else TCPDirectForwardHandler (Remote n)) /\
  (forall (st : Store) (ns : string) (parsed : list Node) (st' : Store),
      parseChainNode E st ns = Ok (parsed, st') ->
      exists n0 c,
        ParseNode E ns = Success n0 /\
        st' !! length st = Some c /\
        (Transport n0 ∉ chainTransports -> Transporter_ c = TCPTransporter) /\
        forall nd, nd ∈ parsed ->
          Client_ nd = Some (length st) /\
          (Protocol n0 ∉ chainProtocols ->
           Connector_ c = AutoConnector (User nd))) /\
  (forall (r : route) (rts : list router) (st : Store),
      GenRouters E r = Ok (rts, st) ->
      forall (k : nat) (ns : string),
        ServeNodes r !! k = Some ns ->
        exists rt n0,
          rts !! k = Some rt /\ ParseNode E ns = Success n0 /\
          (Protocol n0 ∉ serveProtocols ->
           kind (handler rt) =
             if String.eqb (Remote n0) "" then AutoHandler
             else TCPDirectForwardHandler (Remote n0))).
Proof.
  split; [apply selectTransporter_default |].
  split; [apply selectConnector_default |].
  split; [apply selectHandler_default |].
  split.
  - intros st ns parsed st' H.
    apply parseChainNode_nodes in H
      as (n0 & n1 & cfg & tr & H0 & H1 & _ & Htr & -> & H).
    apply resolveUser_frame in H1 as (_ & _ & Hp & Ht & _).
    exists n0, (mkClient (selectConnector n1) tr).
    split; [done |]. split; [by apply list_lookup_middle |]. split.
    + intros Hn. simpl. rewrite <- Ht in Hn.
      rewrite selectTransporter_default in Htr by done. congruence.
    + intros nd Hnd. apply H in Hnd as (_ & Hs).
      destruct Hs as (_ & _ & _ & _ & _ & Hu & _ & _ & _ & Hc & _).
      split; [done |]. intros Hn. simpl. rewrite <- Hp in Hn.
      rewrite selectConnector_default by done. by rewrite Hu.
  - intros r rts st H k ns Hk.
    apply GenRouters_Ok in H as (ch & st0 & bg & _ & _ & H).
    destruct (H k ns Hk) as (rt & sta & stb & Hrt & Hg).
    apply genRouter_Ok in Hg
      as (n0 & n1 & au & cfg & ws & ttl & routes & lnCall & bound
          & H0 & H1 & _ & _ & _ & Hkind & _).
    exists rt, n0. do 2 (split; [done |]).
    intros Hn. rewrite Hkind.
    apply authUser_frame in H1 as (_ & _ & Hp & _ & Hr & _).
    destruct (served_frame E n1) as (_ & Hp' & _ & Hr' & _).
    rewrite selectHandler_default by congruence. by rewrite Hr', Hr.
Qed.

(** *** The listen address of the "tcp" listener *)

Lemma firstIPv4_Some (addrs : list net.IP) (ip : net.IP) :
  firstIPv4 addrs = Some ip <->
  exists pre a post,
    addrs = pre ++ a :: post /\ Forall (fun x => net.To4 x = None) pre /\
    net.To4 a = Some ip.
Proof.
  induction addrs as [|x addrs IH]; simpl.
  - split; [discriminate |]. intros (pre & a & post & H & _).
    by destruct pre.
  - destruct (net.To4 x) as [ip4|] eqn:Hx.
    + split.
      * intros [= <-]. by exists [], x, addrs.
      * intros (pre & a & post & H & Hpre & Ha).
        destruct pre as [|y pre]; simpl in H; inversion H; subst.
        -- congruence.
        -- apply Forall_cons in Hpre as [Hy _]. congruence.
    + rewrite IH. split.
      * intros (pre & a & post & -> & Hpre & Ha).
        exists (x :: pre), a, post. repeat split; [| done].
        by apply Forall_cons.
      * intros (pre & a & post & H & Hpre & Ha).
        destruct pre as [|y pre]; simpl in H; inversion H; subst.
        -- congruence.
        -- apply Forall_cons in Hpre as [_ Hpre]. by exists pre, a, post.
Qed.

Lemma tcpListenAddr_ext (E : Env) (n m : Node) :
  Addr n = Addr m -> Values n = Values m ->
  tcpListenAddr E n = tcpListenAddr E m.
Proof. intros Ha Hv. unfold tcpListenAddr, Get. by rewrite Ha, Hv. Qed.

Lemma tcpListenAddr_fail (E : Env) (n : Node) :
  Get n "sourceInterface" <> "" ->
  interfaceIPv4 E (Get n "sourceInterface") = None ->
  exists e, tcpListenAddr E n = Err e.
Proof.
  intros Hif Hnone. unfold tcpListenAddr. apply nonempty_true in Hif.
  rewrite Hif. unfold interfaceIPv4 in Hnone.
  destruct (InterfaceByName E _) as [ief|]; [| eauto].
  destruct (Addrs E ief) as [addrs|]; [| eauto].
  rewrite Hnone. eauto.
Qed.

Lemma tcpListenAddr_Ok (E : Env) (n : Node) (ip : net.IP) (a : string) :
  Get n "sourceInterface" <> "" ->
  interfaceIPv4 E (Get n "sourceInterface") = Some ip ->
  tcpListenAddr E n = Ok a ->
  exists laddr,
    ResolveTCPAddr E "tcp" (Addr n) = Success laddr /\
    a = TCPAddrString E (net.mkTCPAddr ip (net.Port laddr) (net.Zone laddr)).
Proof.
  intros Hif Hip. unfold tcpListenAddr. apply nonempty_true in Hif.
  rewrite Hif. unfold interfaceIPv4 in Hip.
  destruct (InterfaceByName E _) as [ief|]; [| discriminate].
  destruct (Addrs E ief) as [addrs|]; [| discriminate].
  rewrite Hip. intros H. apply bind_Ok_inv in H as (laddr & Hl & H).
  apply call_Ok_inv in Hl. exists laddr. split; [done |]. by inversion H.
Qed.

Lemma selectListener_tcp (E : Env) (ch : Chain) (n : Node)
  (au : option Authenticator) (cfg : option tls.Config) (ws : WSOptions)
  (ttl : Z) (routes : list IPRoute) (st : Store) :
  Transport n = "tcp" ->
  selectListener E ch n au cfg ws ttl routes st =
  (st ← sshForwardLastNode ch SSHDirectForwardConnector st;
   addr ← tcpListenAddr E n;
   Ok (TCPListener addr, st)).
Proof. intros H. unfold selectListener. by rewrite H. Qed.

(** With the "tcp" transport, a source interface and no IPv4 address to
    take from it, no router is built: [genRouter] returns an error, unless
    patching the last chain node panicked before. *)
Lemma genRouter_interface_fail (E : Env) (ch : Chain) (rts : list router)
  (st : Store) (ns : string) (n0 : Node) :
  ParseNode E ns = Success n0 -> Transport n0 = "tcp" ->
  Get n0 "sourceInterface" <> "" ->
  interfaceIPv4 E (Get n0 "sourceInterface") = None ->
  (exists e, genRouter E ch rts st ns = Err e) \/
  (exists p, sshForwardLastNode ch SSHDirectForwardConnector st = Panic p).
Proof.
  intros H0 Htr Hif Hnone. unfold genRouter. rewrite H0. simpl.
  destruct (authUser E n0) as [n1| |] eqn:H1; simpl; [| eauto |].
  2: { by apply authUser_no_panic in H1. }
  destruct (parseAuthenticator E _) as [au|]; simpl; [| eauto].
  fold (served E n1).
  destruct (tlsConfig E _ _ _) as [cfg err].
  match goal with
  | |- context [mbind _ ?m] => destruct m as [u| |] eqn:Hu
  end; simpl; [| eauto |].
  2: { revert Hu. split_cases. }
  apply authUser_frame in H1 as (Ha & _ & _ & Ht & _ & Hv).
  destruct (served_frame E n1) as (Ha' & _ & Ht' & _ & Hv').
  rewrite selectListener_tcp by congruence.
  destruct (sshForwardLastNode ch _ st) as [st1| |]; simpl; [| eauto..].
  destruct (tcpListenAddr_fail E (served E n1)) as [e He].
  - unfold Get in *. by rewrite Hv', Hv.
  - unfold Get in *. by rewrite Hv', Hv.
  - rewrite He. simpl. eauto.
Qed.

(** C1 (as amended).  The override is made for serve nodes whose transport
    key is "tcp".  For such a node with a [sourceInterface] option: when the
    interface is missing, gives no addresses or has no IPv4 address,
    [genRouter] returns an error (unless patching the last chain node
    panicked first) and [GenRouters] returns no routers, whatever the other
    specs are; when the interface has an IPv4 address, the first one, and
    [genRouter] succeeds, the listener is built on that address with the
    port and zone that the spec address resolves to. *)
Theorem source_interface_tcp (E : Env) (ns : string) (n0 : Node) :
  ParseNode E ns = Success n0 ->
  Transport n0 = "tcp" ->
  Get n0 "sourceInterface" <> "" ->
  (interfaceIPv4 E (Get n0 "sourceInterface") = None ->
   (forall ch rts st,
       (exists e, genRouter E ch rts st ns = Err e) \/
       (exists p, sshForwardLastNode ch SSHDirectForwardConnector st = Panic p)) /\
   (forall r res, ns ∈ ServeNodes r -> GenRouters E r <> Ok res)) /\
  (forall ip ch rts st rt st',
      interfaceIPv4 E (Get n0 "sourceInterface") = Some ip ->
      genRouter E ch rts st ns = Ok (rt, st') ->
      exists laddr,
        ResolveTCPAddr E "tcp" (Addr n0) = Success laddr /\
        built (Listener_ (server rt)) =
          TCPListener (TCPAddrString E
                         (net.mkTCPAddr ip (net.Port laddr) (net.Zone laddr)))) /\
  (forall ip,
      interfaceIPv4 E (Get n0 "sourceInterface") = Some ip <->
      exists ief pre a post,
        InterfaceByName E (Get n0 "sourceInterface") = Success ief /\
        Addrs E ief = Success (pre ++ a :: post) /\
        Forall (fun x => net.To4 x = None) pre /\ net.To4 a = Some ip).
Proof.
  intros H0 Htr Hif. split; [| split].
  - intros Hnone.
    assert (forall ch rts st res, genRouter E ch rts st ns <> Ok res) as Hno.
    { intros ch rts st res Hok.
      destruct (genRouter_interface_fail E ch rts st ns n0 H0 Htr Hif Hnone)
        as [[e He] | [p Hp]]; [congruence |].
      destruct res as [rt st'].
      apply genRouter_Ok in Hok
        as (m0 & n1 & au & cfg & ws & ttl & routes & lnCall & bound
            & Hm & H1 & Hln & _).
      assert (m0 = n0) as -> by congruence.
      apply authUser_frame in H1 as (_ & _ & _ & Ht & _).
      destruct (served_frame E n1) as (_ & _ & Ht' & _).
      rewrite selectListener_tcp in Hln by congruence.
      rewrite Hp in Hln. discriminate. }
    split.
    + intros ch rts st. by apply genRouter_interface_fail with n0.
    + intros r res Hin H. unfold GenRouters in H.
      apply bind_Ok_inv in H as ([[ch st0] bg] & _ & H).
      revert H. apply serveLoop_fail with ns; [apply Hno | done].
  - intros ip ch rts st rt st' Hip Hok.
    apply genRouter_Ok in Hok
      as (m0 & n1 & au & cfg & ws & ttl & routes & lnCall & bound
          & Hm & H1 & Hln & _ & Hsrv & _).
    assert (m0 = n0) as -> by congruence.
    apply authUser_frame in H1 as (Ha & _ & _ & Ht & _ & Hv).
    destruct (served_frame E n1) as (Ha' & _ & Ht' & _ & Hv').
    rewrite selectListener_tcp in Hln by congruence.
    apply bind_Ok_inv in Hln as (st1 & _ & Hln).
    apply bind_Ok_inv in Hln as (addr & Haddr & Hln).
    inversion Hln; subst; clear Hln.
    rewrite (tcpListenAddr_ext E _ n0) in Haddr by congruence.
    destruct (tcpListenAddr_Ok E n0 ip addr Hif Hip Haddr) as (laddr & Hl & ->).
    exists laddr. split; [done |]. by rewrite Hsrv.
  - intros ip. unfold interfaceIPv4. split.
    + destruct (InterfaceByName E _) as [ief|]; [| discriminate].
      destruct (Addrs E ief) as [addrs|] eqn:Haddrs; [| discriminate].
      intros (pre & a & post & -> & Hpre & Ha)%firstIPv4_Some.
      by exists ief, pre, a, post.
    + intros (ief & pre & a & post & -> & -> & Hpre & Ha).
      apply firstIPv4_Some. by exists pre, a, post.
Qed.

(** *** Transports other than "tcp" *)

Lemma bind_ext {A B} (m : outcome A) (f g : A -> outcome B) :
  (forall a, f a = g a) -> m ≫= f = m ≫= g.
Proof. intros H. destruct m; simpl; [apply H | done..]. Qed.

Lemma selectListener_ext (E : Env) (byName : string -> result net.Interface)
  (addrs : net.Interface -> result (list net.IP)) (ch : Chain) (n : Node)
  (au : option Authenticator) (cfg : option tls.Config) (ws : WSOptions)
  (ttl : Z) (routes : list IPRoute) (st : Store) :
  Transport n <> "tcp" ->
  selectListener (withInterfaces byName addrs E) ch n au cfg ws ttl routes st
  = selectListener E ch n au cfg ws ttl routes st.
Proof.
  intros H. apply String.eqb_neq in H. unfold selectListener.
  rewrite !H. reflexivity.
Qed.

Lemma selectListener_addr (E : Env) (ch : Chain) (n : Node)
  (au : option Authenticator) (cfg : option tls.Config) (ws : WSOptions)
  (ttl : Z) (routes : list IPRoute) (st : Store) (c : ListenerCall)
  (st' : Store) :
  Transport n <> "tcp" ->
  selectListener E ch n au cfg ws ttl routes st = Ok (c, st') ->
  listenAddrOf c =
    if String.eqb (Transport n) "tun" || String.eqb (Transport n) "tap"
    then None else Some (Addr n).
Proof.
  intros Hne H. unfold selectListener in H.
  repeat match type of H with
         | context [String.eqb (Transport n) ?k] =>
             let Hk := fresh "Hk" in
             destruct (String.eqb (Transport n) k) eqn:Hk;
             [apply String.eqb_eq in Hk; rewrite Hk in *; simpl in H |]
         end;
    simpl in H; try done;
    repeat (apply bind_Ok_inv in H as (? & ? & H));
    repeat match type of H with
           | context [match ?x with _ => _ end] => destruct x
           end;
    try discriminate; simpl in H; inversion H; subst; simpl;
    try match goal with
        | Ha : String.eqb (Transport n) "tun" = false,
          Hb : String.eqb (Transport n) "tap" = false |- _ => rewrite Ha, Hb
        end;
    reflexivity.
Qed.

Lemma bind_ext_Ok {A B} (m : outcome A) (f g : A -> outcome B) :
  (forall a, m = Ok a -> f a = g a) -> m ≫= f = m ≫= g.
Proof. intros H. destruct m; simpl; [by apply H | done..]. Qed.

Lemma genRouter_ext (E : Env) (byName : string -> result net.Interface)
  (addrs : net.Interface -> result (list net.IP)) (ch : Chain)
  (rts : list router) (st : Store) (ns : string) (n0 : Node) :
  ParseNode E ns = Success n0 -> Transport n0 <> "tcp" ->
  genRouter (withInterfaces byName addrs E) ch rts st ns
  = genRouter E ch rts st ns.
Proof.
  intros H0 Hne. unfold genRouter.
  change (ParseNode (withInterfaces byName addrs E)) with (ParseNode E).
  apply bind_ext_Ok. intros m0 Hm0. rewrite H0 in Hm0.
  injection Hm0 as <-.
  change (authUser (withInterfaces byName addrs E)) with (authUser E).
  apply bind_ext_Ok. intros n1 H1.
  apply authUser_frame in H1 as (_ & _ & _ & Ht & _).
  apply bind_ext. intros au.
  change (parseUsers (withInterfaces byName addrs E)) with (parseUsers E).
  fold (served E n1).
  change (tlsConfig (withInterfaces byName addrs E)) with (tlsConfig E).
  destruct (tlsConfig E _ _ _) as [cfg err].
  apply bind_ext. intros _.
  rewrite selectListener_ext.
  - reflexivity.
  - destruct (served_frame E n1) as (_ & _ & Ht' & _). congruence.
Qed.

Lemma obfs4InitAll_ext (E : Env) (byName : string -> result net.Interface)
  (addrs : net.Interface -> result (list net.IP)) (nodes : list Node) :
  obfs4InitAll (withInterfaces byName addrs E) nodes = obfs4InitAll E nodes.
Proof.
  induction nodes as [|nd rest IH]; simpl; [done |].
  destruct (Obfs4Init E nd false); [done | exact IH].
Qed.

Lemma parseChainNode_ext (E : Env) (byName : string -> result net.Interface)
  (addrs : net.Interface -> result (list net.IP)) (st : Store) (ns : string) :
  parseChainNode (withInterfaces byName addrs E) st ns
  = parseChainNode E st ns.
Proof.
  unfold parseChainNode.
  apply bind_ext. intros n0. apply bind_ext. intros n1.
  apply bind_ext. intros [cfg sport]. apply bind_ext. intros tr.
  apply bind_ext. intros ssh. rewrite obfs4InitAll_ext. reflexivity.
Qed.

Lemma parseChainLoop_ext (E : Env) (byName : string -> result net.Interface)
  (addrs : net.Interface -> result (list net.IP)) (specs : list string) :
  forall (gid : Z) (ch : Chain) (st : Store) (bg : list (peerConfig * string)),
  parseChainLoop (withInterfaces byName addrs E) specs gid ch st bg
  = parseChainLoop E specs gid ch st bg.
Proof.
  induction specs as [|ns rest IH]; intros gid ch st bg; simpl; [done |].
  rewrite parseChainNode_ext. apply bind_ext. intros [parsed st1].
  apply bind_ext. intros n0. apply bind_ext. intros [[g st2] bg2]. apply IH.
Qed.

Lemma genRouter_unparsed (E : Env) (ch : Chain) (rts : list router)
  (st : Store) (ns : string) (e : error) :
  ParseNode E ns = Failure e -> genRouter E ch rts st ns = Err e.
Proof. intros H. unfold genRouter. by rewrite H. Qed.

Lemma serveLoop_ext (E : Env) (byName : string -> result net.Interface)
  (addrs : net.Interface -> result (list net.IP)) (ch : Chain)
  (specs : list string) :
  (forall ns n0, ns ∈ specs -> ParseNode E ns = Success n0 ->
                 Transport n0 <> "tcp") ->
  forall (rts : list router) (st : Store),
  serveLoop (withInterfaces byName addrs E) ch specs rts st
  = serveLoop E ch specs rts st.
Proof.
  induction specs as [|ns rest IH]; intros Hall rts st; simpl; [done |].
  assert (genRouter (withInterfaces byName addrs E) ch rts st ns
          = genRouter E ch rts st ns) as ->.
  { destruct (ParseNode E ns) as [n0|e] eqn:H0.
    - apply genRouter_ext with n0; [done |].
      apply (Hall ns n0); [apply list_elem_of_here | done].
    - by rewrite !(genRouter_unparsed _ _ _ _ _ e). }
  apply bind_ext. intros [rt st1]. apply IH.
  intros ns' n0 Hin. apply Hall. by apply list_elem_of_further.
Qed.

(** C9 (as amended).  For a serve node whose transport key is not "tcp"
    the host's network interfaces play no part: [genRouter] gives the same
    outcome on a host with any other interfaces, so a [sourceInterface]
    option is ignored and a missing interface fails nothing.  The listener
    is built on the address of the spec, except for the "tun" and "tap"
    transports, whose listeners are given no listen address.  When no serve
    node of a route has the "tcp" transport, [GenRouters] as a whole does
    not depend on the interfaces. *)
Theorem other_transports_ignore_interface (E : Env) (ns : string) (n0 : Node) :
  ParseNode E ns = Success n0 ->
  Transport n0 <> "tcp" ->
  (forall byName addrs ch rts st,
      genRouter (withInterfaces byName addrs E) ch rts st ns
      = genRouter E ch rts st ns) /\
  (forall ch rts st rt st',
      genRouter E ch rts st ns = Ok (rt, st') ->
      listenAddrOf (built (Listener_ (server rt))) =
        if String.eqb (Transport n0) "tun" || String.eqb (Transport n0) "tap"
        then None else Some (Addr n0)) /\
  (forall byName addrs r,
      (forall ns' n', ns' ∈ ServeNodes r -> ParseNode E ns' = Success n' ->
                      Transport n' <> "tcp") ->
      GenRouters (withInterfaces byName addrs E) r = GenRouters E r).
Proof.
  intros H0 Hne. split; [| split].
  - intros byName addrs ch rts st. by apply genRouter_ext with n0.
  - intros ch rts st rt st' Hok.
    apply genRouter_Ok in Hok
      as (m0 & n1 & au & cfg & ws & ttl & routes & lnCall & bound
          & Hm & H1 & Hln & _ & Hsrv & _).
    assert (m0 = n0) as -> by congruence.
    apply authUser_frame in H1 as (Ha & _ & _ & Ht & _).
    destruct (served_frame E n1) as (Ha' & _ & Ht' & _).
    apply selectListener_addr in Hln; [| congruence].
    rewrite Hsrv. simpl. rewrite Hln. by rewrite Ht', Ht, Ha', Ha.
  - intros byName addrs r Hall. unfold GenRouters, parseChain.
    rewrite parseChainLoop_ext. apply bind_ext. intros [[ch st] bg].
    by apply serveLoop_ext.
Qed.

(** *** When [parseChainNode] gives up *)

Lemma bind_Err_inv {A B} (m : outcome A) (f : A -> outcome B) (e : error) :
  m ≫= f = Err e -> m = Err e \/ exists a, m = Ok a /\ f a = Err e.
Proof. destruct m; simpl; [eauto | intros [= ->]; by left | discriminate]. Qed.

Lemma call_Err_inv {A} (r : result A) (e : error) :
  call r = Err e -> r = Failure e.
Proof. destruct r; simpl; congruence. Qed.

Lemma authUser_Err (E : Env) (n : Node) (e : error) :
  authUser E n = Err e ->
  User n = None /\ Get n "auth" <> "" /\
  DecodeString E (Get n "auth") = Failure e.
Proof.
  unfold authUser.
  destruct (nonempty _) eqn:Ha; simpl; [| discriminate].
  case_bool_decide as Hu; simpl; [| discriminate].
  apply nonempty_true in Ha.
  destruct (DecodeString E _); simpl; [discriminate |].
  by intros [= ->].
Qed.

Lemma resolveUser_Err (E : Env) (n : Node) (e : error) :
  resolveUser E n = Err e ->
  (User n = None /\ Get n "auth" <> "" /\
   DecodeString E (Get n "auth") = Failure e) \/
  (exists n1 users,
      authUser E n = Ok n1 /\ User n1 = None /\
      parseUsers E (Get n1 "secrets") = (users, Some e)).
Proof.
  unfold resolveUser. intros H.
  apply bind_Err_inv in H as [H | (n1 & H1 & H)].
  - left. by apply authUser_Err.
  - right. destruct (User n1) eqn:Hu; [discriminate |].
    destruct (parseUsers E (Get n1 "secrets")) as [users [err|]] eqn:Hs.
    + exists n1, users. injection H as ->. by rewrite Hs.
    + by destruct users.
Qed.

Lemma resolveUser_secrets_Err (E : Env) (n n1 : Node)
  (users : list url.Userinfo) (e : error) :
  authUser E n = Ok n1 -> User n1 = None ->
  parseUsers E (Get n1 "secrets") = (users, Some e) ->
  resolveUser E n = Err e.
Proof.
  intros H1 Hu Hs. unfold resolveUser. rewrite H1. simpl. by rewrite Hu, Hs.
Qed.

Lemma resolveUser_auth_Err (E : Env) (n : Node) (e : error) :
  User n = None -> Get n "auth" <> "" ->
  DecodeString E (Get n "auth") = Failure e ->
  resolveUser E n = Err e.
Proof.
  intros Hu Ha Hd. unfold resolveUser, authUser.
  apply nonempty_true in Ha. rewrite Ha, Hu. simpl. by rewrite Hd.
Qed.

Lemma kcpConfig_Err (E : Env) (n : Node) (e : error) :
  kcpConfig E n = Err e <-> parseKCPConfig E (Get n "c") = Failure e.
Proof.
  unfold kcpConfig. destruct (parseKCPConfig E _) as [[c|]|]; simpl;
    split; congruence.
Qed.

Lemma selectTransporter_Err (E : Env) (n : Node) (cfg : tls.Config)
  (ws : WSOptions) (e : error) :
  selectTransporter E n cfg ws = Err e <->
  Transport n = "kcp" /\ parseKCPConfig E (Get n "c") = Failure e.
Proof.
  split.
  - unfold selectTransporter. intros H.
    repeat match type of H with
           | context [String.eqb (Transport n) ?k] =>
               let Hk := fresh "Hk" in
               destruct (String.eqb (Transport n) k) eqn:Hk;
               [apply String.eqb_eq in Hk; rewrite Hk in *; simpl in H |]
           end;
      simpl in H; try discriminate.
    + apply bind_Err_inv in H as [H | (c & _ & H)]; [| discriminate].
      by apply kcpConfig_Err in H.
    + by destruct (_ || _).
  - intros [Ht Hk]. unfold selectTransporter. rewrite Ht. simpl.
    apply kcpConfig_Err in Hk. by rewrite Hk.
Qed.

Lemma chainSSHConfig_Err (E : Env) (n : Node) (e : error) :
  chainSSHConfig E n = Err e <->
  Get n "ssh_key" <> "" /\ ParseSSHKeyFile E (Get n "ssh_key") = Failure e.
Proof.
  unfold chainSSHConfig.
  destruct (nonempty _) eqn:Hs; simpl.
  - apply nonempty_true in Hs.
    destruct (ParseSSHKeyFile E _); simpl; split; try congruence.
    + by intros [_ ?].
    + by intros [= ->].
    + by intros [_ [= ->]].
  - apply nonempty_false in Hs. split; [discriminate |]. by intros [? _].
Qed.

Lemma obfs4InitAll_Err (E : Env) (nodes : list Node) (e : error) :
  obfs4InitAll E nodes = Err e <->
  exists pre nd post,
    nodes = pre ++ nd :: post /\
    Forall (fun x => Obfs4Init E x false = None) pre /\
    Obfs4Init E nd false = Some e.
Proof.
  induction nodes as [|x rest IH]; simpl.
  - split; [discriminate |]. intros (pre & nd & post & H & _). by destruct pre.
  - destruct (Obfs4Init E x false) as [err|] eqn:Hx.
    + split.
      * intros [= ->]. by exists [], x, rest.
      * intros (pre & nd & post & H & Hpre & Hnd).
        destruct pre as [|y pre]; simpl in H; inversion H; subst.
        -- congruence.
        -- apply Forall_cons in Hpre as [Hy _]. congruence.
    + rewrite IH. split.
      * intros (pre & nd & post & -> & Hpre & Hnd).
        exists (x :: pre), nd, post. repeat split; [| done].
        by apply Forall_cons.
      * intros (pre & nd & post & H & Hpre & Hnd).
        destruct pre as [|y pre]; simpl in H; inversion H; subst.
        -- congruence.
        -- apply Forall_cons in Hpre as [_ Hpre]. by exists pre, nd, post.
Qed.

(** [parseChainNode] from its SSH key step on, once the steps before went
    through. *)
Lemma parseChainNode_steps (E : Env) (st : Store) (ns : string) (n0 n1 : Node)
  (cfg : tls.Config) (sport : string) (tr : Transporter) :
  ParseNode E ns = Success n0 ->
  resolveUser E n0 = Ok n1 ->
  chainTLSConfig E n1 = Ok (cfg, sport) ->
  selectTransporter E n1 cfg (chainWSOptions E n1) = Ok tr ->
  parseChainNode E st ns =
  (ssh ← chainSSHConfig E (dialed E n1);
   let nodes := expandIPs (chainBase E st n1) (chainHandshake E n1 cfg ssh)
                  (parseIP E (Get n1 "ip") sport) in
   _ ← (if String.eqb (Transport n1) "obfs4"
        then obfs4InitAll E nodes else Ok ());
   Ok (nodes, st ++ [mkClient (selectConnector n1) tr])).
Proof.
  intros H0 H1 H2 H3. unfold parseChainNode.
  rewrite H0. simpl. rewrite H1. simpl. rewrite H2. simpl.
  rewrite H3. reflexivity.
Qed.

(** C2 (as amended).  [parseChainNode] returns an error, and with it no
    node at all, exactly for one of these causes: the spec is malformed; the
    [auth] option, consulted when the spec embeds no credential, fails
    base64 decoding; the secrets file, consulted when there is still no
    credential, is unreadable; the CA file is unreadable; the KCP
    configuration of a "kcp" node or the SSH key file is unreadable; or the
    obfs4 negotiation fails for any expanded node.  It never panics, so a
    spec with none of these causes yields its nodes: a client key pair that
    does not load and the IP expansion abort nothing. *)
Theorem chain_node_aborts (E : Env) (st : Store) (ns : string) :
  (forall e, parseChainNode E st ns = Err e <-> abortCause E st ns e) /\
  (forall p, parseChainNode E st ns <> Panic p) /\
  ((exists res, parseChainNode E st ns = Ok res) \/
   (exists e, abortCause E st ns e)).
Proof.
  assert (forall e, parseChainNode E st ns = Err e <-> abortCause E st ns e)
    as Hiff.
  { intros e. split.
    - intros H. unfold parseChainNode in H.
      apply bind_Err_inv in H as [H | (n0 & H0 & H)].
      { apply call_Err_inv in H. by apply MalformedSpec. }
      apply call_Ok_inv in H0.
      apply bind_Err_inv in H as [H | (n1 & H1 & H)].
      { apply resolveUser_Err in H
          as [(Hu & Ha & Hd) | (n1 & users & H1 & Hu & Hs)].
        - by apply MalformedAuth with n0.
        - by apply UnreadableSecrets with n0 n1 users. }
      apply bind_Err_inv in H as [H | ([cfg sport] & H2 & H)].
      { apply chainTLSConfig_Err in H. by apply UnreadableCA with n0 n1. }
      pose proof (chainTLSConfig_Ok _ _ _ _ H2) as (-> & Hca & _).
      apply bind_Err_inv in H as [H | (tr & H3 & H)].
      { apply selectTransporter_Err in H as [Ht Hk].
        by apply UnreadableKCPConfig with n0 n1 (tls.RootCAs cfg). }
      apply bind_Err_inv in H as [H | (ssh & H4 & H)].
      { apply chainSSHConfig_Err in H as [Hs Hk].
        by apply UnreadableSSHKey with n0 n1 cfg tr. }
      apply bind_Err_inv in H as [H | (u & _ & H)]; [| discriminate].
      simpl in H. destruct (String.eqb (Transport n1) "obfs4") eqn:Ht;
        [| discriminate].
      apply String.eqb_eq in Ht.
      apply obfs4InitAll_Err in H as (pre & nd & post & Hn & Hpre & Hnd).
      by apply FailedNegotiation with n0 n1 cfg tr ssh pre nd post.
    - intros [e' H0
             | n0 e' H0 Hu Ha Hd
             | n0 n1 users e' H0 H1 Hu Hs
             | n0 n1 e' H0 H1 Hca
             | n0 n1 pool e' H0 H1 Hca Ht Hk
             | n0 n1 cfg tr e' H0 H1 H2 H3 Hs Hk
             | n0 n1 cfg tr ssh pre nd post e' H0 H1 H2 H3 H4 Ht Hn Hpre Hnd].
      + unfold parseChainNode. by rewrite H0.
      + unfold parseChainNode. rewrite H0. simpl.
        by rewrite (resolveUser_auth_Err E n0 e').
      + unfold parseChainNode. rewrite H0. simpl.
        by rewrite (resolveUser_secrets_Err E n0 n1 users e').
      + unfold parseChainNode. rewrite H0. simpl. rewrite H1. simpl.
        apply chainTLSConfig_Err in Hca. by rewrite Hca.
      + destruct (chainTLSConfig_total E n1 pool Hca) as [cfg H2].
        unfold parseChainNode. rewrite H0. simpl. rewrite H1. simpl.
        rewrite H2. simpl.
        assert (selectTransporter E n1 cfg (chainWSOptions E n1) = Err e')
          as -> by (by apply selectTransporter_Err).
        done.
      + rewrite (parseChainNode_steps E st ns n0 n1 cfg _ tr H0 H1 H2 H3).
        assert (chainSSHConfig E (dialed E n1) = Err e') as ->
            by (by apply chainSSHConfig_Err).
        done.
      + rewrite (parseChainNode_steps E st ns n0 n1 cfg _ tr H0 H1 H2 H3).
        rewrite H4. simpl. rewrite Ht. simpl. rewrite Hn.
        assert (obfs4InitAll E (pre ++ nd :: post) = Err e') as ->
            by (apply obfs4InitAll_Err; by exists pre, nd, post).
        done. }
  split; [exact Hiff |]. split; [apply parseChainNode_no_panic |].
  destruct (parseChainNode E st ns) as [res|e|p] eqn:H.
  - left. by exists res.
  - right. exists e. by apply Hiff.
  - by apply parseChainNode_no_panic in H.
Qed.

(** ** The claims on the office host *)

Lemma chain_nodes_nonempty_witness :
  exists parsed st',
    parseChainNode (Demo.env Hosts.office) []
      "http://10.0.0.2:8080?ip=1.2.3.4,1.2.3.5" = Ok (parsed, st') /\
    parsed <> [].
Proof.
  destruct (parseChainNode (Demo.env Hosts.office) []
              "http://10.0.0.2:8080?ip=1.2.3.4,1.2.3.5")
    as [[parsed st']| |] eqn:Hp; [| vm_compute in Hp; discriminate Hp..].
  exists parsed, st'. split; [reflexivity |].
  exact (proj1 (proj1 (chain_nodes_nonempty (Demo.env Hosts.office))
                  _ _ _ _ Hp)).
Defined.

Lemma office_tcp_valid (ns : string) :
  ns = "socks5://u:p@10.0.0.1:1080" \/
  ns = "http://10.0.0.2:8080?ip=1.2.3.4,1.2.3.5" ->
  validSpec (Demo.env Hosts.office) ns.
Proof.
  intros [-> | ->] st.
  - destruct (parseChainNode (Demo.env Hosts.office) st _)
      as [[parsed st']| |] eqn:Hp; [| vm_compute in Hp; discriminate Hp..].
    exists parsed, st'. split; [reflexivity |].
    vm_compute in Hp. injection Hp as <- <-.
    intros n0 Hhead Hpeer. vm_compute in Hhead. injection Hhead as <-.
    exfalso. apply Hpeer. evaluated.
  - destruct (parseChainNode (Demo.env Hosts.office) st _)
      as [[parsed st']| |] eqn:Hp; [| vm_compute in Hp; discriminate Hp..].
    exists parsed, st'. split; [reflexivity |].
    vm_compute in Hp. injection Hp as <- <-.
    intros n0 Hhead Hpeer. vm_compute in Hhead. injection Hhead as <-.
    exfalso. apply Hpeer. evaluated.
Defined.

Lemma chain_group_and_node_ids_witness :
  let r := Hosts.chaining ["socks5://u:p@10.0.0.1:1080";
                           "http://10.0.0.2:8080?ip=1.2.3.4,1.2.3.5"] in
  Forall (validSpec (Demo.env Hosts.office)) (ChainNodes r) /\
  exists chain st bg,
    parseChain (Demo.env Hosts.office) r = Ok (chain, st, bg) /\
    length (nodeGroups chain) = 2%nat /\
    forall g, nodeGroups chain !! 1%nat = Some g -> gID g = 2.
Proof.
  intros r.
  assert (Forall (validSpec (Demo.env Hosts.office)) (ChainNodes r)) as Hv.
  { repeat constructor; apply office_tcp_valid; auto. }
  split; [exact Hv |].
  destruct (chain_group_and_node_ids (Demo.env Hosts.office) r Hv)
    as (_ & chain & st & bg & Hp & Hlen & Hk).
  exists chain, st, bg. split; [exact Hp |]. split; [exact Hlen |].
  intros g Hg.
  refine (proj1 (Hk 1%nat "http://10.0.0.2:8080?ip=1.2.3.4,1.2.3.5" g
                   eq_refl Hg _)).
  vm_compute. reflexivity.
Defined.

Lemma credential_priority_witness :
  let n := Demo.spec "socks5" "tcp" "10.0.0.3:1080" None [("auth", "dTpw")] in
  User n = None /\ Get n "auth" <> "" /\
  DecodeString (Demo.env Hosts.office) (Get n "auth") = Success "u:p" /\
  resolveUser (Demo.env Hosts.office) n
  = Ok (set_User (Some (url.UserPassword "u" "p")) n).
Proof.
  intros n.
  assert (Get n "auth" <> "") as Ha by (intros H; vm_compute in H; discriminate H).
  assert (DecodeString (Demo.env Hosts.office) (Get n "auth") = Success "u:p")
    as Hd by evaluated.
  split; [reflexivity |]. split; [exact Ha |]. split; [exact Hd |].
  destruct (credential_priority (Demo.env Hosts.office))
    as (_ & Hauth & Hpair & _).
  rewrite (Hauth n "u:p" eq_refl Ha Hd).
  pose proof (Hpair "u" "p" eq_refl) as Hs.
  change ("u" +:+ String ":" "p") with "u:p" in Hs. by rewrite Hs.
Defined.

Lemma ip_fan_out_witness :
  exists parsed st',
    parseChainNode (Demo.env Hosts.office) []
      "http://10.0.0.2:8080?ip=1.2.3.4,1.2.3.5" = Ok (parsed, st') /\
    Addr <$> parsed = ["1.2.3.4:8080"; "1.2.3.5:8080"].
Proof.
  destruct (parseChainNode (Demo.env Hosts.office) []
              "http://10.0.0.2:8080?ip=1.2.3.4,1.2.3.5")
    as [[parsed st']| |] eqn:Hp; [| vm_compute in Hp; discriminate Hp..].
  exists parsed, st'. split; [reflexivity |].
  destruct ip_fan_out as (_ & Hmany & Hparsed).
  destruct (Hparsed _ _ _ _ _ Hp) as (n0 & n1 & cfg & ssh & H0 & H1 & ->).
  vm_compute in H0. injection H0 as <-.
  vm_compute in H1. injection H1 as <-.
  assert (parseIP (Demo.env Hosts.office)
            (Get (Demo.spec "http" "tcp" "10.0.0.2:8080" None
                    [("ip", "1.2.3.4,1.2.3.5")]) "ip")
            (sportOf (Demo.env Hosts.office)
               (Demo.spec "http" "tcp" "10.0.0.2:8080" None
                  [("ip", "1.2.3.4,1.2.3.5")]))
          = ["1.2.3.4:8080"; "1.2.3.5:8080"]) as Hips by evaluated.
  match goal with
  | |- Addr <$> expandIPs ?b ?hs ?ips = _ =>
      change ips with
        (parseIP (Demo.env Hosts.office)
           (Get (Demo.spec "http" "tcp" "10.0.0.2:8080" None
                   [("ip", "1.2.3.4,1.2.3.5")]) "ip")
           (sportOf (Demo.env Hosts.office)
              (Demo.spec "http" "tcp" "10.0.0.2:8080" None
                 [("ip", "1.2.3.4,1.2.3.5")])));
      rewrite Hips;
      exact (proj1 (proj2 (proj2 (Hmany b hs ["1.2.3.4:8080"; "1.2.3.5:8080"]
                                    ltac:(discriminate)))))
  end.
Defined.

Lemma key_pair_best_effort_witness :
  let n := Demo.spec "http2" "http2" "10.0.0.4:443" None
             [("cert", "client.pem"); ("key", "client.key"); ("ca", "ca.pem")] in
  loadCA (Demo.env Hosts.office) (Get n "ca") = Success (Some ["ca.pem"]) /\
  LoadX509KeyPair (Demo.env Hosts.office) (Get n "cert") (Get n "key")
  = Failure "open client.pem: no such file" /\
  exists cfg,
    chainTLSConfig (Demo.env Hosts.office) n
    = Ok (cfg, sportOf (Demo.env Hosts.office) n) /\
    tls.Certificates cfg = [].
Proof.
  intros n.
  assert (loadCA (Demo.env Hosts.office) (Get n "ca") = Success (Some ["ca.pem"]))
    as Hca by evaluated.
  assert (LoadX509KeyPair (Demo.env Hosts.office) (Get n "cert") (Get n "key")
          = Failure "open client.pem: no such file") as Hpair by evaluated.
  split; [exact Hca |]. split; [exact Hpair |].
  destruct (proj1 (proj2 (key_pair_best_effort (Demo.env Hosts.office)))
              n _ Hca) as (cfg & Hcfg & Hcerts).
  exists cfg. split; [exact Hcfg |]. by rewrite Hcerts, Hpair.
Defined.

Lemma chain_tls_settings_witness :
  exists parsed st',
    parseChainNode (Demo.env Hosts.office) []
      "http2://10.0.0.4:443?cert=client.pem&key=client.key&ca=ca.pem"
    = Ok (parsed, st') /\
    exists cfg,
      (forall nd, nd ∈ parsed -> tlsConfigOf nd = [cfg]) /\
      tls.ServerName cfg = "10.0.0.4" /\
      tls.InsecureSkipVerify cfg = true /\
      tls.VerifyConnection cfg
      = Some (manualVerify (Demo.env Hosts.office) ["ca.pem"]).
Proof.
  destruct (parseChainNode (Demo.env Hosts.office) []
              "http2://10.0.0.4:443?cert=client.pem&key=client.key&ca=ca.pem")
    as [[parsed st']| |] eqn:Hp; [| vm_compute in Hp; discriminate Hp..].
  exists parsed, st'. split; [reflexivity |].
  destruct (chain_tls_settings _ _ _ _ _ Hp)
    as (n0 & n1 & cfg & H0 & H1 & _ & Hall & Hname & Hskip & Hca & Hverify & _).
  vm_compute in H0. injection H0 as <-.
  vm_compute in H1. injection H1 as <-.
  exists cfg. split; [exact Hall |].
  split; [rewrite Hname; evaluated |].
  split; [rewrite Hskip; evaluated |].
  rewrite Hverify.
  assert (Success (tls.RootCAs cfg)
          = Success (Some ["ca.pem"] : option x509.CertPool)) as Hroot
      by (rewrite <- Hca; evaluated).
  injection Hroot as ->. reflexivity.
Defined.

Lemma unknown_keys_default_witness :
  let n := Demo.spec "gopher" "carrier" "10.0.0.5:70" None [] in
  (Transport n ∉ chainTransports) /\ (Protocol n ∉ chainProtocols) /\
  (Protocol n ∉ serveProtocols) /\
  (forall cfg ws,
      selectTransporter (Demo.env Hosts.office) n cfg ws = Ok TCPTransporter) /\
  selectConnector n = AutoConnector None /\
  selectHandler n = AutoHandler.
Proof.
  intros n.
  assert (Transport n ∉ chainTransports) as Ht by not_listed.
  assert (Protocol n ∉ chainProtocols) as Hp by not_listed.
  assert (Protocol n ∉ serveProtocols) as Hs by not_listed.
  do 3 (split; [assumption |]).
  destruct (unknown_keys_default (Demo.env Hosts.office))
    as (Htr & Hconn & Hh & _).
  split; [intros cfg ws; by apply Htr |].
  split; [by rewrite Hconn | by rewrite Hh].
Defined.

Lemma source_interface_tcp_witness :
  let ns := "red://:12345?sourceInterface=eth7" in
  let n0 := Demo.spec "red" "tcp" ":12345" None [("sourceInterface", "eth7")] in
  ParseNode (Demo.env Hosts.office) ns = Success n0 /\
  Transport n0 = "tcp" /\
  Get n0 "sourceInterface" <> "" /\
  interfaceIPv4 (Demo.env Hosts.office) (Get n0 "sourceInterface") = None /\
  forall res, GenRouters (Demo.env Hosts.office) (Hosts.serving ns) <> Ok res.
Proof.
  intros ns n0.
  assert (ParseNode (Demo.env Hosts.office) ns = Success n0) as H0 by evaluated.
  assert (Get n0 "sourceInterface" <> "") as Hif
      by (intros H; vm_compute in H; discriminate H).
  assert (interfaceIPv4 (Demo.env Hosts.office) (Get n0 "sourceInterface") = None)
    as Hnone by evaluated.
  split; [exact H0 |]. split; [reflexivity |]. split; [exact Hif |].
  split; [exact Hnone |].
  intros res.
  apply (proj2 (proj1 (source_interface_tcp (Demo.env Hosts.office) ns n0
                         H0 eq_refl Hif) Hnone)).
  apply list_elem_of_here.
Defined.

(** C1, as stated, fails: the serve node [socks5+ws://:8080] names the
    interface eth7, which the office host does not have, and [GenRouters]
    returns its router all the same. *)
Lemma interface_ignored_by_ws :
  ~ failsFastOnInterface (Demo.env Hosts.office)
      (Hosts.serving "socks5+ws://:8080?sourceInterface=eth7").
Proof.
  intros H.
  destruct (H "socks5+ws://:8080?sourceInterface=eth7"
              (Demo.spec "socks5" "ws" ":8080" None
                 [("sourceInterface", "eth7")])) as [e He].
  - apply list_elem_of_here.
  - evaluated.
  - intros Hif. vm_compute in Hif. discriminate Hif.
  - evaluated.
  - vm_compute in He. discriminate He.
Qed.

Lemma other_transports_ignore_interface_witness :
  let ns := "socks5+ws://:8080?sourceInterface=eth7" in
  let n0 := Demo.spec "socks5" "ws" ":8080" None [("sourceInterface", "eth7")] in
  ParseNode (Demo.env Hosts.office) ns = Success n0 /\
  Transport n0 <> "tcp" /\
  forall byName addrs ch rts st rt st',
    genRouter (withInterfaces byName addrs (Demo.env Hosts.office)) ch rts st ns
    = Ok (rt, st') ->
    listenAddrOf (built (Listener_ (server rt))) = Some ":8080".
Proof.
  intros ns n0.
  assert (ParseNode (Demo.env Hosts.office) ns = Success n0) as H0 by evaluated.
  assert (Transport n0 <> "tcp") as Hne by discriminate.
  split; [exact H0 |]. split; [exact Hne |].
  destruct (other_transports_ignore_interface (Demo.env Hosts.office) ns n0
              H0 Hne) as (Hsame & Haddr & _).
  intros byName addrs ch rts st rt st' Hok.
  rewrite Hsame in Hok. by rewrite (Haddr _ _ _ _ _ Hok).
Defined.

(** C9, as stated, fails: the listener of the serve node [tun://:0] is a
    tun device made from the [net] option; it is given no listen address,
    so it is not bound to the address of the spec. *)
Lemma tun_listener_has_no_address :
  ~ boundToSpecAddr (Demo.env Hosts.office) NewChain [] []
      "tun://:0?net=10.1.0.1/24&sourceInterface=eth7".
Proof.
  intros H.
  destruct (genRouter (Demo.env Hosts.office) NewChain [] []
              "tun://:0?net=10.1.0.1/24&sourceInterface=eth7")
    as [[rt st']| |] eqn:Hg; [| vm_compute in Hg; discriminate Hg..].
  specialize (H (Demo.spec "tun" "tun" ":0" None
                   [("net", "10.1.0.1/24"); ("sourceInterface", "eth7")])
                rt st').
  assert (listenAddrOf (built (Listener_ (server rt))) = None) as Hnone.
  { vm_compute in Hg. injection Hg as <- _. reflexivity. }
  specialize (H ltac:(evaluated) ltac:(discriminate) Hg).
  rewrite Hnone in H. discriminate H.
Qed.

Lemma chain_node_aborts_witness :
  abortCause (Demo.env Hosts.office) [] "socks5://" "invalid node" /\
  parseChainNode (Demo.env Hosts.office) [] "socks5://" = Err "invalid node".
Proof.
  assert (abortCause (Demo.env Hosts.office) [] "socks5://" "invalid node")
    as Hcause by (apply MalformedSpec; evaluated).
  split; [exact Hcause |].
  by apply (proj1 (chain_node_aborts (Demo.env Hosts.office) [] "socks5://")).
Defined.

(** C2, as stated, fails: the chain node [http2://10.0.0.4:443] names a
    client certificate and key that cannot be read, and [parseChainNode]
    returns its node all the same. *)
Lemma unreadable_key_pair_is_no_abort :
  ~ abortsOnKeyPair (Demo.env Hosts.office) []
      "http2://10.0.0.4:443?cert=client.pem&key=client.key&ca=ca.pem".
Proof.
  intros H.
  destruct (H (Demo.spec "http2" "http2" "10.0.0.4:443" None
                 [("cert", "client.pem"); ("key", "client.key");
                  ("ca", "ca.pem")])
              "open client.pem: no such file") as [e He].
  - evaluated.
  - evaluated.
  - vm_compute in He. discriminate He.
Qed.


(** ** Further properties of route.go *)

(** What a successful [genRouter] went through, with its handler. *)
Lemma genRouter_steps (E : Env) (ch : Chain) (rts : list router) (st : Store)
  (ns : string) (rt : router) (st' : Store) :
  genRouter E ch rts st ns = Ok (rt, st') ->
  exists n0 n1 au0 cfg err ws ttl routes lnCall bound wl bl,
    ParseNode E ns = Success n0 /\
    authUser E n0 = Ok n1 /\
    parseAuthenticator E (Get n1 "secrets") = Success au0 /\
    tlsConfig E (Get n1 "cert") (Get n1 "key") (Get n1 "ca") = (cfg, err) /\
    (err = None \/ Get n1 "cert" = "" \/ Get n1 "key" = "") /\
    selectListener E ch (served E n1) (serveAuthenticator au0 n1) cfg ws ttl
      routes st = Ok (lnCall, st') /\
    listen E (map (fun rt => Listener_ (server rt)) rts) lnCall
      = Success bound /\
    (wl = None <-> Get n1 "whitelist" = "") /\
    (forall p, wl = Some p ->
               ParsePermissions E (Get n1 "whitelist") = Success p) /\
    (bl = None <-> Get n1 "blacklist" = "") /\
    (forall p, bl = Some p ->
               ParsePermissions E (Get n1 "blacklist") = Success p) /\
    node rt = set_Bypass (parseBypass E (Get n1 "bypass")) (served E n1) /\
    server rt = mkServer (mkListener lnCall bound) /\
    chain rt = ch /\
    kind (handler rt) = selectHandler (served E n1) /\
    take 7 (inits (handler rt)) =
      [AddrHandlerOption bound;
       ChainHandlerOption;
       UsersHandlerOption (User (served E n1));
       AuthenticatorHandlerOption (serveAuthenticator au0 n1);
       TLSConfigHandlerOption cfg;
       WhitelistHandlerOption wl;
       BlacklistHandlerOption bl] /\
    Forall (fun o => isSecondPass o = false) (take 23 (inits (handler rt))) /\
    drop 23 (inits (handler rt)) =
      (if isRedirect (served E n1)
       then [PreserveSrcHandlerOption (GetBool E (node rt) "preserveSrc");
             ProxyNetnsHandlerOption (Get (node rt) "proxyNetns")]
       else []).
Proof.
  unfold genRouter. intros H.
  apply bind_Ok_inv in H as (n0 & H0 & H). apply call_Ok_inv in H0.
  apply bind_Ok_inv in H as (n1 & H1 & H).
  apply bind_Ok_inv in H as (au0 & Hau & H). apply call_Ok_inv in Hau.
  fold (served E n1) in H. fold (serveAuthenticator au0 n1) in H.
  assert (forall k, Get (served E n1) k = Get n1 k) as Hget.
  { intros k. unfold Get. by destruct (served_frame E n1) as (_ & _ & _ & _ & ->). }
  rewrite !Hget in H.
  destruct (tlsConfig E _ _ _) as [cfg err] eqn:Htls.
  apply bind_Ok_inv in H as (u & Hgate & H).
  apply bind_Ok_inv in H as ([lnCall st1] & Hln & H).
  apply bind_Ok_inv in H as (bound & Hb & H). apply call_Ok_inv in Hb.
  apply bind_Ok_inv in H as (wl & Hwl & H).
  apply bind_Ok_inv in H as (bl & Hbl & H).
  inversion H; subst; clear H. simpl.
  eexists n0, n1, au0, cfg, err, _, _, _, lnCall, bound, wl, bl.
  split; [exact H0 |]. split; [exact H1 |]. split; [exact Hau |].
  split; [exact Htls |].
  split.
  { destruct err as [e|]; [| by left]. right.
    destruct (nonempty (Get n1 "cert")) eqn:Hc;
      [| apply nonempty_false in Hc; by left].
    destruct (nonempty (Get n1 "key")) eqn:Hk;
      [| apply nonempty_false in Hk; by right].
    discriminate Hgate. }
  split; [eassumption |]. split; [assumption |].
  assert ((wl = None <-> Get n1 "whitelist" = "") /\
          (forall p, wl = Some p ->
                     ParsePermissions E (Get n1 "whitelist") = Success p))
    as [Hwl1 Hwl2].
  { change (url.Get (Values (served E n1)) "whitelist")
      with (Get (served E n1) "whitelist") in Hwl. rewrite Hget in Hwl.
    destruct (nonempty (Get n1 "whitelist")) eqn:Hw.
    - apply bind_Ok_inv in Hwl as (p & Hp & Hwl). apply call_Ok_inv in Hp.
      inversion Hwl. apply nonempty_true in Hw.
      split; [split; [discriminate | done] |]. by intros p' [= <-].
    - inversion Hwl. apply nonempty_false in Hw. split; [done | discriminate]. }
  assert ((bl = None <-> Get n1 "blacklist" = "") /\
          (forall p, bl = Some p ->
                     ParsePermissions E (Get n1 "blacklist") = Success p))
    as [Hbl1 Hbl2].
  { change (url.Get (Values (served E n1)) "blacklist")
      with (Get (served E n1) "blacklist") in Hbl. rewrite Hget in Hbl.
    destruct (nonempty (Get n1 "blacklist")) eqn:Hw.
    - apply bind_Ok_inv in Hbl as (p & Hp & Hbl). apply call_Ok_inv in Hp.
      inversion Hbl. apply nonempty_true in Hw.
      split; [split; [discriminate | done] |]. by intros p' [= <-].
    - inversion Hbl. apply nonempty_false in Hw. split; [done | discriminate]. }
  do 4 (split; [assumption |]).
  do 3 (split; [reflexivity |]).
  unfold isRedirect.
  destruct (String.eqb (Protocol (served E n1)) "red"
            || String.eqb (Protocol (served E n1)) "redirect");
    simpl; (split; [reflexivity |]); (split; [reflexivity |]);
    (split; [repeat constructor | reflexivity]).
Qed.

(** *** Routers and their chain *)

Lemma parseChain_settings (E : Env) (r : route) (ch : Chain) (st : Store)
  (bg : list (peerConfig * string)) :
  parseChain E r = Ok (ch, st, bg) ->
  Retries ch = route_Retries r /\ Mark ch = route_Mark r /\
  Interface ch = route_Interface r /\
  length (nodeGroups ch) = length (ChainNodes r).
Proof.
  unfold parseChain. intros H.
  apply parseChainLoop_Ok in H as (gs & -> & Hlen & _). by simpl.
Qed.

(** X1.  When [GenRouters] succeeds it returns one router per serve spec,
    in the order of the specs; every router holds the one chain that
    [parseChain] built, which carries the retry count, mark and interface of
    the route and one group per chain spec; and the node of the k-th router
    has the address, protocol and transport of the k-th spec. *)
Theorem routers_follow_specs (E : Env) (r : route) (rts : list router)
  (st : Store) :
  GenRouters E r = Ok (rts, st) ->
  length rts = length (ServeNodes r) /\
  exists ch st0 bg,
    parseChain E r = Ok (ch, st0, bg) /\
    Retries ch = route_Retries r /\ Mark ch = route_Mark r /\
    Interface ch = route_Interface r /\
    length (nodeGroups ch) = length (ChainNodes r) /\
    forall (k : nat) (ns : string),
      ServeNodes r !! k = Some ns ->
      exists rt n0,
        rts !! k = Some rt /\ ParseNode E ns = Success n0 /\
        chain rt = ch /\ Addr (node rt) = Addr n0 /\
        Protocol (node rt) = Protocol n0 /\
        Transport (node rt) = Transport n0.
Proof.
  intros H. apply GenRouters_Ok in H as (ch & st0 & bg & Hc & Hlen & H).
  split; [exact Hlen |]. exists ch, st0, bg. split; [exact Hc |].
  destruct (parseChain_settings E r ch st0 bg Hc) as (Hs1 & Hs2 & Hs3 & Hs4).
  do 4 (split; [assumption |]).
  intros k ns Hk. destruct (H k ns Hk) as (rt & sta & stb & Hrt & Hg).
  apply genRouter_steps in Hg
    as (n0 & n1 & au0 & cfg & err & ws & ttl & routes & lnCall & bound & wl & bl
        & H0 & H1 & _ & _ & _ & _ & _ & _ & _ & _ & _ & Hnode & _ & Hch & _).
  exists rt, n0. do 3 (split; [assumption |]).
  apply authUser_frame in H1 as (Ha & _ & Hp & Ht & _).
  destruct (served_frame E n1) as (Ha' & Hp' & Ht' & _).
  rewrite Hnode. simpl. by rewrite Ha', Hp', Ht', Ha, Hp, Ht.
Qed.

Lemma serveLoop_first_error (E : Env) (ch : Chain) (pre : list string) :
  forall (ns : string) (post : list string) (rts0 rts1 : list router)
         (st0 st1 : Store) (e : error),
  serveLoop E ch pre rts0 st0 = Ok (rts1, st1) ->
  genRouter E ch rts1 st1 ns = Err e ->
  serveLoop E ch (pre ++ ns :: post) rts0 st0 = Err e.
Proof.
  induction pre as [|x pre IH]; intros ns post rts0 rts1 st0 st1 e; simpl.
  - intros [= <- <-] Hg. by rewrite Hg.
  - intros H Hg. apply bind_Ok_inv in H as ([rt st2] & Hx & H).
    rewrite Hx. simpl. by apply IH with rts1 st1.
Qed.

(** X2.  [GenRouters] stops at the first error and returns it with no
    router: the error of [parseChain], or else the error of the first serve
    spec whose router cannot be built, the routers of the specs before it
    being dropped. *)
Theorem first_error_wins (E : Env) (r : route) :
  (forall e, parseChain E r = Err e -> GenRouters E r = Err e) /\
  (forall ch st0 bg pre ns post rts1 st1 e,
      parseChain E r = Ok (ch, st0, bg) ->
      ServeNodes r = pre ++ ns :: post ->
      serveLoop E ch pre [] st0 = Ok (rts1, st1) ->
      genRouter E ch rts1 st1 ns = Err e ->
      GenRouters E r = Err e).
Proof.
  split.
  - intros e H. unfold GenRouters. by rewrite H.
  - intros ch st0 bg pre ns post rts1 st1 e Hc Hs Hpre Hg.
    unfold GenRouters. rewrite Hc, Hs. simpl.
    by apply serveLoop_first_error with rts1 st1.
Qed.

(** *** The handler of a serve node *)

(** X3.  The authenticator handed to the handler of a serve node is the one
    that [parseAuthenticator] gives for the [secrets] option; when it gives
    none and the spec has a credential (embedded, or from the [auth]
    option), it is a local authenticator with that one user and password;
    with neither there is none.  A credential taken afterwards from the
    secrets file makes no local authenticator. *)
Theorem authenticator_of_serve_node (E : Env) (ch : Chain) (rts : list router)
  (st : Store) (ns : string) (rt : router) (st' : Store) :
  genRouter E ch rts st ns = Ok (rt, st') ->
  exists n0 n1 au0,
    ParseNode E ns = Success n0 /\ authUser E n0 = Ok n1 /\
    parseAuthenticator E (Get n0 "secrets") = Success au0 /\
    inits (handler rt) !! 3%nat =
      Some (AuthenticatorHandlerOption
              match au0, User n1 with
              | Some au, _ => Some au
              | None, Some u =>
                  Some (LocalAuthenticator [(url.username u, url.password u)])
              | None, None => None
              end).
Proof.
  intros H.
  apply genRouter_steps in H
    as (n0 & n1 & au0 & cfg & err & ws & ttl & routes & lnCall & bound & wl & bl
        & H0 & H1 & Hau & _ & _ & _ & _ & _ & _ & _ & _ & _ & _ & _ & _
        & Htake & _).
  exists n0, n1, au0. do 2 (split; [assumption |]).
  split.
  { apply authUser_frame in H1 as (_ & _ & _ & _ & _ & Hv).
    unfold Get in *. by rewrite <- Hv. }
  apply (f_equal (fun l => l !! 3%nat)) in Htake.
  rewrite lookup_take_lt in Htake by lia. rewrite Htake. simpl.
  unfold serveAuthenticator. by destruct au0, (User n1).
Qed.

(** X4.  The handler of a serve node is initialised once with 23 options,
    none of which is [PreserveSrc] or [ProxyNetns]; a second [Init] with
    exactly these two follows when, and only when, the protocol key is
    "red" or "redirect". *)
Theorem redirect_second_init (E : Env) (ch : Chain) (rts : list router)
  (st : Store) (ns : string) (rt : router) (st' : Store) :
  genRouter E ch rts st ns = Ok (rt, st') ->
  exists n0,
    ParseNode E ns = Success n0 /\
    Forall (fun o => isSecondPass o = false) (take 23 (inits (handler rt))) /\
    drop 23 (inits (handler rt)) =
      (if String.eqb (Protocol n0) "red" || String.eqb (Protocol n0) "redirect"
       then [PreserveSrcHandlerOption (GetBool E (node rt) "preserveSrc");
             ProxyNetnsHandlerOption (Get n0 "proxyNetns")]
       else []).
Proof.
  intros H.
  apply genRouter_steps in H
    as (n0 & n1 & au0 & cfg & err & ws & ttl & routes & lnCall & bound & wl & bl
        & H0 & H1 & _ & _ & _ & _ & _ & _ & _ & _ & _ & Hnode & _ & _ & _
        & _ & Hfirst & Hsecond).
  exists n0. split; [assumption |]. split; [assumption |].
  rewrite Hsecond. unfold isRedirect.
  apply authUser_frame in H1 as (_ & _ & Hp & _ & _ & Hv).
  destruct (served_frame E n1) as (_ & Hp' & _ & _ & Hv').
  rewrite Hp', Hp.
  replace (Get (node rt) "proxyNetns") with (Get n0 "proxyNetns"); [done |].
  rewrite Hnode. unfold Get. simpl. by rewrite Hv', Hv.
Qed.


(** *** The SSH port-forward patch *)

Lemma last_Nodes (ch : Chain) :
  Protocol (LastNode ch) = "forward" -> last (Nodes ch) = Some (LastNode ch).
Proof.
  unfold LastNode, Nodes.
  destruct (nodeGroups ch) as [|g gs] using rev_ind; [discriminate |].
  rewrite last_snoc. destruct (nodes g) as [|n ns] eqn:Hg; [discriminate |].
  intros _. rewrite omap_app. simpl. rewrite Hg. simpl.
  by rewrite last_snoc.
Qed.

(** X6.  Patching the last chain node for SSH port forwarding leaves the
    store as it is unless the last node of the chain is forward+ssh; then
    the one client that this node points to gets the given connector and the
    SSH forward transporter, and no other client changes.  Of the listener
    cases only "tcp" and "rtcp" patch: for every other transport key the
    store comes back unchanged. *)
Theorem ssh_forward_patch (E : Env) (ch : Chain) :
  (forall conn st st',
      sshForwardLastNode ch conn st = Ok st' ->
      length st' = length st /\
      (lastIsSSHForward ch = false -> st' = st) /\
      (lastIsSSHForward ch = true ->
       exists p,
         Client_ (LastNode ch) = Some p /\
         (p < length st ->
          st' !! p = Some (mkClient conn SSHForwardTransporter))%nat /\
         forall q, q <> p -> st' !! q = st !! q)) /\
  (forall n au cfg ws ttl routes st c st',
      selectListener E ch n au cfg ws ttl routes st = Ok (c, st') ->
      Transport n <> "tcp" -> Transport n <> "rtcp" -> st' = st).
Proof.
  split.
  - intros conn st st'. unfold sshForwardLastNode, lastIsSSHForward.
    destruct (String.eqb (Protocol (LastNode ch)) "forward") eqn:Hp; simpl.
    2: { intros [= <-]. split; [done |]. split; [done | discriminate]. }
    destruct (String.eqb (Transport (LastNode ch)) "ssh") eqn:Ht; simpl.
    2: { intros [= <-]. split; [done |]. split; [done | discriminate]. }
    apply String.eqb_eq in Hp. rewrite (last_Nodes ch Hp).
    destruct (Client_ (LastNode ch)) as [p|]; [| discriminate].
    intros [= <-]. unfold Store in *. split; [by rewrite !length_alter |].
    split; [discriminate |]. intros _. exists p. split; [done |]. split.
    + intros Hlt. destruct (lookup_lt_is_Some_2 st p Hlt) as [c Hc].
      rewrite list_lookup_alter_eq, list_lookup_alter_eq, Hc. by simpl.
    + intros q Hq. by rewrite !list_lookup_alter_ne.
  - intros n au cfg ws ttl routes st c st' H Htcp Hrtcp.
    apply String.eqb_neq in Htcp. apply String.eqb_neq in Hrtcp.
    unfold selectListener in H. rewrite Htcp, Hrtcp in H.
    repeat match type of H with
           | context [String.eqb (Transport n) ?k] =>
               destruct (String.eqb (Transport n) k)
           end;
      simpl in H;
      repeat (apply bind_Ok_inv in H as (? & ? & H));
      repeat match type of H with
             | context [match ?x with _ => _ end] => destruct x
             end;
      try discriminate; by inversion H.
Qed.

(** *** Peer files, SSH and KCP *)

(** X7.  When the first node of a chain spec names a peer file that cannot
    be opened, [parseChain] gives up with the error of [os.Open]: here for
    the first chain spec of a route, and likewise at any round of the loop. *)
Theorem peer_file_must_open (E : Env) (ns : string) (parsed : list Node)
  (n0 : Node) (e : error) :
  head (assignIDs parsed 1) = Some n0 ->
  Get n0 "peer" <> "" ->
  Open E (Get n0 "peer") = Failure e ->
  (forall st st1 rest gid ch bg,
      parseChainNode E st ns = Ok (parsed, st1) ->
      parseChainLoop E (ns :: rest) gid ch st bg = Err e) /\
  (forall r st1 rest,
      ChainNodes r = ns :: rest ->
      parseChainNode E [] ns = Ok (parsed, st1) ->
      parseChain E r = Err e /\ GenRouters E r = Err e).
Proof.
  intros Hhead Hpeer Hopen.
  assert (forall st st1 rest gid ch bg,
             parseChainNode E st ns = Ok (parsed, st1) ->
             parseChainLoop E (ns :: rest) gid ch st bg = Err e) as Hloop.
  { intros st st1 rest gid ch bg Hp. simpl. rewrite Hp. simpl.
    destruct (assignIDs parsed 1) as [|x xs] eqn:Hx; [discriminate |].
    injection Hhead as ->. simpl. unfold loadPeers.
    apply nonempty_true in Hpeer. rewrite Hpeer, Hopen. reflexivity. }
  split; [exact Hloop |].
  intros r st1 rest Hr Hp.
  assert (parseChain E r = Err e) as Hc.
  { unfold parseChain. rewrite Hr. by apply Hloop with st1. }
  split; [exact Hc |]. unfold GenRouters. by rewrite Hc.
Qed.

(** X8.  The "ssh" listener.  The key files named by [ssh_key] and
    [ssh_authorized_keys] are read for every "ssh" serve node, and an
    unreadable [ssh_key] file ends the construction, even when the protocol
    is "forward" and the listener is a plain TCP one that uses no SSH
    configuration.  Otherwise the listener is the SSH tunnel listener on
    the node address, with the authenticator and TLS configuration of the
    node; in neither case is the store touched. *)
Theorem ssh_listener (E : Env) (ch : Chain) (n : Node)
  (au : option Authenticator) (cfg : option tls.Config) (ws : WSOptions)
  (ttl : Z) (routes : list IPRoute) (st : Store) :
  Transport n = "ssh" ->
  (forall e, Get n "ssh_key" <> "" ->
             ParseSSHKeyFile E (Get n "ssh_key") = Failure e ->
             selectListener E ch n au cfg ws ttl routes st = Err e) /\
  (forall c st',
      selectListener E ch n au cfg ws ttl routes st = Ok (c, st') ->
      st' = st /\
      if String.eqb (Protocol n) "forward" then c = TCPListener (Addr n)
      else exists config,
          c = SSHTunnelListener (Addr n) config /\
          sshAuthenticator config = au /\ sshTLSConfig config = cfg /\
          (Get n "ssh_key" = "" -> Key config = None) /\
          (Get n "ssh_authorized_keys" = "" -> AuthorizedKeys config = None)).
Proof.
  intros Ht.
  assert (selectListener E ch n au cfg ws ttl routes st =
          (config ← sshListenConfig E n au cfg;
           if String.eqb (Protocol n) "forward"
           then Ok (TCPListener (Addr n), st)
           else Ok (SSHTunnelListener (Addr n) config, st))) as ->.
  { unfold selectListener. by rewrite Ht. }
  split.
  - intros e Hk Hfail. unfold sshListenConfig.
    apply nonempty_true in Hk. rewrite Hk, Hfail. reflexivity.
  - intros c st' H. apply bind_Ok_inv in H as (config & Hc & H).
    assert (sshAuthenticator config = au /\ sshTLSConfig config = cfg /\
            (Get n "ssh_key" = "" -> Key config = None) /\
            (Get n "ssh_authorized_keys" = "" -> AuthorizedKeys config = None))
      as Hconfig.
    { unfold sshListenConfig in Hc.
      apply bind_Ok_inv in Hc as (c1 & Hc1 & Hc).
      assert (sshAuthenticator c1 = au /\ sshTLSConfig c1 = cfg /\
              AuthorizedKeys c1 = None /\
              (Get n "ssh_key" = "" -> Key c1 = None)) as (Ha & Hb & Hd & Hk).
      { destruct (nonempty (Get n "ssh_key")) eqn:Hs.
        - apply bind_Ok_inv in Hc1 as (key & _ & Hc1). inversion Hc1. simpl.
          apply nonempty_true in Hs. by repeat split.
        - by inversion Hc1. }
      destruct (nonempty (Get n "ssh_authorized_keys")) eqn:Hs.
      - apply bind_Ok_inv in Hc as (keys & _ & Hc). inversion Hc. simpl.
        apply nonempty_true in Hs. by repeat split.
      - inversion Hc; subst. by repeat split. }
    destruct (String.eqb (Protocol n) "forward"); inversion H; subst.
    + done.
    + split; [done |]. by exists config.
Qed.

(** X9.  The KCP configuration of a "kcp" node, on the chain side and on
    the serve side alike: a configuration found through the [c] option is
    used as it is, whatever the [tcp] option says; with none, the default
    configuration is used, with its TCP mode switched on when the [tcp]
    option is set; an unreadable configuration is an error. *)
Theorem kcp_config_choice (E : Env) (n : Node) :
  (forall c, parseKCPConfig E (Get n "c") = Success (Some c) ->
             kcpConfig E n = Ok c) /\
  (parseKCPConfig E (Get n "c") = Success None ->
   kcpConfig E n =
   Ok (mkKCPConfig (GetBool E n "tcp" || TCP (DefaultKCPConfig E))
         (kcpSettings (DefaultKCPConfig E)))) /\
  (forall e, parseKCPConfig E (Get n "c") = Failure e ->
             kcpConfig E n = Err e) /\
  (Transport n = "kcp" ->
   (forall cfg ws,
       selectTransporter E n cfg ws = (c ← kcpConfig E n; Ok (KCPTransporter c))) /\
   (forall ch au cfg ws ttl routes st,
       selectListener E ch n au cfg ws ttl routes st =
       (c ← kcpConfig E n; Ok (KCPListener (Addr n) c, st)))).
Proof.
  split; [| split; [| split]].
  - intros c H. unfold kcpConfig. by rewrite H.
  - intros H. unfold kcpConfig. rewrite H. simpl.
    destruct (DefaultKCPConfig E) as [tcp settings]. simpl.
    by destruct (GetBool E n "tcp").
  - intros e H. unfold kcpConfig. by rewrite H.
  - intros Ht. split.
    + intros cfg ws. unfold selectTransporter. by rewrite Ht.
    + intros ch au cfg ws ttl routes st. unfold selectListener. by rewrite Ht.
Qed.

(** *** The "tcp" listener *)

Lemma tcpListenAddr_plain (E : Env) (n : Node) :
  Get n "sourceInterface" = "" -> tcpListenAddr E n = Ok (Addr n).
Proof.
  intros H. unfold tcpListenAddr. apply nonempty_false in H. by rewrite H.
Qed.

Lemma selectListener_plain_ext (E : Env)
  (byName : string -> result net.Interface)
  (addrs : net.Interface -> result (list net.IP)) (ch : Chain) (n : Node)
  (au : option Authenticator) (cfg : option tls.Config) (ws : WSOptions)
  (ttl : Z) (routes : list IPRoute) (st : Store) :
  Get n "sourceInterface" = "" ->
  selectListener (withInterfaces byName addrs E) ch n au cfg ws ttl routes st
  = selectListener E ch n au cfg ws ttl routes st.
Proof.
  intros H. destruct (String.eqb (Transport n) "tcp") eqn:Ht.
  - apply String.eqb_eq in Ht. rewrite !selectListener_tcp by done.
    by rewrite !tcpListenAddr_plain.
  - apply String.eqb_neq in Ht. by apply selectListener_ext.
Qed.

(** X10.  A "tcp" serve node without a [sourceInterface] option listens on
    the address of its spec, and the network interfaces of the host play no
    part: [genRouter] gives the same outcome whatever the interfaces are. *)
Theorem tcp_plain_listener (E : Env) (ns : string) (n0 : Node) :
  ParseNode E ns = Success n0 ->
  Transport n0 = "tcp" ->
  Get n0 "sourceInterface" = "" ->
  (forall byName addrs ch rts st,
      genRouter (withInterfaces byName addrs E) ch rts st ns
      = genRouter E ch rts st ns) /\
  (forall ch rts st rt st',
      genRouter E ch rts st ns = Ok (rt, st') ->
      built (Listener_ (server rt)) = TCPListener (Addr n0)).
Proof.
  intros H0 Ht Hif.
  assert (forall n1, authUser E n0 = Ok n1 ->
                     Get (served E n1) "sourceInterface" = "" /\
                     Transport (served E n1) = "tcp" /\
                     Addr (served E n1) = Addr n0) as Hserved.
  { intros n1 H1.
    apply authUser_frame in H1 as (Ha & _ & _ & Htr & _ & Hv).
    destruct (served_frame E n1) as (Ha' & _ & Htr' & _ & Hv').
    unfold Get in *. rewrite Hv', Hv, Htr', Htr, Ha', Ha. done. }
  split.
  - intros byName addrs ch rts st. unfold genRouter.
    change (ParseNode (withInterfaces byName addrs E)) with (ParseNode E).
    apply bind_ext_Ok. intros m0 Hm0. rewrite H0 in Hm0.
    injection Hm0 as <-.
    change (authUser (withInterfaces byName addrs E)) with (authUser E).
    apply bind_ext_Ok. intros n1 H1.
    apply bind_ext. intros au.
    change (parseUsers (withInterfaces byName addrs E)) with (parseUsers E).
    fold (served E n1).
    change (tlsConfig (withInterfaces byName addrs E)) with (tlsConfig E).
    destruct (tlsConfig E _ _ _) as [cfg err].
    apply bind_ext. intros _.
    rewrite selectListener_plain_ext; [reflexivity |].
    by apply Hserved.
  - intros ch rts st rt st' H.
    apply genRouter_Ok in H
      as (m0 & n1 & au & cfg & ws & ttl & routes & lnCall & bound
          & Hm & H1 & Hln & _ & Hsrv & _).
    assert (m0 = n0) as -> by congruence.
    destruct (Hserved n1 H1) as (Hif' & Ht' & Ha').
    rewrite selectListener_tcp in Hln by done.
    apply bind_Ok_inv in Hln as (st1 & _ & Hln).
    rewrite tcpListenAddr_plain in Hln by done. simpl in Hln.
    inversion Hln; subst. rewrite Hsrv. simpl. by rewrite Ha'.
Qed.

(** X11.  The errors of the listen address of a "tcp" node with a source
    interface.  A missing interface, a failure to list its addresses and
    the lack of an IPv4 address each give a message of their own that names
    the interface, the error of the lookup being dropped; when the interface
    has an IPv4 address but the spec address does not resolve, the error of
    [net.ResolveTCPAddr] is returned as it is.  There is no other error. *)
Theorem tcp_listen_errors (E : Env) (n : Node) (e : error) :
  Get n "sourceInterface" <> "" ->
  let ifName := Get n "sourceInterface" in
  tcpListenAddr E n = Err e <->
  (exists e0, InterfaceByName E ifName = Failure e0 /\
              e = "your interface " +:+ ifName +:+ " is error") \/
  (exists ief e0,
      InterfaceByName E ifName = Success ief /\ Addrs E ief = Failure e0 /\
      e = "your interface " +:+ ifName +:+ " is does not have address") \/
  (exists ief addrs,
      InterfaceByName E ifName = Success ief /\
      Addrs E ief = Success addrs /\ firstIPv4 addrs = None /\
      e = "your interface " +:+ ifName +:+ " don't have an ipv4 address"
          +:+ String "010" "") \/
  (exists ip, interfaceIPv4 E ifName = Some ip /\
              ResolveTCPAddr E "tcp" (Addr n) = Failure e).
Proof.
  intros Hif ifName. unfold tcpListenAddr, interfaceIPv4. fold ifName.
  apply nonempty_true in Hif. fold ifName in Hif. rewrite Hif.
  destruct (InterfaceByName E ifName) as [ief|e0] eqn:Hby.
  2: { split.
       - intros [= <-]. left. by exists e0.
       - intros [(e1 & _ & ->) | [(? & ? & ? & _) | [(? & ? & ? & _)
                                                    | (? & ? & _)]]];
           [done | discriminate..]. }
  destruct (Addrs E ief) as [addrs|e0] eqn:Haddrs.
  2: { split.
       - intros [= <-]. right. left. by exists ief, e0.
       - intros [(? & ? & _) | [(? & ? & _ & _ & ->) | [(? & ? & [= <-] & ? & _)
                                                       | (? & ? & _)]]];
           [discriminate | done | congruence | discriminate]. }
  destruct (firstIPv4 addrs) as [ip|] eqn:Hip.
  - split.
    + intros H. apply bind_Err_inv in H as [H | (? & _ & H)]; [| discriminate].
      apply call_Err_inv in H. right. right. right. by exists ip.
    + intros [(? & ? & _) | [(? & ? & [= <-] & ? & _)
                            | [(? & ? & [= <-] & ? & ? & _) | (? & _ & H)]]];
        [discriminate | congruence | congruence |].
      by rewrite H.
  - split.
    + intros [= <-]. right. right. left. by exists ief, addrs.
    + intros [(? & ? & _) | [(? & ? & [= <-] & ? & _)
                            | [(? & ? & _ & _ & _ & ->) | (? & ? & _)]]];
        [discriminate | congruence | done | discriminate].
Qed.

(** *** Node IDs, dial options and permissions *)

Lemma parseChainNode_peer_option (E : Env) (st : Store) (ns : string)
  (parsed : list Node) (st' : Store) (m0 n0 : Node) :
  parseChainNode E st ns = Ok (parsed, st') ->
  ParseNode E ns = Success m0 ->
  head (assignIDs parsed 1) = Some n0 ->
  Get n0 "peer" = Get m0 "peer".
Proof.
  intros Hp Hm Hhead.
  apply parseChainNode_nodes in Hp
    as (m & n1 & cfg & tr & H0 & H1 & _ & _ & _ & Hall).
  assert (m = m0) as -> by congruence.
  apply resolveUser_frame in H1 as (_ & _ & _ & _ & _ & Hv).
  destruct (assignIDs parsed 1) as [|x rest] eqn:Hx; [discriminate |].
  injection Hhead as ->.
  assert (assignIDs parsed 1 !! 0%nat = Some n0) as Hi by (by rewrite Hx).
  apply assignIDs_lookup in Hi as (nd0 & Hnd0 & ->).
  assert (nd0 ∈ parsed) as Hin by (by apply list_elem_of_lookup; exists 0%nat).
  apply Hall in Hin as (_ & Hs).
  destruct Hs as (_ & _ & _ & _ & _ & _ & Hvals & _).
  unfold Get. simpl. rewrite Hvals. simpl. by rewrite Hv.
Qed.

(** X12.  The IDs that [parseChain] gives the nodes of a spec are pairwise
    distinct and lie between 1 and the number of nodes (for fewer than 2^63
    nodes, the range of a Go int).  So within every group of the chain whose
    spec names no peer file, no two nodes have the same ID. *)
Theorem node_ids_distinct :
  (forall parsed : list Node,
      Z.of_nat (length parsed) < 2 ^ 63 ->
      NoDup (ID <$> assignIDs parsed 1) /\
      forall nd, nd ∈ assignIDs parsed 1 ->
                 1 <= ID nd <= Z.of_nat (length parsed)) /\
  (forall E r ch st bg k ns m0 g,
      parseChain E r = Ok (ch, st, bg) ->
      ChainNodes r !! k = Some ns ->
      nodeGroups ch !! k = Some g ->
      ParseNode E ns = Success m0 ->
      Get m0 "peer" = "" ->
      Z.of_nat (length (nodes g)) < 2 ^ 63 ->
      NoDup (ID <$> nodes g)).
Proof.
  assert (forall parsed : list Node,
             Z.of_nat (length parsed) < 2 ^ 63 ->
             NoDup (ID <$> assignIDs parsed 1) /\
             forall nd, nd ∈ assignIDs parsed 1 ->
                        1 <= ID nd <= Z.of_nat (length parsed)) as Hids.
  { intros parsed Hlen.
    assert (forall i nd, assignIDs parsed 1 !! i = Some nd ->
                         ID nd = 1 + Z.of_nat i /\ (i < length parsed)%nat)
      as Hid.
    { intros i nd Hi.
      assert (i < length parsed)%nat as Hlt.
      { apply lookup_lt_Some in Hi. by rewrite assignIDs_length in Hi. }
      apply assignIDs_lookup in Hi as (nd0 & _ & ->). simpl.
      split; [| done]. apply iter_incr; lia. }
    split.
    - apply NoDup_alt. intros i j x Hi Hj.
      rewrite list_lookup_fmap in Hi, Hj.
      destruct (assignIDs parsed 1 !! i) as [a|] eqn:Ha; [| discriminate].
      destruct (assignIDs parsed 1 !! j) as [b|] eqn:Hb; [| discriminate].
      apply Hid in Ha as [Ha _]. apply Hid in Hb as [Hb _].
      simpl in Hi, Hj. injection Hi as <-. injection Hj as Hj. lia.
    - intros nd (i & Hi)%list_elem_of_lookup.
      apply Hid in Hi as [-> Hlt]. lia. }
  split; [exact Hids |].
  intros E r ch st bg k ns m0 g Hc Hns Hg Hm Hpeer Hlen.
  unfold parseChain in Hc.
  apply parseChainLoop_Ok in Hc as (gs & -> & _ & Hgs). simpl in Hg.
  destruct (Hgs k ns g Hns Hg)
    as (_ & st0 & parsed & st1 & n0 & Hp & Hhead & Hplain & _).
  rewrite (parseChainNode_peer_option E st0 ns parsed st1 m0 n0 Hp Hm Hhead)
    in Hplain.
  specialize (Hplain Hpeer). subst g. simpl in *.
  rewrite assignIDs_length in Hlen. by apply Hids.
Qed.

Lemma resolveUser_set (E : Env) (n n' : Node) :
  resolveUser E n = Ok n' -> n' = set_User (User n') n.
Proof.
  unfold resolveUser, authUser. intros H.
  apply bind_Ok_inv in H as (n1 & H1 & H).
  assert (n1 = set_User (User n1) n) as Hn1.
  { destruct (_ && _).
    - apply bind_Ok_inv in H1 as (cs & _ & H1). by inversion H1.
    - inversion H1. by destruct n1. }
  destruct (User n1) eqn:Hu.
  - injection H as <-. by rewrite Hu.
  - destruct (parseUsers E _) as [users [err|]]; [discriminate |].
    destruct users as [|u users]; injection H as <-.
    + by rewrite Hu.
    + rewrite Hn1 at 1. reflexivity.
Qed.

(** X13.  Every node that [parseChainNode] returns for a spec dials with
    the timeout of the [timeout] option and with the host of the [host]
    option, or else the host of the spec, and hands the same host and
    timeout to the handshake; a node made for an IP of the [ip] option
    keeps the host of the spec, and its handshake options still begin with
    the address of the spec. *)
Theorem host_and_timeout_options (E : Env) (st : Store) (ns : string)
  (parsed : list Node) (st' : Store) :
  parseChainNode E st ns = Ok (parsed, st') ->
  exists n0 n1,
    ParseNode E ns = Success n0 /\ resolveUser E n0 = Ok n1 /\
    let host := if String.eqb (Get n0 "host") "" then Host n0
                else Get n0 "host" in
    let timeout := GetDuration E n1 "timeout" in
    forall nd, nd ∈ parsed ->
      Host nd = Host n0 /\
      DialOptions nd =
        DialOptions n0 ++ [TimeoutDialOption timeout; HostDialOption host] /\
      take 2 (HandshakeOptions nd) =
        [AddrHandshakeOption (Addr n0); HostHandshakeOption host] /\
      HandshakeOptions nd !! 5%nat = Some (TimeoutHandshakeOption timeout).
Proof.
  intros H.
  apply parseChainNode_Ok in H
    as (n0 & n1 & cfg & sport & tr & ssh & H0 & H1 & _ & _ & _ & _ & -> & _).
  exists n0, n1. do 2 (split; [assumption |]).
  pose proof (resolveUser_set E n0 n1 H1) as Hn1.
  assert (Host n1 = Host n0 /\ Addr n1 = Addr n0 /\
          DialOptions n1 = DialOptions n0 /\ Get n1 "host" = Get n0 "host")
    as (Hh & Ha & Hd & Hg) by (by rewrite Hn1).
  assert (chainHost n1 = if String.eqb (Get n0 "host") "" then Host n0
                         else Get n0 "host") as Hhost.
  { unfold chainHost, nonempty. rewrite Hg, Hh.
    by destruct (String.eqb (Get n0 "host") ""). }
  intros host timeout nd Hnd. subst host.
  destruct (parseIP E (Get n1 "ip") sport) as [|ip ips].
  - rewrite expandIPs_nil in Hnd. apply list_elem_of_singleton in Hnd as ->.
    simpl. rewrite Hhost, Hh, Hd, Ha. by repeat split.
  - rewrite expandIPs_cons in Hnd.
    apply list_elem_of_fmap in Hnd as (ip' & -> & _).
    simpl. rewrite Hhost, Hh, Hd, Ha. by repeat split.
Qed.

(** X14.  The permissions of a serve node.  An empty [whitelist] (or
    [blacklist]) option gives the handler no permissions of that kind; a
    non-empty one gives it what [gost.ParsePermissions] makes of the option,
    and no router is built when that fails. *)
Theorem permissions_of_serve_node (E : Env) (ch : Chain) (rts : list router)
  (st : Store) (ns : string) (n0 : Node) :
  ParseNode E ns = Success n0 ->
  (forall rt st',
      genRouter E ch rts st ns = Ok (rt, st') ->
      exists wl bl,
        inits (handler rt) !! 5%nat = Some (WhitelistHandlerOption wl) /\
        inits (handler rt) !! 6%nat = Some (BlacklistHandlerOption bl) /\
        (wl = None <-> Get n0 "whitelist" = "") /\
        (forall p, wl = Some p ->
                   ParsePermissions E (Get n0 "whitelist") = Success p) /\
        (bl = None <-> Get n0 "blacklist" = "") /\
        (forall p, bl = Some p ->
                   ParsePermissions E (Get n0 "blacklist") = Success p)) /\
  (forall e,
      (Get n0 "whitelist" <> "" /\
       ParsePermissions E (Get n0 "whitelist") = Failure e) \/
      (Get n0 "blacklist" <> "" /\
       ParsePermissions E (Get n0 "blacklist") = Failure e) ->
      forall res, genRouter E ch rts st ns <> Ok res).
Proof.
  intros H0.
  assert (forall rt st',
             genRouter E ch rts st ns = Ok (rt, st') ->
             exists wl bl,
               inits (handler rt) !! 5%nat = Some (WhitelistHandlerOption wl) /\
               inits (handler rt) !! 6%nat = Some (BlacklistHandlerOption bl) /\
               (wl = None <-> Get n0 "whitelist" = "") /\
               (forall p, wl = Some p ->
                          ParsePermissions E (Get n0 "whitelist") = Success p) /\
               (bl = None <-> Get n0 "blacklist" = "") /\
               (forall p, bl = Some p ->
                          ParsePermissions E (Get n0 "blacklist") = Success p))
    as Hok.
  { intros rt st' H.
    apply genRouter_steps in H
      as (m0 & n1 & au0 & cfg & err & ws & ttl & routes & lnCall & bound & wl
          & bl & Hm0 & H1 & _ & _ & _ & _ & _ & Hw1 & Hw2 & Hb1 & Hb2 & _ & _
          & _ & _ & Htake & _).
    assert (m0 = n0) as -> by congruence.
    assert (forall k, Get n1 k = Get n0 k) as Hget.
    { intros k. unfold Get.
      by apply authUser_frame in H1 as (_ & _ & _ & _ & _ & ->). }
    rewrite (Hget "whitelist") in Hw1, Hw2.
    rewrite (Hget "blacklist") in Hb1, Hb2.
    exists wl, bl.
    pose proof (f_equal (fun l => l !! 5%nat) Htake) as H5.
    pose proof (f_equal (fun l => l !! 6%nat) Htake) as H6.
    simpl in H5, H6. rewrite lookup_take_lt in H5, H6 by lia.
    split; [exact H5 |]. split; [exact H6 |]. split; [exact Hw1 |].
    split; [exact Hw2 |]. split; [exact Hb1 | exact Hb2]. }
  split; [exact Hok |].
  intros e Hfail [rt st'] H.
  destruct (Hok rt st' H) as (wl & bl & _ & _ & Hw1 & Hw2 & Hb1 & Hb2).
  destruct Hfail as [[Hne Hf] | [Hne Hf]].
  - destruct wl as [p|]; [| by apply Hne, Hw1].
    specialize (Hw2 p eq_refl). congruence.
  - destruct bl as [p|]; [| by apply Hne, Hb1].
    specialize (Hb2 p eq_refl). congruence.
Qed.

(** ** The further properties on the branch host *)

Lemma routers_follow_specs_witness :
  let r := mkRoute ["tcp://:2222"; "red://:12345"]
             ["forward+ssh://10.9.0.1:22"] 3 0 "" in
  exists rts st,
    GenRouters (Demo.env Sites.branch) r = Ok (rts, st) /\
    length rts = 2%nat /\
    exists ch st0 bg,
      parseChain (Demo.env Sites.branch) r = Ok (ch, st0, bg) /\ Retries ch = 3.
Proof.
  intros r.
  destruct (GenRouters (Demo.env Sites.branch) r) as [[rts st]| |] eqn:Hg;
    [| vm_compute in Hg; discriminate Hg..].
  exists rts, st. split; [reflexivity |].
  destruct (routers_follow_specs _ _ _ _ Hg)
    as (Hlen & ch & st0 & bg & Hc & Hr & _).
  split; [exact Hlen |]. by exists ch, st0, bg.
Defined.

Lemma first_error_wins_witness :
  let r := mkRoute ["tcp://:2222"] ["socks5://10.9.0.2:1080?peer=peers.txt"]
             0 0 "" in
  parseChain (Demo.env Sites.branch) r = Err "open peers.txt: no such file" /\
  GenRouters (Demo.env Sites.branch) r = Err "open peers.txt: no such file".
Proof.
  intros r.
  assert (parseChain (Demo.env Sites.branch) r
          = Err "open peers.txt: no such file") as Hc by evaluated.
  split; [exact Hc |].
  exact (proj1 (first_error_wins (Demo.env Sites.branch) r) _ Hc).
Defined.

Lemma authenticator_of_serve_node_witness :
  exists rt st',
    genRouter (Demo.env Sites.branch) NewChain [] [] "http://admin:pw@:8080"
    = Ok (rt, st') /\
    inits (handler rt) !! 3%nat
    = Some (AuthenticatorHandlerOption
              (Some (LocalAuthenticator [("admin", "pw")]))).
Proof.
  destruct (genRouter (Demo.env Sites.branch) NewChain [] []
              "http://admin:pw@:8080") as [[rt st']| |] eqn:Hg;
    [| vm_compute in Hg; discriminate Hg..].
  exists rt, st'. split; [reflexivity |].
  destruct (authenticator_of_serve_node _ _ _ _ _ _ _ Hg)
    as (n0 & n1 & au0 & H0 & H1 & Hau & ->).
  vm_compute in H0. injection H0 as <-.
  vm_compute in H1. injection H1 as <-.
  vm_compute in Hau. injection Hau as <-. reflexivity.
Defined.

Lemma redirect_second_init_witness :
  exists rt st',
    genRouter (Demo.env Sites.branch) NewChain [] [] "red://:12345"
    = Ok (rt, st') /\
    length (drop 23 (inits (handler rt))) = 2%nat.
Proof.
  destruct (genRouter (Demo.env Sites.branch) NewChain [] [] "red://:12345")
    as [[rt st']| |] eqn:Hg; [| vm_compute in Hg; discriminate Hg..].
  exists rt, st'. split; [reflexivity |].
  destruct (redirect_second_init _ _ _ _ _ _ _ Hg) as (n0 & H0 & _ & ->).
  vm_compute in H0. injection H0 as <-. reflexivity.
Defined.


Lemma ssh_forward_patch_witness :
  let r := mkRoute [] ["forward+ssh://10.9.0.1:22"] 0 0 "" in
  exists ch st bg st',
    parseChain (Demo.env Sites.branch) r = Ok (ch, st, bg) /\
    sshForwardLastNode ch SSHDirectForwardConnector st = Ok st' /\
    st' !! 0%nat = Some (mkClient SSHDirectForwardConnector SSHForwardTransporter).
Proof.
  intros r.
  destruct (parseChain (Demo.env Sites.branch) r) as [[[ch st] bg]| |] eqn:Hc;
    [| vm_compute in Hc; discriminate Hc..].
  destruct (sshForwardLastNode ch SSHDirectForwardConnector st)
    as [st'| |] eqn:Hp;
    [| vm_compute in Hc; injection Hc as <- <- _; vm_compute in Hp;
       discriminate Hp..].
  exists ch, st, bg, st'. split; [reflexivity |]. split; [exact Hp |].
  destruct (proj1 (ssh_forward_patch (Demo.env Sites.branch) ch) _ _ _ Hp)
    as (_ & _ & Hpatch).
  vm_compute in Hc. injection Hc as <- <- _.
  destruct (Hpatch eq_refl) as (p & Hclient & Hset & _).
  vm_compute in Hclient. injection Hclient as <-.
  apply Hset. simpl. lia.
Defined.

Lemma peer_file_must_open_witness :
  let ns := "socks5://10.9.0.2:1080?peer=peers.txt" in
  exists parsed st1,
    parseChainNode (Demo.env Sites.branch) [] ns = Ok (parsed, st1) /\
    length parsed = 1%nat /\
    forall rest gid ch bg,
      parseChainLoop (Demo.env Sites.branch) (ns :: rest) gid ch [] bg
      = Err "open peers.txt: no such file".
Proof.
  intros ns.
  destruct (parseChainNode (Demo.env Sites.branch) [] ns)
    as [[parsed st1]| |] eqn:Hp; [| vm_compute in Hp; discriminate Hp..].
  exists parsed, st1. split; [reflexivity |].
  assert (exists n0, head (assignIDs parsed 1) = Some n0 /\
                     Get n0 "peer" = "peers.txt" /\ length parsed = 1%nat)
    as (n0 & Hh & Hpeer & Hlen).
  { vm_compute in Hp. injection Hp as <- <-. eexists. split; [reflexivity |].
    split; evaluated. }
  split; [exact Hlen |]. intros rest gid ch bg.
  refine (proj1 (peer_file_must_open (Demo.env Sites.branch) ns parsed n0 _
                   Hh _ _) [] st1 rest gid ch bg Hp).
  - rewrite Hpeer. discriminate.
  - rewrite Hpeer. evaluated.
Defined.

Lemma ssh_listener_witness :
  let n := Demo.spec "forward" "ssh" ":2222" None [("ssh_key", "id_rsa")] in
  Transport n = "ssh" /\
  selectListener (Demo.env Sites.branch) NewChain n None None
    (mkWSOptions false 0 0 "" "") 0 [] []
  = Err "open id_rsa: no such file".
Proof.
  intros n. split; [reflexivity |].
  refine (proj1 (ssh_listener (Demo.env Sites.branch) NewChain n None None
                   (mkWSOptions false 0 0 "" "") 0 [] [] _) _ _ _).
  - reflexivity.
  - intros H. vm_compute in H. discriminate H.
  - evaluated.
Defined.

Lemma kcp_config_choice_witness :
  let n := Demo.spec "socks5" "kcp" ":4000" None
             [("c", "kcp.json"); ("tcp", "true")] in
  kcpConfig (Demo.env Sites.branch) n = Ok (mkKCPConfig false "kcp.json") /\
  forall ch au cfg ws ttl routes st,
    selectListener (Demo.env Sites.branch) ch n au cfg ws ttl routes st
    = Ok (KCPListener ":4000" (mkKCPConfig false "kcp.json"), st).
Proof.
  intros n.
  destruct (kcp_config_choice (Demo.env Sites.branch) n)
    as (Hfile & _ & _ & Hkcp).
  assert (kcpConfig (Demo.env Sites.branch) n
          = Ok (mkKCPConfig false "kcp.json")) as Hc.
  { apply Hfile. evaluated. }
  split; [exact Hc |]. intros ch au cfg ws ttl routes st.
  rewrite (proj2 (Hkcp eq_refl)), Hc. reflexivity.
Defined.

Lemma tcp_plain_listener_witness :
  exists rt st',
    genRouter (Demo.env Sites.branch) NewChain [] [] "tcp://:2222"
    = Ok (rt, st') /\
    built (Listener_ (server rt)) = TCPListener ":2222".
Proof.
  destruct (genRouter (Demo.env Sites.branch) NewChain [] [] "tcp://:2222")
    as [[rt st']| |] eqn:Hg; [| vm_compute in Hg; discriminate Hg..].
  exists rt, st'. split; [reflexivity |].
  refine (proj2 (tcp_plain_listener (Demo.env Sites.branch) "tcp://:2222"
                   (Demo.spec "tcp" "tcp" ":2222" None []) _ _ _)
            NewChain [] [] rt st' Hg); evaluated.
Defined.

Lemma tcp_listen_errors_witness :
  let n := Demo.spec "red" "tcp" ":12345" None [("sourceInterface", "wg0")] in
  tcpListenAddr (Demo.env Sites.branch) n
  = Err ("your interface wg0 don't have an ipv4 address" +:+ String "010" "").
Proof.
  intros n.
  apply (tcp_listen_errors (Demo.env Sites.branch) n).
  - intros H. vm_compute in H. discriminate H.
  - right. right. left.
    exists (net.mkInterface 1 "wg0"),
      [[253; 0; 0; 0; 0; 0; 0; 0; 0; 0; 0; 0; 0; 0; 0; 1]].
    repeat split; evaluated.
Defined.

Lemma node_ids_distinct_witness :
  let r := Hosts.chaining ["http://10.0.0.2:8080?ip=1.2.3.4,1.2.3.5"] in
  exists ch st bg g,
    parseChain (Demo.env Hosts.office) r = Ok (ch, st, bg) /\
    nodeGroups ch !! 0%nat = Some g /\
    length (nodes g) = 2%nat /\ NoDup (ID <$> nodes g).
Proof.
  intros r.
  destruct (parseChain (Demo.env Hosts.office) r) as [[[ch st] bg]| |] eqn:Hc;
    [| vm_compute in Hc; discriminate Hc..].
  assert (exists g, nodeGroups ch !! 0%nat = Some g /\
                    length (nodes g) = 2%nat) as (g & Hg & Hlen).
  { vm_compute in Hc. injection Hc as <- _ _. eexists. split; reflexivity. }
  exists ch, st, bg, g. split; [reflexivity |]. split; [exact Hg |].
  split; [exact Hlen |].
  refine (proj2 node_ids_distinct (Demo.env Hosts.office) r ch st bg 0%nat
            "http://10.0.0.2:8080?ip=1.2.3.4,1.2.3.5"
            (Demo.spec "http" "tcp" "10.0.0.2:8080" None
               [("ip", "1.2.3.4,1.2.3.5")]) g Hc _ Hg _ _ _);
    [reflexivity | evaluated | evaluated | rewrite Hlen; evaluated].
Defined.

Lemma host_and_timeout_options_witness :
  exists parsed st',
    parseChainNode (Demo.env Hosts.office) []
      "http://10.0.0.2:8080?ip=1.2.3.4,1.2.3.5" = Ok (parsed, st') /\
    length parsed = 2%nat /\
    forall nd, nd ∈ parsed ->
      Host nd = "10.0.0.2:8080" /\
      take 2 (HandshakeOptions nd) =
        [AddrHandshakeOption "10.0.0.2:8080";
         HostHandshakeOption "10.0.0.2:8080"].
Proof.
  destruct (parseChainNode (Demo.env Hosts.office) []
              "http://10.0.0.2:8080?ip=1.2.3.4,1.2.3.5")
    as [[parsed st']| |] eqn:Hp; [| vm_compute in Hp; discriminate Hp..].
  exists parsed, st'. split; [reflexivity |].
  assert (length parsed = 2%nat) as Hlen.
  { vm_compute in Hp. injection Hp as <- _. reflexivity. }
  split; [exact Hlen |].
  destruct (host_and_timeout_options _ _ _ _ _ Hp) as (n0 & n1 & H0 & _ & H).
  vm_compute in H0. injection H0 as <-.
  intros nd Hnd. destruct (H nd Hnd) as (Hhost & _ & Hhs & _).
  split; [exact Hhost | exact Hhs].
Defined.

Lemma permissions_of_serve_node_witness :
  exists rt st',
    genRouter (Demo.env Sites.branch) NewChain [] []
      "http://:8081?whitelist=tcp:*" = Ok (rt, st') /\
    inits (handler rt) !! 5%nat = Some (WhitelistHandlerOption (Some "tcp:*")) /\
    inits (handler rt) !! 6%nat = Some (BlacklistHandlerOption None).
Proof.
  destruct (genRouter (Demo.env Sites.branch) NewChain [] []
              "http://:8081?whitelist=tcp:*") as [[rt st']| |] eqn:Hg;
    [| vm_compute in Hg; discriminate Hg..].
  exists rt, st'. split; [reflexivity |].
  destruct (proj1 (permissions_of_serve_node (Demo.env Sites.branch) NewChain
                     [] [] "http://:8081?whitelist=tcp:*"
                     (Demo.spec "http" "tcp" ":8081" None
                        [("whitelist", "tcp:*")]) eq_refl) rt st' Hg)
    as (wl & bl & Hwl & Hbl & Hnone & Hsome & Hbnone & _).
  rewrite Hwl, Hbl. split.
  - destruct wl as [p|].
    + specialize (Hsome p eq_refl). vm_compute in Hsome.
      injection Hsome as <-. reflexivity.
    + destruct Hnone as [Hnone _]. specialize (Hnone eq_refl).
      vm_compute in Hnone. discriminate Hnone.
  - destruct Hbnone as [_ Hbnone]. rewrite Hbnone; [reflexivity | evaluated].
Defined.
